(** * MCPRegistry operator: sync manager, controller, format converter, API

    A shallow embedding of the reconciliation engine of the MCPRegistry
    operator (Go) and proofs about its sync state machine.

    Conventions of the embedding.
    - Go [int] / [time.Duration] are 64-bit: they are [Z] with the wrap-around
      written out ([wrap64]) where the code computes.
    - [time.Time] is an instant in nanoseconds ([Z]); [time.Now()] is an
      explicit argument [now].
    - A Go pointer that may be nil is an [option]; a Go [map[string]T] is a
      [gmap string T], under an [option] where the code tells a nil map from
      an empty one.
    - A Go [error] return is an [option error] ([None] is nil).
    - The cluster client is explicit state: the stored declaration is read by
      [Get] and written by [Update], each of which may fail. *)

From Stdlib Require Import ZArith Lia List Bool Ascii String.
From stdpp Require Import base option list gmap strings pretty.

Open Scope string_scope.
Open Scope Z_scope.

(* ===================================================================== *)
(** ** Go primitives *)
(* ===================================================================== *)

Module Go.

(** Two's complement wrap-around of a 64-bit signed integer. *)
Definition wrap64 (z : Z) : Z := (z + 2 ^ 63) mod 2 ^ 64 - 2 ^ 63.

Definition MinInt64 : Z := - 2 ^ 63.
Definition MaxInt64 : Z := 2 ^ 63 - 1.

Definition is_int64 (z : Z) : Prop := MinInt64 <= z <= MaxInt64.

(** [time.Time], as nanoseconds on one clock; [time.Duration] likewise. *)
Definition Time := Z.
Definition Duration := Z.

Definition Nanosecond : Duration := 1.
Definition Microsecond : Duration := 1000 * Nanosecond.
Definition Millisecond : Duration := 1000 * Microsecond.
Definition Second : Duration := 1000 * Millisecond.
Definition Minute : Duration := 60 * Second.
Definition Hour : Duration := 60 * Minute.

(** [t.Before(u)] *)
Definition Before (t u : Time) : bool := t <? u.

(** [t.Add(d)] *)
Definition Add (t : Time) (d : Duration) : Time := t + d.

(** The errors of the operator. [ErrNotFound] is the not-found status of the
    API server ([errors.IsNotFound]); [SourceHandlerError] wraps a cause the
    way the Go struct does ([Unwrap] returns [Err]); [fmtErrorf] is an error
    made by [fmt.Errorf] without a cause, [fmtErrorfW] one that wraps a cause
    with the verb [%w]. *)
Inductive error : Type :=
| ErrSourceNotFound
| ErrInvalidData
| ErrValidationFailed
| ErrUnsupportedFormat
| ErrNotFound
| ErrOther (msg : string)
| fmtErrorf (msg : string)
| fmtErrorfW (msg : string) (cause : error)
| SourceHandlerError (SourceType Operation Reason : string) (Err : error).

(** A call that returns [(T, error)]. *)
Inductive result (T : Type) : Type :=
| Ok (v : T)
| Err (e : error).
Arguments Ok {T} v.
Arguments Err {T} e.

(** [NewSourceHandlerError] *)
Definition NewSourceHandlerError (sourceType operation reason : string)
  (err : error) : error :=
  SourceHandlerError sourceType operation reason err.

(** The chain that [errors.Is] walks: the error, then what it wraps. *)
Fixpoint unwrap_chain (e : error) : list error :=
  e :: match e with
       | fmtErrorfW _ c => unwrap_chain c
       | SourceHandlerError _ _ _ c => unwrap_chain c
       | _ => []
       end.

Definition is_sentinel (e target : error) : bool :=
  match e, target with
  | ErrSourceNotFound, ErrSourceNotFound => true
  | ErrInvalidData, ErrInvalidData => true
  | ErrValidationFailed, ErrValidationFailed => true
  | ErrUnsupportedFormat, ErrUnsupportedFormat => true
  | _, _ => false
  end.

(** [errors.Is(err, target)] for a sentinel [target]. *)
Definition errors_Is (err target : error) : bool :=
  existsb (fun e => is_sentinel e target) (unwrap_chain err).

(** [err.Error()]. An error made with [%w] prints its prefix, a colon and the
    cause, as every format string of these sources does. *)
Fixpoint Error (e : error) : string :=
  match e with
  | ErrSourceNotFound => "source not found"
  | ErrInvalidData => "invalid data format"
  | ErrValidationFailed => "validation failed"
  | ErrUnsupportedFormat => "unsupported format"
  | ErrNotFound => "not found"
  | ErrOther msg => msg
  | fmtErrorf msg => msg
  | fmtErrorfW msg cause => msg +:+ ": " +:+ Error cause
  | SourceHandlerError sourceType operation reason cause =>
      sourceType +:+ " source " +:+ operation +:+ " failed: " +:+ reason
        +:+ ": " +:+ Error cause
  end.

(** [%d] of [fmt.Sprintf]. *)
Definition fmt_d (n : Z) : string := pretty n.

End Go.

Import Go.

(* ===================================================================== *)
(** ** API types (metav1, v1alpha1, registry) *)
(* ===================================================================== *)

Module metav1.

Inductive ConditionStatus := ConditionTrue | ConditionFalse | ConditionUnknown.

Record Condition := {
  Type_ : string;
  Status : ConditionStatus;
  Reason : string;
  Message : string;
  LastTransitionTime : option Time
}.

End metav1.

Module ConfigMapRegistrySource.
Record t := { Name : string; Namespace : string; Key : string }.
End ConfigMapRegistrySource.

Module ConfigMapReference.
Record t := { Name : string; Namespace : string; Key : string }.
End ConfigMapReference.

Module StorageReference.
Record t := { Type_ : string; ConfigMapRef : option ConfigMapReference.t }.
End StorageReference.

Module MCPRegistrySource.
Record t := {
  Type_ : string;
  Format : string;
  ConfigMap : option ConfigMapRegistrySource.t
}.
End MCPRegistrySource.

Module MCPRegistrySyncPolicy.
Record t := { Type_ : string; Interval : string }.
End MCPRegistrySyncPolicy.

Module TagFilter.
Record t := { Include : list string; Exclude : list string }.
End TagFilter.

Module MCPRegistryFilter.
Record t := {
  Include : list string;
  Exclude : list string;
  Tags : option TagFilter.t
}.
End MCPRegistryFilter.

Module v1alpha1.

Definition RegistrySourceTypeConfigMap := "configmap".
Definition RegistryFormatToolHive := "toolhive".
Definition RegistryFormatUpstream := "upstream".

(** [MCPRegistryPhase] is a Go string type; its declared values follow. The
    sync manager and the controller also name [MCPRegistryPhaseTerminating]. *)
Definition MCPRegistryPhase := string.
Definition MCPRegistryPhasePending : MCPRegistryPhase := "Pending".
Definition MCPRegistryPhaseSyncing : MCPRegistryPhase := "Syncing".
Definition MCPRegistryPhaseReady : MCPRegistryPhase := "Ready".
Definition MCPRegistryPhaseFailed : MCPRegistryPhase := "Failed".
Definition MCPRegistryPhaseUpdating : MCPRegistryPhase := "Updating".
Definition MCPRegistryPhaseTerminating : MCPRegistryPhase := "Terminating".

Definition ConditionSourceAvailable := "SourceAvailable".
Definition ConditionDataValid := "DataValid".
Definition ConditionSyncSuccessful := "SyncSuccessful".

(** [Format] is the field the ConfigMap source handler reads as
    [registry.Spec.Format]. *)
Record MCPRegistrySpec := {
  DisplayName : string;
  Format : string;
  Source : MCPRegistrySource.t;
  SyncPolicy : option MCPRegistrySyncPolicy.t;
  Filter : option MCPRegistryFilter.t
}.

(** The status fields the sync manager reads and writes. *)
Record MCPRegistryStatus := {
  Conditions : list metav1.Condition;
  Phase : MCPRegistryPhase;
  Message : string;
  LastSyncTime : option Time;
  LastSyncHash : string;
  ServerCount : Z;
  SyncAttempts : Z;
  NextRetryTime : option Time;
  StorageRef : option StorageReference.t;
  LastManualSyncTrigger : string
}.

Record MCPRegistry := {
  Name : string;
  Namespace : string;
  Annotations : gmap string string;
  DeletionTimestamp : option Time;
  Finalizers : list string;
  Spec : MCPRegistrySpec;
  Status : MCPRegistryStatus
}.

Definition with_Status (r : MCPRegistry) (st : MCPRegistryStatus) : MCPRegistry :=
  {| Name := Name r; Namespace := Namespace r; Annotations := Annotations r;
     DeletionTimestamp := DeletionTimestamp r; Finalizers := Finalizers r;
     Spec := Spec r; Status := st |}.

Definition with_Finalizers (r : MCPRegistry) (fs : list string) : MCPRegistry :=
  {| Name := Name r; Namespace := Namespace r; Annotations := Annotations r;
     DeletionTimestamp := DeletionTimestamp r; Finalizers := fs;
     Spec := Spec r; Status := Status r |}.

Definition with_Phase (st : MCPRegistryStatus) (p : MCPRegistryPhase) :=
  {| Conditions := Conditions st; Phase := p; Message := Message st;
     LastSyncTime := LastSyncTime st; LastSyncHash := LastSyncHash st;
     ServerCount := ServerCount st; SyncAttempts := SyncAttempts st;
     NextRetryTime := NextRetryTime st; StorageRef := StorageRef st;
     LastManualSyncTrigger := LastManualSyncTrigger st |}.

Definition with_Message (st : MCPRegistryStatus) (m : string) :=
  {| Conditions := Conditions st; Phase := Phase st; Message := m;
     LastSyncTime := LastSyncTime st; LastSyncHash := LastSyncHash st;
     ServerCount := ServerCount st; SyncAttempts := SyncAttempts st;
     NextRetryTime := NextRetryTime st; StorageRef := StorageRef st;
     LastManualSyncTrigger := LastManualSyncTrigger st |}.

Definition with_Conditions (st : MCPRegistryStatus) (cs : list metav1.Condition) :=
  {| Conditions := cs; Phase := Phase st; Message := Message st;
     LastSyncTime := LastSyncTime st; LastSyncHash := LastSyncHash st;
     ServerCount := ServerCount st; SyncAttempts := SyncAttempts st;
     NextRetryTime := NextRetryTime st; StorageRef := StorageRef st;
     LastManualSyncTrigger := LastManualSyncTrigger st |}.

Definition with_LastSyncTime (st : MCPRegistryStatus) (t : option Time) :=
  {| Conditions := Conditions st; Phase := Phase st; Message := Message st;
     LastSyncTime := t; LastSyncHash := LastSyncHash st;
     ServerCount := ServerCount st; SyncAttempts := SyncAttempts st;
     NextRetryTime := NextRetryTime st; StorageRef := StorageRef st;
     LastManualSyncTrigger := LastManualSyncTrigger st |}.

Definition with_LastSyncHash (st : MCPRegistryStatus) (h : string) :=
  {| Conditions := Conditions st; Phase := Phase st; Message := Message st;
     LastSyncTime := LastSyncTime st; LastSyncHash := h;
     ServerCount := ServerCount st; SyncAttempts := SyncAttempts st;
     NextRetryTime := NextRetryTime st; StorageRef := StorageRef st;
     LastManualSyncTrigger := LastManualSyncTrigger st |}.

Definition with_ServerCount (st : MCPRegistryStatus) (n : Z) :=
  {| Conditions := Conditions st; Phase := Phase st; Message := Message st;
     LastSyncTime := LastSyncTime st; LastSyncHash := LastSyncHash st;
     ServerCount := n; SyncAttempts := SyncAttempts st;
     NextRetryTime := NextRetryTime st; StorageRef := StorageRef st;
     LastManualSyncTrigger := LastManualSyncTrigger st |}.

Definition with_SyncAttempts (st : MCPRegistryStatus) (n : Z) :=
  {| Conditions := Conditions st; Phase := Phase st; Message := Message st;
     LastSyncTime := LastSyncTime st; LastSyncHash := LastSyncHash st;
     ServerCount := ServerCount st; SyncAttempts := n;
     NextRetryTime := NextRetryTime st; StorageRef := StorageRef st;
     LastManualSyncTrigger := LastManualSyncTrigger st |}.

Definition with_NextRetryTime (st : MCPRegistryStatus) (t : option Time) :=
  {| Conditions := Conditions st; Phase := Phase st; Message := Message st;
     LastSyncTime := LastSyncTime st; LastSyncHash := LastSyncHash st;
     ServerCount := ServerCount st; SyncAttempts := SyncAttempts st;
     NextRetryTime := t; StorageRef := StorageRef st;
     LastManualSyncTrigger := LastManualSyncTrigger st |}.

Definition with_StorageRef (st : MCPRegistryStatus) (r : option StorageReference.t) :=
  {| Conditions := Conditions st; Phase := Phase st; Message := Message st;
     LastSyncTime := LastSyncTime st; LastSyncHash := LastSyncHash st;
     ServerCount := ServerCount st; SyncAttempts := SyncAttempts st;
     NextRetryTime := NextRetryTime st; StorageRef := r;
     LastManualSyncTrigger := LastManualSyncTrigger st |}.

Definition with_LastManualSyncTrigger (st : MCPRegistryStatus) (v : string) :=
  {| Conditions := Conditions st; Phase := Phase st; Message := Message st;
     LastSyncTime := LastSyncTime st; LastSyncHash := LastSyncHash st;
     ServerCount := ServerCount st; SyncAttempts := SyncAttempts st;
     NextRetryTime := NextRetryTime st; StorageRef := StorageRef st;
     LastManualSyncTrigger := v |}.

Definition with_Source (r : MCPRegistry) (src : MCPRegistrySource.t) : MCPRegistry :=
  {| Name := Name r; Namespace := Namespace r; Annotations := Annotations r;
     DeletionTimestamp := DeletionTimestamp r; Finalizers := Finalizers r;
     Spec := {| DisplayName := DisplayName (Spec r); Format := Format (Spec r);
                Source := src;
                SyncPolicy := SyncPolicy (Spec r); Filter := Filter (Spec r) |};
     Status := Status r |}.

End v1alpha1.

Import v1alpha1.

(* ===================================================================== *)

(** ** crypto/sha256 and encoding/hex *)
(* ===================================================================== *)

Module sha256.

Definition mask32 (x : Z) : Z := Z.land x 4294967295.

Definition add32 (x y : Z) : Z := mask32 (x + y).

Definition rotr (n x : Z) : Z :=
  mask32 (Z.lor (Z.shiftr x n) (Z.shiftl x (32 - n))).

Definition Ch (x y z : Z) : Z := Z.lxor (Z.land x y) (Z.land (mask32 (Z.lnot x)) z).
Definition Maj (x y z : Z) : Z :=
  Z.lxor (Z.lxor (Z.land x y) (Z.land x z)) (Z.land y z).
Definition bigSigma0 (x : Z) : Z := Z.lxor (Z.lxor (rotr 2 x) (rotr 13 x)) (rotr 22 x).
Definition bigSigma1 (x : Z) : Z := Z.lxor (Z.lxor (rotr 6 x) (rotr 11 x)) (rotr 25 x).
Definition sigma0 (x : Z) : Z := Z.lxor (Z.lxor (rotr 7 x) (rotr 18 x)) (Z.shiftr x 3).
Definition sigma1 (x : Z) : Z := Z.lxor (Z.lxor (rotr 17 x) (rotr 19 x)) (Z.shiftr x 10).

(** The primes below 312, the first 64 of them. *)
Definition isPrime (n : nat) : bool :=
  Nat.ltb 1 n && forallb (fun d => negb (Nat.eqb (n mod d) 0)) (List.seq 2 (n - 2)).

Definition primes : list Z :=
  List.map Z.of_nat (List.filter isPrime (List.seq 2 310)).

(** The integer cube root, by bisection between [lo] and [hi]. *)
Fixpoint cubeRoot (fuel : nat) (lo hi n : Z) : Z :=
  match fuel with
  | O => lo
  | S fuel' =>
      if hi <=? lo + 1 then lo
      else
        let mid := (lo + hi) / 2 in
        if mid * mid * mid <=? n then cubeRoot fuel' mid hi n
        else cubeRoot fuel' lo mid n
  end.

(** The round constants: the first 32 bits of the fractional parts of the
    cube roots of the first 64 primes. *)
Definition K : list Z :=
  List.map (fun p => mask32 (cubeRoot 64 0 (2 ^ 40) (p * 2 ^ 96))) primes.

(** The initial hash value: the same of the square roots of the first 8. *)
Definition init : list Z :=
  List.map (fun p => mask32 (Z.sqrt (p * 2 ^ 64))) (List.firstn 8 primes).

(** The message followed by the bit 1, zeros and its length in bits on 64
    bits, a multiple of 64 bytes in all. *)
Definition pad (msg : list Z) : list Z :=
  let n := Z.of_nat (List.length msg) in
  let zeros := Z.to_nat ((55 - n) mod 64) in
  let bits := 8 * n in
  (msg ++ [128] ++ List.repeat 0 zeros
     ++ List.map (fun i => Z.land (Z.shiftr bits (8 * (7 - Z.of_nat i))) 255)
          (List.seq 0 8))%list.

(** Big-endian words of a block of bytes. *)
Fixpoint words (bytes : list Z) : list Z :=
  match bytes with
  | a :: b :: c :: d :: rest =>
      (Z.shiftl a 24 + Z.shiftl b 16 + Z.shiftl c 8 + d) :: words rest
  | _ => []
  end.

(** The message schedule, most recent word first: [w] holds W[t-1] .. W[0]. *)
Fixpoint schedule (n : nat) (w : list Z) : list Z :=
  match n with
  | O => w
  | S n' =>
      let next :=
        add32 (add32 (sigma1 (List.nth 1 w 0)) (List.nth 6 w 0))
              (add32 (sigma0 (List.nth 14 w 0)) (List.nth 15 w 0)) in
      schedule n' (next :: w)
  end.

Definition round (st : list Z) (kw : Z * Z) : list Z :=
  match st with
  | [a; b; c; d; e; f; g; h] =>
      let t1 := add32 (add32 (add32 h (bigSigma1 e)) (add32 (Ch e f g) (fst kw))) (snd kw) in
      let t2 := add32 (bigSigma0 a) (Maj a b c) in
      [add32 t1 t2; a; b; c; add32 d t1; e; f; g]
  | _ => st
  end.

Definition compress (h : list Z) (block : list Z) : list Z :=
  let w := List.rev (schedule 48 (List.rev (words block))) in
  let st := List.fold_left round (List.combine K w) h in
  List.map (fun p => add32 (fst p) (snd p)) (List.combine h st).

Fixpoint blocks (fuel : nat) (bytes : list Z) (h : list Z) : list Z :=
  match fuel, bytes with
  | S fuel', _ :: _ => blocks fuel' (List.skipn 64 bytes) (compress h (List.firstn 64 bytes))
  | _, _ => h
  end.

Definition wordBytes (w : Z) : list Z :=
  [Z.land (Z.shiftr w 24) 255; Z.land (Z.shiftr w 16) 255;
   Z.land (Z.shiftr w 8) 255; Z.land w 255].

(** [sha256.Sum256]: the 32 bytes of the digest. *)
Definition Sum256 (data : string) : list Z :=
  let msg := List.map (fun c => Z.of_nat (nat_of_ascii c)) (list_ascii_of_string data) in
  let padded := pad msg in
  List.flat_map wordBytes (blocks (List.length padded) padded init).

End sha256.

Module hex.

Definition digit (n : Z) : ascii :=
  if n <? 10 then ascii_of_nat (Z.to_nat (48 + n))
  else ascii_of_nat (Z.to_nat (87 + n)).

(** [hex.EncodeToString] *)
Fixpoint EncodeToString (src : list Z) : string :=
  match src with
  | [] => EmptyString
  | b :: rest =>
      String (digit (Z.shiftr b 4)) (String (digit (Z.land b 15)) (EncodeToString rest))
  end.

End hex.

(* ===================================================================== *)

(** ** encoding/json *)
(* ===================================================================== *)

Module json.

#[local] Set Warnings "-register-all".

(** A decoded JSON document. A number keeps its literal. *)
Inductive value : Type :=
| Null
| Bool (b : bool)
| Number (literal : string)
| Str (s : string)
| Array (elements : list value)
| Object (members : list (string * value)).

(** The library as the operator uses it: [parse] is the syntax check and
    decoding of [json.Unmarshal] ([None] for bytes that are not JSON),
    [print] the encoding of [json.Marshal]. *)
Record Encoding := {
  parse : string -> option value;
  print : value -> string
}.

(** [json.Valid] *)
Definition Valid (enc : Encoding) (data : string) : bool :=
  match parse enc data with Some _ => true | None => false end.

(** The member of an object that a key selects: Go keeps the last one. *)
Fixpoint member (key : string) (members : list (string * value)) : option value :=
  match members with
  | [] => None
  | (k, v) :: rest =>
      match member key rest with
      | Some v' => Some v'
      | None => if String.eqb k key then Some v else None
      end
  end.

(** A key selects a struct field when it equals the field's name or, failing
    that, when the two are equal under Unicode simple case folding
    ([foldName] of encoding/json). The field names here are ASCII; outside
    ASCII only U+017F (long s, the bytes C5 BF) and U+212A (the Kelvin sign,
    the bytes E2 84 AA) fold onto an ASCII letter. *)
Definition upper (c : ascii) : ascii :=
  let n := nat_of_ascii c in
  if ((97 <=? n) && (n <=? 122))%nat then ascii_of_nat (n - 32) else c.

Fixpoint foldName (s : string) : string :=
  match s with
  | String "197" (String "191" rest) => String "S" (foldName rest)
  | String "226" (String "132" (String "170" rest)) => String "K" (foldName rest)
  | String c rest => String (upper c) (foldName rest)
  | EmptyString => EmptyString
  end.

(** The member of an object that is decoded into the struct field [name]:
    the last one whose key selects the field. *)
Fixpoint field (name : string) (members : list (string * value)) : option value :=
  match members with
  | [] => None
  | (k, v) :: rest =>
      match field name rest with
      | Some v' => Some v'
      | None => if String.eqb (foldName k) (foldName name) then Some v else None
      end
  end.

(** *** A printer and a parser, to run the definitions on bytes *)

Definition quote : ascii := "034"%char.
Definition backslash : ascii := "092"%char.

Fixpoint escape (s : list ascii) : list ascii :=
  match s with
  | [] => []
  | c :: r =>
      if Ascii.eqb c quote then backslash :: quote :: escape r
      else if Ascii.eqb c backslash then backslash :: backslash :: escape r
      else c :: escape r
  end.

Definition printString (s : string) : string :=
  string_of_list_ascii (quote :: escape (list_ascii_of_string s) ++ [quote])%list.

Fixpoint printValue (v : value) : string :=
  match v with
  | Null => "null"
  | Bool true => "true"
  | Bool false => "false"
  | Number literal => literal
  | Str s => printString s
  | Array elements =>
      let fix items (l : list value) : string :=
        match l with
        | [] => ""
        | [x] => printValue x
        | x :: r => printValue x +:+ "," +:+ items r
        end in
      "[" +:+ items elements +:+ "]"
  | Object members =>
      let fix items (l : list (string * value)) : string :=
        match l with
        | [] => ""
        | [(k, x)] => printString k +:+ ":" +:+ printValue x
        | (k, x) :: r => printString k +:+ ":" +:+ printValue x +:+ "," +:+ items r
        end in
      "{" +:+ items members +:+ "}"
  end.

Definition isWhite (c : ascii) : bool :=
  let n := nat_of_ascii c in
  (Nat.eqb n 32 || Nat.eqb n 9 || Nat.eqb n 10 || Nat.eqb n 13)%bool.

Definition isDigit (c : ascii) : bool :=
  let n := nat_of_ascii c in (Nat.leb 48 n && Nat.leb n 57)%bool.

Fixpoint skipWhite (s : list ascii) : list ascii :=
  match s with
  | c :: r => if isWhite c then skipWhite r else s
  | [] => []
  end.

(** The characters of a string literal, after its opening quote. *)
Fixpoint parseChars (s : list ascii) : option (list ascii * list ascii) :=
  match s with
  | [] => None
  | c :: r =>
      if Ascii.eqb c quote then Some ([], r)
      else if Ascii.eqb c backslash then
        match r with
        | e :: r' =>
            let plain :=
              if Ascii.eqb e quote then Some quote
              else if Ascii.eqb e backslash then Some backslash
              else if Ascii.eqb e "/"%char then Some "/"%char
              else if Ascii.eqb e "n"%char then Some "010"%char
              else if Ascii.eqb e "t"%char then Some "009"%char
              else if Ascii.eqb e "r"%char then Some "013"%char
              else None in
            match plain, parseChars r' with
            | Some x, Some (cs, rest) => Some (x :: cs, rest)
            | _, _ => None
            end
        | [] => None
        end
      else if Nat.ltb (nat_of_ascii c) 32 then None
      else
        match parseChars r with
        | Some (cs, rest) => Some (c :: cs, rest)
        | None => None
        end
  end.

Fixpoint takeDigits (s : list ascii) : list ascii * list ascii :=
  match s with
  | c :: r =>
      if isDigit c then let '(ds, rest) := takeDigits r in (c :: ds, rest)
      else ([], s)
  | [] => ([], [])
  end.

(** A number literal: sign, integer part, fraction, exponent. *)
Definition parseNumber (s : list ascii) : option (list ascii * list ascii) :=
  let '(sign, s) :=
    match s with
    | c :: r => if Ascii.eqb c "-"%char then ([c], r) else ([], s)
    | [] => ([], s)
    end in
  match takeDigits s with
  | ([], _) => None
  | (d :: ds, rest) =>
      if (Ascii.eqb d "0"%char && negb (Nat.eqb (List.length ds) 0))%bool then None
      else
        let '(frac, rest) :=
          match rest with
          | c :: r =>
              if Ascii.eqb c "."%char
              then let '(fs, r') := takeDigits r in (Some (c :: fs), r')
              else (Some [], rest)
          | [] => (Some [], rest)
          end in
        match frac with
        | Some [_] => None
        | Some frac =>
            match rest with
            | c :: r =>
                if (Ascii.eqb c "e"%char || Ascii.eqb c "E"%char)%bool then
                  let '(esign, r) :=
                    match r with
                    | x :: r' =>
                        if (Ascii.eqb x "-"%char || Ascii.eqb x "+"%char)%bool
                        then ([x], r') else ([], r)
                    | [] => ([], r)
                    end in
                  match takeDigits r with
                  | ([], _) => None
                  | (es, r') => Some ((sign ++ d :: ds ++ frac ++ c :: esign ++ es)%list, r')
                  end
                else Some ((sign ++ d :: ds ++ frac)%list, rest)
            | [] => Some ((sign ++ d :: ds ++ frac)%list, rest)
            end
        | None => None
        end
  end.

Fixpoint parseValue (fuel : nat) (s : list ascii) : option (value * list ascii) :=
  match fuel with
  | O => None
  | S fuel =>
      match skipWhite s with
      | "n"%char :: "u"%char :: "l"%char :: "l"%char :: r => Some (Null, r)
      | "t"%char :: "r"%char :: "u"%char :: "e"%char :: r => Some (Bool true, r)
      | "f"%char :: "a"%char :: "l"%char :: "s"%char :: "e"%char :: r =>
          Some (Bool false, r)
      | c :: r =>
          if Ascii.eqb c quote then
            match parseChars r with
            | Some (cs, rest) => Some (Str (string_of_list_ascii cs), rest)
            | None => None
            end
          else if Ascii.eqb c "["%char then
            match skipWhite r with
            | x :: r' =>
                if Ascii.eqb x "]"%char then Some (Array [], r')
                else
                  match parseElements fuel r with
                  | Some (vs, rest) => Some (Array vs, rest)
                  | None => None
                  end
            | [] => None
            end
          else if Ascii.eqb c "{"%char then
            match skipWhite r with
            | x :: r' =>
                if Ascii.eqb x "}"%char then Some (Object [], r')
                else
                  match parseMembers fuel r with
                  | Some (ms, rest) => Some (Object ms, rest)
                  | None => None
                  end
            | [] => None
            end
          else
            match parseNumber (c :: r) with
            | Some (lit, rest) => Some (Number (string_of_list_ascii lit), rest)
            | None => None
            end
      | [] => None
      end
  end
with parseElements (fuel : nat) (s : list ascii) : option (list value * list ascii) :=
  match fuel with
  | O => None
  | S fuel =>
      match parseValue fuel s with
      | Some (v, rest) =>
          match skipWhite rest with
          | c :: r =>
              if Ascii.eqb c ","%char then
                match parseElements fuel r with
                | Some (vs, rest') => Some (v :: vs, rest')
                | None => None
                end
              else if Ascii.eqb c "]"%char then Some ([v], r)
              else None
          | [] => None
          end
      | None => None
      end
  end
with parseMembers (fuel : nat) (s : list ascii)
  : option (list (string * value) * list ascii) :=
  match fuel with
  | O => None
  | S fuel =>
      match skipWhite s with
      | q :: r =>
          if Ascii.eqb q quote then
            match parseChars r with
            | Some (ks, rest) =>
                match skipWhite rest with
                | c :: r1 =>
                    if Ascii.eqb c ":"%char then
                      match parseValue fuel r1 with
                      | Some (v, rest1) =>
                          match skipWhite rest1 with
                          | d :: r2 =>
                              if Ascii.eqb d ","%char then
                                match parseMembers fuel r2 with
                                | Some (ms, rest2) =>
                                    Some ((string_of_list_ascii ks, v) :: ms, rest2)
                                | None => None
                                end
                              else if Ascii.eqb d "}"%char
                              then Some ([(string_of_list_ascii ks, v)], r2)
                              else None
                          | [] => None
                          end
                      | None => None
                      end
                    else None
                | [] => None
                end
            | None => None
            end
          else None
      | [] => None
      end
  end.

Definition parseDocument (data : string) : option value :=
  let s := list_ascii_of_string data in
  match parseValue (2 * List.length s + 2) s with
  | Some (v, rest) =>
      match skipWhite rest with
      | [] => Some v
      | _ :: _ => None
      end
  | None => None
  end.

(** The encoding used to run the operator on concrete bytes. *)
Definition std : Encoding := {| parse := parseDocument; print := printValue |}.

End json.

(* ===================================================================== *)

(** ** pkg/registry: the canonical registry *)
(* ===================================================================== *)

Module registry.

(** Modelled from the spec: the declarations of [registry.Registry],
    [registry.ImageMetadata], [registry.RemoteServerMetadata] and of the
    upstream envelope [registry.UpstreamServerDetail] are not among the
    sources; the fields are those of sections 3.1, 4.2 and 6.2, the JSON keys
    those of the payloads in the tests. A Go map may be nil ([None]) and its
    values are pointers that may be nil ([None]). *)
Record ImageMetadata := {
  Name : string;
  Description : string;
  Tier : string;
  Status : string;
  Transport : string;
  Tools : list string;
  Tags : list string;
  Image : string
}.

Record RemoteServerMetadata := {
  RemoteName : string;
  RemoteDescription : string;
  RemoteTransport : string;
  RemoteTags : list string;
  URL : string
}.

Record Registry := {
  Version : string;
  LastUpdated : string;
  Servers : option (gmap string (option ImageMetadata));
  RemoteServers : option (gmap string (option RemoteServerMetadata))
}.

Module UpstreamPackage.
Record t := { RegistryName : string; Name : string; Version : string }.
End UpstreamPackage.

Module UpstreamServer.
Record t := {
  Name : string;
  Description : string;
  Status : string;
  Packages : list UpstreamPackage.t
}.
End UpstreamServer.

Module UpstreamServerDetail.
Record t := { Server : UpstreamServer.t }.
End UpstreamServerDetail.

(** Modelled from the spec: [registry.ConvertToolhiveToUpstream] is not among
    the sources; section 4.2: canonical to upstream wraps each server in the
    envelope [{server: {name, description, ...}, packages: [...]}]. A nil
    server is an error. *)
Definition ConvertToolhiveToUpstream (server : option ImageMetadata)
  : result UpstreamServerDetail.t :=
  match server with
  | None => Err (fmtErrorf "image metadata is nil")
  | Some m =>
      Ok {| UpstreamServerDetail.Server :=
              {| UpstreamServer.Name := Name m;
                 UpstreamServer.Description := Description m;
                 UpstreamServer.Status := Status m;
                 UpstreamServer.Packages :=
                   [ {| UpstreamPackage.RegistryName := "docker";
                        UpstreamPackage.Name := Image m;
                        UpstreamPackage.Version := "" |} ] |} |}
  end.

(** Modelled from the spec: [registry.ConvertUpstreamToToolhive] is not among
    the sources; section 4.2: upstream to canonical maps each envelope into an
    ImageServer, and an entry without a package is remote-only ([Ok None]),
    which the caller drops. A nil envelope is an error. *)
Definition ConvertUpstreamToToolhive (detail : option UpstreamServerDetail.t)
  : result (option ImageMetadata) :=
  match detail with
  | None => Err (fmtErrorf "upstream server detail is nil")
  | Some d =>
      let srv := UpstreamServerDetail.Server d in
      match UpstreamServer.Packages srv with
      | [] => Ok None
      | pkg :: _ =>
          Ok (Some {| Name := UpstreamServer.Name srv;
                      Description := UpstreamServer.Description srv;
                      Tier := ""; Status := UpstreamServer.Status srv;
                      Transport := "stdio"; Tools := []; Tags := [];
                      Image := UpstreamPackage.Name pkg |})
      end
  end.

(** *** [json.Unmarshal] and [json.Marshal] at these types

    Decoding follows the rules of encoding/json: [null] leaves the zero value
    (a nil map or pointer), a key that is absent likewise, a value of another
    kind than the field is a type error, unknown keys are skipped, a key
    selects a field whatever its case ([json.field]), the last of several
    keys that select a field counts. *)

Definition typeError (what : string) : error :=
  fmtErrorf ("json: cannot unmarshal value into Go value of type " +:+ what).

Definition decodeString (v : option json.value) : result string :=
  match v with
  | None | Some json.Null => Ok ""
  | Some (json.Str s) => Ok s
  | Some _ => Err (typeError "string")
  end.

Fixpoint decodeList {T} (dec : json.value -> result T) (l : list json.value)
  : result (list T) :=
  match l with
  | [] => Ok []
  | x :: r =>
      match dec x, decodeList dec r with
      | Ok y, Ok ys => Ok (y :: ys)
      | Err e, _ => Err e
      | _, Err e => Err e
      end
  end.

Definition decodeSlice {T} (dec : json.value -> result T) (v : option json.value)
  : result (list T) :=
  match v with
  | None | Some json.Null => Ok []
  | Some (json.Array l) => decodeList dec l
  | Some _ => Err (typeError "slice")
  end.

Fixpoint decodeMembers {T} (dec : json.value -> result T)
  (l : list (string * json.value)) : result (gmap string T) :=
  match l with
  | [] => Ok ∅
  | (k, x) :: r =>
      match decodeMembers dec r, dec x with
      | Ok m, Ok y =>
          Ok (match m !! k with Some _ => m | None => <[k := y]> m end)
      | Err e, _ => Err e
      | _, Err e => Err e
      end
  end.

Definition decodeMap {T} (dec : json.value -> result T) (v : option json.value)
  : result (option (gmap string T)) :=
  match v with
  | None | Some json.Null => Ok None
  | Some (json.Object l) =>
      match decodeMembers dec l with
      | Ok m => Ok (Some m)
      | Err e => Err e
      end
  | Some _ => Err (typeError "map")
  end.

Definition decodeImageMetadata (v : json.value) : result (option ImageMetadata) :=
  match v with
  | json.Null => Ok None
  | json.Object ms =>
      match decodeString (json.field "name" ms),
            decodeString (json.field "description" ms),
            decodeString (json.field "tier" ms),
            decodeString (json.field "status" ms),
            decodeString (json.field "transport" ms),
            decodeSlice (fun x => decodeString (Some x)) (json.field "tools" ms),
            decodeSlice (fun x => decodeString (Some x)) (json.field "tags" ms),
            decodeString (json.field "image" ms) with
      | Ok name, Ok description, Ok tier, Ok status, Ok transport,
        Ok tools, Ok tags, Ok image =>
          Ok (Some {| Name := name; Description := description; Tier := tier;
                      Status := status; Transport := transport; Tools := tools;
                      Tags := tags; Image := image |})
      | _, _, _, _, _, _, _, _ => Err (typeError "registry.ImageMetadata")
      end
  | _ => Err (typeError "registry.ImageMetadata")
  end.

Definition decodeRemoteServerMetadata (v : json.value)
  : result (option RemoteServerMetadata) :=
  match v with
  | json.Null => Ok None
  | json.Object ms =>
      match decodeString (json.field "name" ms),
            decodeString (json.field "description" ms),
            decodeString (json.field "transport" ms),
            decodeSlice (fun x => decodeString (Some x)) (json.field "tags" ms),
            decodeString (json.field "url" ms) with
      | Ok name, Ok description, Ok transport, Ok tags, Ok url =>
          Ok (Some {| RemoteName := name; RemoteDescription := description;
                      RemoteTransport := transport; RemoteTags := tags;
                      URL := url |})
      | _, _, _, _, _ => Err (typeError "registry.RemoteServerMetadata")
      end
  | _ => Err (typeError "registry.RemoteServerMetadata")
  end.

Definition zeroRegistry : Registry :=
  {| Version := ""; LastUpdated := ""; Servers := None; RemoteServers := None |}.

Definition decodeRegistry (v : json.value) : result Registry :=
  match v with
  | json.Null => Ok zeroRegistry
  | json.Object ms =>
      match decodeString (json.field "version" ms),
            decodeString (json.field "last_updated" ms),
            decodeMap decodeImageMetadata (json.field "servers" ms),
            decodeMap decodeRemoteServerMetadata (json.field "remote_servers" ms) with
      | Ok version, Ok lastUpdated, Ok servers, Ok remoteServers =>
          Ok {| Version := version; LastUpdated := lastUpdated;
                Servers := servers; RemoteServers := remoteServers |}
      | _, _, _, _ => Err (typeError "registry.Registry")
      end
  | _ => Err (typeError "registry.Registry")
  end.

Definition decodeUpstreamPackage (v : json.value) : result UpstreamPackage.t :=
  match v with
  | json.Null =>
      Ok {| UpstreamPackage.RegistryName := ""; UpstreamPackage.Name := "";
            UpstreamPackage.Version := "" |}
  | json.Object ms =>
      match decodeString (json.field "registry_name" ms),
            decodeString (json.field "name" ms),
            decodeString (json.field "version" ms) with
      | Ok registryName, Ok name, Ok version =>
          Ok {| UpstreamPackage.RegistryName := registryName;
                UpstreamPackage.Name := name;
                UpstreamPackage.Version := version |}
      | _, _, _ => Err (typeError "registry.UpstreamPackage")
      end
  | _ => Err (typeError "registry.UpstreamPackage")
  end.

Definition zeroUpstreamServer : UpstreamServer.t :=
  {| UpstreamServer.Name := ""; UpstreamServer.Description := "";
     UpstreamServer.Status := ""; UpstreamServer.Packages := [] |}.

Definition decodeUpstreamServer (v : option json.value) : result UpstreamServer.t :=
  match v with
  | None | Some json.Null => Ok zeroUpstreamServer
  | Some (json.Object ms) =>
      match decodeString (json.field "name" ms),
            decodeString (json.field "description" ms),
            decodeString (json.field "status" ms),
            decodeSlice decodeUpstreamPackage (json.field "packages" ms) with
      | Ok name, Ok description, Ok status, Ok packages =>
          Ok {| UpstreamServer.Name := name;
                UpstreamServer.Description := description;
                UpstreamServer.Status := status;
                UpstreamServer.Packages := packages |}
      | _, _, _, _ => Err (typeError "registry.UpstreamServer")
      end
  | Some _ => Err (typeError "registry.UpstreamServer")
  end.

Definition decodeUpstreamServerDetail (v : json.value)
  : result (option UpstreamServerDetail.t) :=
  match v with
  | json.Null => Ok None
  | json.Object ms =>
      match decodeUpstreamServer (json.field "server" ms) with
      | Ok server => Ok (Some {| UpstreamServerDetail.Server := server |})
      | Err e => Err e
      end
  | _ => Err (typeError "registry.UpstreamServerDetail")
  end.

(** [json.Unmarshal(data, &registry.Registry{})] *)
Definition unmarshalRegistry (enc : json.Encoding) (data : string) : result Registry :=
  match json.parse enc data with
  | None => Err (fmtErrorf "invalid character")
  | Some v => decodeRegistry v
  end.

(** [json.Unmarshal] into [map[string]*registry.UpstreamServerDetail] *)
Definition unmarshalUpstream (enc : json.Encoding) (data : string)
  : result (option (gmap string (option UpstreamServerDetail.t))) :=
  match json.parse enc data with
  | None => Err (fmtErrorf "invalid character")
  | Some v => decodeMap decodeUpstreamServerDetail (Some v)
  end.

Definition encodeStrings (name : string) (l : list string)
  : list (string * json.value) :=
  match l with
  | [] => []
  | _ :: _ => [(name, json.Array (List.map json.Str l))]
  end.

Definition encodeImageMetadata (m : option ImageMetadata) : json.value :=
  match m with
  | None => json.Null
  | Some m =>
      json.Object
        ([("name", json.Str (Name m));
          ("description", json.Str (Description m));
          ("tier", json.Str (Tier m));
          ("status", json.Str (Status m));
          ("transport", json.Str (Transport m))]
         ++ encodeStrings "tools" (Tools m)
         ++ encodeStrings "tags" (Tags m)
         ++ [("image", json.Str (Image m))])%list
  end.

Definition encodeMap {T} (enc : T -> json.value) (m : option (gmap string T))
  : json.value :=
  match m with
  | None => json.Null
  | Some m => json.Object (List.map (fun kv => (fst kv, enc (snd kv))) (map_to_list m))
  end.

Definition encodeRegistry (r : Registry) : json.value :=
  json.Object
    [("version", json.Str (Version r));
     ("last_updated", json.Str (LastUpdated r));
     ("servers", encodeMap encodeImageMetadata (Servers r))].

Definition encodeUpstreamPackage (p : UpstreamPackage.t) : json.value :=
  json.Object
    [("registry_name", json.Str (UpstreamPackage.RegistryName p));
     ("name", json.Str (UpstreamPackage.Name p));
     ("version", json.Str (UpstreamPackage.Version p))].

Definition encodeUpstreamServerDetail (d : option UpstreamServerDetail.t) : json.value :=
  match d with
  | None => json.Null
  | Some d =>
      let srv := UpstreamServerDetail.Server d in
      json.Object
        [("server",
          json.Object
            [("name", json.Str (UpstreamServer.Name srv));
             ("description", json.Str (UpstreamServer.Description srv));
             ("status", json.Str (UpstreamServer.Status srv));
             ("packages",
              json.Array (List.map encodeUpstreamPackage (UpstreamServer.Packages srv)))])]
  end.

(** [json.Marshal] of a registry and of an upstream map. *)
Definition marshalRegistry (enc : json.Encoding) (r : Registry) : string :=
  json.print enc (encodeRegistry r).

Definition marshalUpstream (enc : json.Encoding)
  (m : option (gmap string (option UpstreamServerDetail.t))) : string :=
  json.print enc (encodeMap encodeUpstreamServerDetail m).

End registry.

(* ===================================================================== *)

(** ** controllers: the registry format converter *)
(* ===================================================================== *)

(** [controllers.FormatConverter], the interface. *)
Module FormatConverter.
Record t := {
  Convert : string -> string -> string -> result string;
  Validate : string -> string -> option error;
  SupportedFormats : list string;
  DetectFormat : string -> result string
}.
End FormatConverter.

Module RegistryFormatConverter.

Import registry.

(** [normalizeFormat] *)
Definition normalizeFormat (format : string) : string :=
  if String.eqb format "" then RegistryFormatToolHive else format.

(** [isFormatSupported] *)
Definition isFormatSupported (format : string) (supported : list string) : bool :=
  existsb (fun s => String.eqb s format) supported.

(** [SupportedFormats] *)
Definition SupportedFormats : list string :=
  [RegistryFormatToolHive; RegistryFormatUpstream].

(** A [range] over a Go map visits the entries in an order the language
    leaves open. [order] stands for the choice of a run: the entry visited
    first is the one at that index (modulo the size) of the entries. *)
Definition rangeFirst {V} (order : nat) (m : gmap string V) : option (string * V) :=
  map_to_list m !! (order mod size m)%nat.

Section Converter.

Variable enc : json.Encoding.

(** The choice [range] makes in this run. *)
Variable order : nat.

(** [time.Now().Format(time.RFC3339)] *)
Variable timestamp : string.

(** The loop of [convertToolhiveToUpstream] over the servers. *)
Fixpoint upstreamOf (servers : list (string * option ImageMetadata))
  : result (gmap string (option UpstreamServerDetail.t)) :=
  match servers with
  | [] => Ok ∅
  | (serverName, toolhiveServer) :: rest =>
      match ConvertToolhiveToUpstream toolhiveServer with
      | Err err => Err (fmtErrorfW ("failed to convert server " +:+ serverName) err)
      | Ok upstreamServer =>
          match upstreamOf rest with
          | Ok upstreamRegistry => Ok (<[serverName := Some upstreamServer]> upstreamRegistry)
          | Err err => Err err
          end
      end
  end.

(** [convertToolhiveToUpstream] *)
Definition convertToolhiveToUpstream (data : string) : result string :=
  match unmarshalRegistry enc data with
  | Err err => Err (fmtErrorfW "failed to parse ToolHive registry format" err)
  | Ok toolhiveRegistry =>
      let servers :=
        match Servers toolhiveRegistry with
        | Some m => map_to_list m
        | None => []
        end in
      match upstreamOf servers with
      | Err err => Err err
      | Ok upstreamRegistry => Ok (marshalUpstream enc (Some upstreamRegistry))
      end
  end.

(** The loop of [convertUpstreamToToolhive]: remote servers are skipped. *)
Fixpoint toolhiveOf (servers : list (string * option UpstreamServerDetail.t))
  : result (gmap string (option ImageMetadata)) :=
  match servers with
  | [] => Ok ∅
  | (serverName, upstreamServer) :: rest =>
      match ConvertUpstreamToToolhive upstreamServer with
      | Err err => Err (fmtErrorfW ("failed to convert server " +:+ serverName) err)
      | Ok toolhiveServer =>
          match toolhiveOf rest with
          | Ok toolhiveServers =>
              match toolhiveServer with
              | Some imageServer => Ok (<[serverName := Some imageServer]> toolhiveServers)
              | None => Ok toolhiveServers
              end
          | Err err => Err err
          end
      end
  end.

(** [convertUpstreamToToolhive] *)
Definition convertUpstreamToToolhive (data : string) : result string :=
  match unmarshalUpstream enc data with
  | Err err => Err (fmtErrorfW "failed to parse upstream registry format" err)
  | Ok upstreamRegistry =>
      let servers :=
        match upstreamRegistry with
        | Some m => map_to_list m
        | None => []
        end in
      match toolhiveOf servers with
      | Err err => Err err
      | Ok toolhiveServers =>
          Ok (marshalRegistry enc
                {| Version := "1.0.0"; LastUpdated := timestamp;
                   Servers := Some toolhiveServers; RemoteServers := None |})
      end
  end.

(** [Convert] *)
Definition Convert (data fromFormat toFormat : string) : result string :=
  if Nat.eqb (String.length data) 0 then Err (fmtErrorf "data cannot be empty")
  else
    let fromFormat := normalizeFormat fromFormat in
    let toFormat := normalizeFormat toFormat in
    if String.eqb fromFormat toFormat then Ok data
    else
      let supported := SupportedFormats in
      if negb (isFormatSupported fromFormat supported) then
        Err (fmtErrorf ("unsupported source format: " +:+ fromFormat))
      else if negb (isFormatSupported toFormat supported) then
        Err (fmtErrorf ("unsupported target format: " +:+ toFormat))
      else if String.eqb fromFormat RegistryFormatUpstream
              && String.eqb toFormat RegistryFormatToolHive then
        convertUpstreamToToolhive data
      else if String.eqb fromFormat RegistryFormatToolHive
              && String.eqb toFormat RegistryFormatUpstream then
        convertToolhiveToUpstream data
      else
        Err (fmtErrorf ("unsupported conversion: " +:+ fromFormat +:+ " -> " +:+ toFormat)).

(** The loop of [Validate] over the upstream servers: the first server found
    wanting ends it with its error. *)
Fixpoint validateServers (servers : list (string * option UpstreamServerDetail.t))
  : option error :=
  match servers with
  | [] => None
  | (serverName, serverDetail) :: rest =>
      if String.eqb serverName "" then
        Some (fmtErrorf "upstream registry contains server with empty name")
      else
        match serverDetail with
        | None =>
            Some (fmtErrorf ("upstream registry server " +:+ serverName
                             +:+ " has nil details"))
        | Some d =>
            if String.eqb (UpstreamServer.Name (UpstreamServerDetail.Server d)) "" then
              Some (fmtErrorf ("upstream registry server " +:+ serverName
                               +:+ " missing server.name field"))
            else validateServers rest
        end
  end.

(** [Validate] *)
Definition Validate (data format : string) : option error :=
  if Nat.eqb (String.length data) 0 then Some (fmtErrorf "data cannot be empty")
  else
    let format := normalizeFormat format in
    if String.eqb format RegistryFormatToolHive then
      match unmarshalRegistry enc data with
      | Err err => Some (fmtErrorfW "invalid ToolHive registry format" err)
      | Ok toolhiveRegistry =>
          if String.eqb (Version toolhiveRegistry) "" then
            Some (fmtErrorf "ToolHive registry missing required version field")
          else
            match Servers toolhiveRegistry with
            | None => Some (fmtErrorf "ToolHive registry missing servers field")
            | Some _ => None
            end
      end
    else if String.eqb format RegistryFormatUpstream then
      match unmarshalUpstream enc data with
      | Err err => Some (fmtErrorfW "invalid upstream registry format" err)
      | Ok upstreamRegistry =>
          let entries :=
            match upstreamRegistry with
            | Some m => map_to_list m
            | None => []
            end in
          match entries with
          | [] => Some (fmtErrorf "upstream registry contains no servers")
          | _ :: _ => validateServers entries
          end
      end
    else Some (fmtErrorf ("unsupported format for validation: " +:+ format)).

(** [DetectFormat]: the upstream check looks at the first server the [range]
    visits, and at no other. *)
Definition DetectFormat (data : string) : result string :=
  if Nat.eqb (String.length data) 0 then
    Err (fmtErrorf "cannot detect format of empty data")
  else
    let isToolhive :=
      match unmarshalRegistry enc data with
      | Ok toolhiveRegistry =>
          negb (String.eqb (Version toolhiveRegistry) "") &&
          match Servers toolhiveRegistry with Some _ => true | None => false end
      | Err _ => false
      end in
    if isToolhive then Ok RegistryFormatToolHive
    else
      let isUpstream :=
        match unmarshalUpstream enc data with
        | Ok (Some upstreamRegistry) =>
            if (0 <? size upstreamRegistry)%nat then
              match rangeFirst order upstreamRegistry with
              | Some (_, Some serverDetail) =>
                  negb (String.eqb
                          (UpstreamServer.Name (UpstreamServerDetail.Server serverDetail)) "")
              | _ => false
              end
            else false
        | Ok None => false
        | Err _ => false
        end in
      if isUpstream then Ok RegistryFormatUpstream
      else Err (fmtErrorf
                  "unable to detect registry format: data does not match any known format").

(** [NewRegistryFormatConverter] *)
Definition NewRegistryFormatConverter : FormatConverter.t :=
  {| FormatConverter.Convert := Convert;
     FormatConverter.Validate := Validate;
     FormatConverter.SupportedFormats := SupportedFormats;
     FormatConverter.DetectFormat := DetectFormat |}.

End Converter.

End RegistryFormatConverter.

(* ===================================================================== *)

(** ** Format detection, in the words of the specification *)
(* ===================================================================== *)

Module FormatSpec.

Import registry.

(** The format a detection ends with; [None] is the UnknownFormat error. *)
Definition formatOf (r : result string) : option string :=
  match r with
  | Ok format => Some format
  | Err _ => None
  end.

(** The payload parses as the canonical shape, version and servers present. *)
Definition isCanonical (enc : json.Encoding) (data : string) : bool :=
  match unmarshalRegistry enc data with
  | Ok r =>
      negb (String.eqb (Version r) "") &&
      match Servers r with Some _ => true | None => false end
  | Err _ => false
  end.

(** The payload parses as an upstream map that is not empty. *)
Definition upstreamMap (enc : json.Encoding) (data : string)
  : option (gmap string (option UpstreamServerDetail.t)) :=
  match unmarshalUpstream enc data with
  | Ok (Some m) => if (0 <? size m)%nat then Some m else None
  | _ => None
  end.

(** The value has a nested [server.name] that is not empty. *)
Definition hasName (d : option UpstreamServerDetail.t) : bool :=
  match d with
  | Some d => negb (String.eqb (UpstreamServer.Name (UpstreamServerDetail.Server d)) "")
  | None => false
  end.

(** Section 4.2: parse as canonical first; if version and servers are both
    present, canonical. Otherwise parse as upstream map; if non-empty and each
    value has a non-empty nested server.name, upstream. Otherwise
    UnknownFormat. *)
Definition detect (enc : json.Encoding) (data : string) : option string :=
  if isCanonical enc data then Some RegistryFormatToolHive
  else
    match upstreamMap enc data with
    | Some m =>
        if forallb (fun kv => hasName (snd kv)) (map_to_list m)
        then Some RegistryFormatUpstream else None
    | None => None
    end.

(** What the code decides: as [detect], but on the entry visited first. *)
Definition detectFirst (enc : json.Encoding) (order : nat) (data : string)
  : option string :=
  if Nat.eqb (String.length data) 0 then None
  else if isCanonical enc data then Some RegistryFormatToolHive
  else
    match upstreamMap enc data with
    | Some m =>
        match RegistryFormatConverter.rangeFirst order m with
        | Some (_, d) => if hasName d then Some RegistryFormatUpstream else None
        | None => None
        end
    | None => None
    end.

End FormatSpec.

(* ===================================================================== *)

(** ** The cluster, as the controller-runtime client shows it *)
(* ===================================================================== *)

Module client.

(** The calls that leave the process. *)
Inductive Call :=
| CallGet
| CallUpdate
| CallStatusUpdate
| CallCreateHandler
| CallValidate
| CallFetch
| CallFilter
| CallStore
| CallStorageDelete.

(** The cluster holds the declaration under reconciliation ([object], gone
    once deleted) and its storage artifact. [faults] fixes the outcome of the
    coming API calls, one entry per call, [None] for success; when it runs
    out every call succeeds. [trace] records the calls made, oldest first. *)
Record Cluster := {
  object : option MCPRegistry;
  artifact : option registry.Registry;
  faults : list (option error);
  trace : list Call
}.

Definition called (c : Cluster) (call : Call) : Cluster :=
  {| object := object c; artifact := artifact c; faults := faults c;
     trace := trace c ++ [call] |}.

(** Take the outcome of the next API call. *)
Definition nextFault (c : Cluster) (call : Call) : option error * Cluster :=
  match faults c with
  | [] => (None, called c call)
  | f :: fs =>
      (f, {| object := object c; artifact := artifact c; faults := fs;
             trace := trace c ++ [call] |})
  end.

Definition with_object (c : Cluster) (o : option MCPRegistry) : Cluster :=
  {| object := o; artifact := artifact c; faults := faults c; trace := trace c |}.

Definition with_artifact (c : Cluster) (a : option registry.Registry) : Cluster :=
  {| object := object c; artifact := a; faults := faults c; trace := trace c |}.

(** [client.Get(ctx, key, obj)]: on success [obj] is overwritten with the
    stored declaration. *)
Definition Get (c : Cluster) (obj : MCPRegistry)
  : option error * Cluster * MCPRegistry :=
  let '(f, c1) := nextFault c CallGet in
  match f with
  | Some e => (Some e, c1, obj)
  | None =>
      match object c1 with
      | Some o => (None, c1, o)
      | None => (Some ErrNotFound, c1, obj)
      end
  end.

(** [client.Status().Update(ctx, obj)]: writes the status subresource only. *)
Definition StatusUpdate (c : Cluster) (obj : MCPRegistry) : option error * Cluster :=
  let '(f, c1) := nextFault c CallStatusUpdate in
  match f with
  | Some e => (Some e, c1)
  | None =>
      match object c1 with
      | Some o => (None, with_object c1 (Some (with_Status o (Status obj))))
      | None => (Some ErrNotFound, c1)
      end
  end.

(** [client.Update(ctx, obj)]: writes metadata and spec, not the status. An
    object marked for deletion is removed by the API server as soon as its
    last finalizer is gone. *)
Definition Update (c : Cluster) (obj : MCPRegistry) : option error * Cluster :=
  let '(f, c1) := nextFault c CallUpdate in
  match f with
  | Some e => (Some e, c1)
  | None =>
      match object c1 with
      | Some o =>
          let o' := with_Status obj (Status o) in
          match DeletionTimestamp o', Finalizers o' with
          | Some _, [] => (None, with_object c1 None)
          | _, _ => (None, with_object c1 (Some o'))
          end
      | None => (Some ErrNotFound, c1)
      end
  end.

(** [storageManager.Store]: persists the registry as the storage artifact. *)
Definition Store (c : Cluster) (reg : registry.Registry) : option error * Cluster :=
  let '(f, c1) := nextFault c CallStore in
  match f with
  | Some e => (Some e, c1)
  | None => (None, with_artifact c1 (Some reg))
  end.

(** [storageManager.Delete]: removes the artifact; a missing one is no error. *)
Definition StorageDelete (c : Cluster) : option error * Cluster :=
  let '(f, c1) := nextFault c CallStorageDelete in
  match f with
  | Some e => (Some e, c1)
  | None => (None, with_artifact c1 None)
  end.

End client.

(* ===================================================================== *)
(** ** apimachinery: status conditions, controllerutil, ctrl.Result *)
(* ===================================================================== *)

Module meta.

Import metav1.

(** [meta.SetStatusCondition]: a condition of a new type is appended (with
    the transition time set to now when it has none); for an existing type
    the status and transition time change only when the status differs,
    reason and message always. *)
Fixpoint SetStatusCondition (now : Time) (conditions : list Condition)
  (newCondition : Condition) : list Condition :=
  match conditions with
  | [] =>
      [ {| Type_ := Type_ newCondition; Status := Status newCondition;
           Reason := Reason newCondition; Message := Message newCondition;
           LastTransitionTime :=
             match LastTransitionTime newCondition with
             | Some t => Some t
             | None => Some now
             end |} ]
  | existing :: rest =>
      if String.eqb (Type_ existing) (Type_ newCondition) then
        {| Type_ := Type_ existing; Status := Status newCondition;
           Reason := Reason newCondition; Message := Message newCondition;
           LastTransitionTime :=
             match Status existing, Status newCondition with
             | ConditionTrue, ConditionTrue
             | ConditionFalse, ConditionFalse
             | ConditionUnknown, ConditionUnknown => LastTransitionTime existing
             | _, _ =>
                 match LastTransitionTime newCondition with
                 | Some t => Some t
                 | None => Some now
                 end
             end |} :: rest
      else existing :: SetStatusCondition now rest newCondition
  end.

End meta.

Module ctrl.

Record Result := { Requeue : bool; RequeueAfter : Duration }.

(** [ctrl.Result{}] *)
Definition empty : Result := {| Requeue := false; RequeueAfter := 0 |}.

Definition after (d : Duration) : Result := {| Requeue := false; RequeueAfter := d |}.

End ctrl.

Module controllerutil.

Definition ContainsFinalizer (o : MCPRegistry) (finalizer : string) : bool :=
  existsb (String.eqb finalizer) (Finalizers o).

Definition AddFinalizer (o : MCPRegistry) (finalizer : string) : MCPRegistry :=
  if ContainsFinalizer o finalizer then o
  else with_Finalizers o (Finalizers o ++ [finalizer]).

Definition RemoveFinalizer (o : MCPRegistry) (finalizer : string) : MCPRegistry :=
  with_Finalizers o
    (List.filter (fun f => negb (String.eqb f finalizer)) (Finalizers o)).

End controllerutil.

(* ===================================================================== *)
(** ** pkg/sync: the sync manager (manager.go) *)
(* ===================================================================== *)

Module sync.

Definition ReasonAlreadyInProgress := "sync-already-in-progress".
Definition ReasonRegistryNotReady := "registry-not-ready".
Definition ReasonRetryBackoffActive := "retry-backoff-active".
Definition ReasonSourceDataChanged := "source-data-changed".
Definition ReasonErrorCheckingChanges := "error-checking-data-changes".
Definition ReasonManualWithChanges := "manual-sync-with-data-changes".
Definition ReasonManualNoChanges := "manual-sync-no-data-changes".
Definition ReasonErrorParsingInterval := "error-parsing-sync-interval".
Definition ReasonErrorCheckingSyncNeed := "error-checking-sync-need".
Definition ReasonUpToDateWithPolicy := "up-to-date-with-policy".
Definition ReasonUpToDateNoPolicy := "up-to-date-no-policy".

Definition MaxSyncAttempts : Z := 10.
Definition MaxValidationRetries : Z := 3.
Definition MaxHandlerCreationRetries : Z := 3.

Definition conditionReasonHandlerCreationFailed := "HandlerCreationFailed".
Definition conditionReasonValidationFailed := "ValidationFailed".
Definition conditionReasonFetchFailed := "FetchFailed".
Definition conditionReasonStorageFailed := "StorageFailed".
Definition conditionReasonSourceReady := "SourceReady".
Definition conditionReasonDataValid := "DataValid".
Definition conditionReasonSyncCompleted := "SyncCompleted".

(** The three checkers [ShouldSync] consults are interface fields of
    [DefaultSyncManager]; an implementation is a function of the declaration.
    [IsIntervalSyncNeeded] returns [(syncNeeded, nextSyncTime, error)]. *)
Record Checkers := {
  IsDataChanged : MCPRegistry -> bool * option error;
  IsManualSyncRequested : MCPRegistry -> bool * string;
  IsIntervalSyncNeeded : MCPRegistry -> bool * Time * option error
}.

(** [ShouldSync]: the result is [(syncNeeded, reason, nextSyncTime, err)]. *)
Definition ShouldSync (s : Checkers) (now : Time) (mcpRegistry : MCPRegistry)
  : bool * string * option Time * option error :=
  let st := Status mcpRegistry in
  if String.eqb (Phase st) MCPRegistryPhaseSyncing then
    (false, ReasonAlreadyInProgress, None, None)
  else if negb (String.eqb (Phase st) MCPRegistryPhaseReady) then
    match String.eqb (Phase st) MCPRegistryPhaseFailed, NextRetryTime st with
    | true, Some nextRetry =>
        if Before now nextRetry
        then (false, ReasonRetryBackoffActive, Some nextRetry, None)
        else (true, ReasonRegistryNotReady, None, None)
    | _, _ => (true, ReasonRegistryNotReady, None, None)
    end
  else
    match IsDataChanged s mcpRegistry with
    | (_, Some err) => (true, ReasonErrorCheckingChanges, None, Some err)
    | (dataChanged, None) =>
        let '(manualSyncRequested, _) := IsManualSyncRequested s mcpRegistry in
        if manualSyncRequested then
          if dataChanged then (true, ReasonManualWithChanges, None, None)
          else (true, ReasonManualNoChanges, None, None)
        else if dataChanged then (true, ReasonSourceDataChanged, None, None)
        else
          match SyncPolicy (Spec mcpRegistry) with
          | Some _ =>
              match IsIntervalSyncNeeded s mcpRegistry with
              | (_, _, Some err) => (true, ReasonErrorParsingInterval, None, Some err)
              | (_, nextSyncTime, None) =>
                  (false, ReasonUpToDateWithPolicy, Some nextSyncTime, None)
              end
          | None => (false, ReasonUpToDateNoPolicy, None, None)
          end
    end.

(** [calculateRetryInterval]: [min] is Go's builtin, [1<<exponent] a shift
    of an [int], the product a [time.Duration] (64 bits). *)
Definition calculateRetryInterval (syncAttempts : Z) : Duration :=
  let baseInterval := wrap64 (Minute * 5) in
  let maxInterval := wrap64 (Hour * 1) in
  if syncAttempts <=? 0 then baseInterval
  else
    let exponent := Z.min (wrap64 (syncAttempts - 1)) 4 in
    let interval := wrap64 (baseInterval * wrap64 (Z.shiftl 1 exponent)) in
    Z.min interval maxInterval.

(** Modelled from the spec: the constant [SyncTriggerAnnotation] is declared
    outside the sources; section 6.5 gives it as [<vendor>/sync-trigger]. *)
Definition SyncTriggerAnnotation := "toolhive.stacklok.dev/sync-trigger".

(** [sources.FetchResult], as section 4.1 and [PerformSync] use it. *)
Module FetchResult.
Record t := {
  Registry : registry.Registry;
  Hash : string;
  ServerCount : Z;
  Format : string
}.
End FetchResult.

(** [sources.SourceHandler]. [Validate] takes the source by pointer and may
    fill in defaults: it returns the source it leaves behind. A handler
    reaches outside the process, so two calls of a run may answer differently:
    the first argument numbers the calls of a method within the run. *)
Record SourceHandler := {
  Validate : nat -> MCPRegistrySource.t -> option error * MCPRegistrySource.t;
  FetchRegistry : nat -> MCPRegistry -> result FetchResult.t
}.

(** [DefaultSyncManager]: the collaborators that are not the cluster client.
    [Store] and [Delete] of the storage manager act on the cluster. *)
Record DefaultSyncManager := {
  CreateHandler : string -> result SourceHandler;
  ApplyFilters : registry.Registry -> MCPRegistryFilter.t -> result registry.Registry;
  GetStorageReference : MCPRegistry -> option StorageReference.t;
  checkers : Checkers
}.

Module syncData.
Record t := {
  LastSyncTime : option Time;
  LastSyncHash : string;
  ServerCount : Z;
  StorageRef : option StorageReference.t;
  SyncAttempts : Z;
  NextRetryTime : option Time;
  LastManualSyncTrigger : string
}.
End syncData.

Module statusUpdate.
Record t := {
  Phase : MCPRegistryPhase;
  Message : string;
  Conditions : list metav1.Condition;
  SyncData : option syncData.t;
  RetryResult : option ctrl.Result
}.
End statusUpdate.

(** The sync-data part of [applyFinalStatusUpdate]: the five fields of the
    last successful sync are written only when the update carries a value. *)
Definition applySyncData (st : MCPRegistryStatus) (sd : syncData.t) : MCPRegistryStatus :=
  let st :=
    match syncData.LastSyncTime sd with
    | Some t => with_LastSyncTime st (Some t)
    | None => st
    end in
  let st :=
    if negb (String.eqb (syncData.LastSyncHash sd) "")
    then with_LastSyncHash st (syncData.LastSyncHash sd) else st in
  let st :=
    if syncData.ServerCount sd >? 0
    then with_ServerCount st (syncData.ServerCount sd) else st in
  let st :=
    match syncData.StorageRef sd with
    | Some r => with_StorageRef st (Some r)
    | None => st
    end in
  let st :=
    if negb (String.eqb (syncData.LastManualSyncTrigger sd) "")
    then with_LastManualSyncTrigger st (syncData.LastManualSyncTrigger sd) else st in
  let st := with_NextRetryTime st (syncData.NextRetryTime sd) in
  with_SyncAttempts st (syncData.SyncAttempts sd).

(** The status [applyFinalStatusUpdate] composes from the refreshed one. *)
Definition finalStatus (now : Time) (st : MCPRegistryStatus)
  (update : statusUpdate.t) : MCPRegistryStatus :=
  let st := with_Phase st (statusUpdate.Phase update) in
  let st := with_Message st (statusUpdate.Message update) in
  let st :=
    match statusUpdate.SyncData update with
    | Some sd => applySyncData st sd
    | None => st
    end in
  with_Conditions st
    (fold_left (meta.SetStatusCondition now) (statusUpdate.Conditions update)
       (Conditions st)).

(** [applyFinalStatusUpdate]: refresh, apply every change, write once. The
    result is [(ctrl.Result, error)], the cluster and the object in memory. *)
Definition applyFinalStatusUpdate (now : Time) (c : client.Cluster)
  (mcpRegistry : MCPRegistry) (update : statusUpdate.t)
  : ctrl.Result * option error * client.Cluster * MCPRegistry :=
  let '(err, c1, mcpRegistry) := client.Get c mcpRegistry in
  match err with
  | Some e => (ctrl.empty, Some e, c1, mcpRegistry)
  | None =>
      let mcpRegistry :=
        with_Status mcpRegistry (finalStatus now (Status mcpRegistry) update) in
      let '(err, c2) := client.StatusUpdate c1 mcpRegistry in
      match err with
      | Some e => (ctrl.empty, Some e, c2, mcpRegistry)
      | None =>
          match statusUpdate.RetryResult update with
          | Some r => (r, None, c2, mcpRegistry)
          | None => (ctrl.empty, None, c2, mcpRegistry)
          end
      end
  end.

(** [UpdateManualSyncTriggerOnly] *)
Definition UpdateManualSyncTriggerOnly (c : client.Cluster) (mcpRegistry : MCPRegistry)
  : ctrl.Result * option error * client.Cluster * MCPRegistry :=
  let '(err, c1, mcpRegistry) := client.Get c mcpRegistry in
  match err with
  | Some e => (ctrl.empty, Some e, c1, mcpRegistry)
  | None =>
      let mcpRegistry :=
        match Annotations mcpRegistry !! SyncTriggerAnnotation with
        | Some triggerValue =>
            if negb (String.eqb triggerValue "")
            then with_Status mcpRegistry
                   (with_LastManualSyncTrigger (Status mcpRegistry) triggerValue)
            else mcpRegistry
        | None => mcpRegistry
        end in
      let '(err, c2) := client.StatusUpdate c1 mcpRegistry in
      match err with
      | Some e => (ctrl.empty, Some e, c2, mcpRegistry)
      | None => (ctrl.empty, None, c2, mcpRegistry)
      end
  end.

(** [Delete] *)
Definition Delete (c : client.Cluster) : option error * client.Cluster :=
  client.StorageDelete c.

(** [updatePhaseFailedWithCondition] *)
Definition updatePhaseFailedWithCondition (now : Time) (c : client.Cluster)
  (mcpRegistry : MCPRegistry) (message conditionType reason conditionMessage : string)
  : option error * client.Cluster * MCPRegistry :=
  let '(err, c1, mcpRegistry) := client.Get c mcpRegistry in
  match err with
  | Some e =>
      (Some (fmtErrorfW "failed to refresh MCPRegistry before status update" e),
       c1, mcpRegistry)
  | None =>
      let st := with_Phase (Status mcpRegistry) MCPRegistryPhaseFailed in
      let st := with_Message st message in
      let st := with_SyncAttempts st (wrap64 (SyncAttempts st + 1)) in
      let st :=
        with_Conditions st
          (meta.SetStatusCondition now (Conditions st)
             {| metav1.Type_ := conditionType;
                metav1.Status := metav1.ConditionFalse;
                metav1.Reason := reason;
                metav1.Message := conditionMessage;
                metav1.LastTransitionTime := None |}) in
      let mcpRegistry := with_Status mcpRegistry st in
      let '(err, c2) := client.StatusUpdate c1 mcpRegistry in
      (err, c2, mcpRegistry)
  end.

(** [len(m)] of a Go map; a nil map has length 0. *)
Definition len {V} (m : option (gmap string V)) : Z :=
  match m with
  | Some m => Z.of_nat (size m)
  | None => 0
  end.

Section Manager.

Variable s : DefaultSyncManager.
Variable now : Time.

(** [applyFilteringIfConfigured]. The fetch result is passed by pointer: the
    function returns the result it leaves behind. *)
Definition applyFilteringIfConfigured (c : client.Cluster) (mcpRegistry : MCPRegistry)
  (fetchResult : FetchResult.t)
  : option error * client.Cluster * MCPRegistry * FetchResult.t :=
  match Filter (Spec mcpRegistry) with
  | Some filter =>
      let c := client.called c client.CallFilter in
      match ApplyFilters s (FetchResult.Registry fetchResult) filter with
      | Err err =>
          let '(_, c1, mcpRegistry) :=
            updatePhaseFailedWithCondition now c mcpRegistry
              ("Filtering failed: " +:+ Error err)
              ConditionSyncSuccessful conditionReasonFetchFailed (Error err) in
          (Some err, c1, mcpRegistry, fetchResult)
      | Ok filteredRegistry =>
          (None, c, mcpRegistry,
           {| FetchResult.Registry := filteredRegistry;
              FetchResult.Hash := FetchResult.Hash fetchResult;
              FetchResult.ServerCount :=
                wrap64 (len (registry.Servers filteredRegistry)
                        + len (registry.RemoteServers filteredRegistry));
              FetchResult.Format := FetchResult.Format fetchResult |})
      end
  | None => (None, c, mcpRegistry, fetchResult)
  end.

(** [fetchAndProcessRegistryData]: handler creation, validation, fetch and
    filtering; every failure is recorded by [updatePhaseFailedWithCondition]
    (whose own error is only logged) and returned. On success the handler that
    was created is returned with the fetch result. *)
Definition fetchAndProcessRegistryData (c : client.Cluster) (mcpRegistry : MCPRegistry)
  : result (FetchResult.t * SourceHandler) * client.Cluster * MCPRegistry :=
  let c := client.called c client.CallCreateHandler in
  match CreateHandler s (MCPRegistrySource.Type_ (Source (Spec mcpRegistry))) with
  | Err err =>
      let '(_, c1, mcpRegistry) :=
        updatePhaseFailedWithCondition now c mcpRegistry
          ("Failed to create source handler: " +:+ Error err)
          ConditionSourceAvailable conditionReasonHandlerCreationFailed (Error err) in
      (Err err, c1, mcpRegistry)
  | Ok sourceHandler =>
      let c := client.called c client.CallValidate in
      let '(verr, source) := Validate sourceHandler 0%nat (Source (Spec mcpRegistry)) in
      let mcpRegistry := with_Source mcpRegistry source in
      match verr with
      | Some err =>
          let '(_, c1, mcpRegistry) :=
            updatePhaseFailedWithCondition now c mcpRegistry
              ("Source validation failed: " +:+ Error err)
              ConditionSourceAvailable conditionReasonValidationFailed (Error err) in
          (Err err, c1, mcpRegistry)
      | None =>
          let c := client.called c client.CallFetch in
          match FetchRegistry sourceHandler 0%nat mcpRegistry with
          | Err err =>
              let mcpRegistry :=
                with_Status mcpRegistry
                  (with_SyncAttempts (Status mcpRegistry)
                     (wrap64 (SyncAttempts (Status mcpRegistry) + 1))) in
              let '(_, c1, mcpRegistry) :=
                updatePhaseFailedWithCondition now c mcpRegistry
                  ("Fetch failed: " +:+ Error err)
                  ConditionSyncSuccessful conditionReasonFetchFailed (Error err) in
              (Err err, c1, mcpRegistry)
          | Ok fetchResult =>
              let '(ferr, c1, mcpRegistry, fetchResult) :=
                applyFilteringIfConfigured c mcpRegistry fetchResult in
              match ferr with
              | Some err => (Err err, c1, mcpRegistry)
              | None => (Ok (fetchResult, sourceHandler), c1, mcpRegistry)
              end
          end
      end
  end.

(** The status update of a failed step: phase Failed, one false condition,
    the attempt counter raised by one and, unless the step gives up, the time
    of the next retry. *)
Definition failureUpdate (mcpRegistry : MCPRegistry) (message conditionType reason : string)
  (err : error) (retryAfter : option Duration) : statusUpdate.t :=
  {| statusUpdate.Phase := MCPRegistryPhaseFailed;
     statusUpdate.Message := message;
     statusUpdate.Conditions :=
       [ {| metav1.Type_ := conditionType;
            metav1.Status := metav1.ConditionFalse;
            metav1.Reason := reason;
            metav1.Message := Error err;
            metav1.LastTransitionTime := None |} ];
     statusUpdate.SyncData :=
       Some {| syncData.LastSyncTime := None;
               syncData.LastSyncHash := "";
               syncData.ServerCount := 0;
               syncData.StorageRef := None;
               syncData.SyncAttempts := wrap64 (SyncAttempts (Status mcpRegistry) + 1);
               syncData.NextRetryTime :=
                 match retryAfter with
                 | Some d => Some (Add now d)
                 | None => None
                 end;
               syncData.LastManualSyncTrigger := "" |};
     statusUpdate.RetryResult :=
       Some match retryAfter with
            | Some d => ctrl.after d
            | None => ctrl.empty
            end |}.

(** A step that failed after [limit] attempts gives up (no requeue, no retry
    time); below the limit it schedules a retry after [interval]. *)
Definition failedStep (mcpRegistry : MCPRegistry) (limit : Z) (what : string)
  (conditionType reason : string) (err : error) (interval : Duration) : statusUpdate.t :=
  if SyncAttempts (Status mcpRegistry) >=? limit then
    failureUpdate mcpRegistry
      (what +:+ " after " +:+ fmt_d (SyncAttempts (Status mcpRegistry))
         +:+ " attempts: " +:+ Error err)
      conditionType reason err None
  else
    failureUpdate mcpRegistry (what +:+ ": " +:+ Error err)
      conditionType reason err (Some interval).

(** The update of a successful sync. *)
Definition successUpdate (mcpRegistry : MCPRegistry) (fetchResult : FetchResult.t)
  : statusUpdate.t :=
  let storageRef := GetStorageReference s mcpRegistry in
  let lastManualSyncTrigger :=
    match Annotations mcpRegistry !! SyncTriggerAnnotation with
    | Some triggerValue => triggerValue
    | None => ""
    end in
  {| statusUpdate.Phase := MCPRegistryPhaseReady;
     statusUpdate.Message := "Registry is ready and synchronized";
     statusUpdate.Conditions :=
       [ {| metav1.Type_ := ConditionSourceAvailable;
            metav1.Status := metav1.ConditionTrue;
            metav1.Reason := conditionReasonSourceReady;
            metav1.Message := "Source configuration is valid and accessible";
            metav1.LastTransitionTime := None |};
         {| metav1.Type_ := ConditionDataValid;
            metav1.Status := metav1.ConditionTrue;
            metav1.Reason := conditionReasonDataValid;
            metav1.Message := "Registry data is valid and parsed successfully";
            metav1.LastTransitionTime := None |};
         {| metav1.Type_ := ConditionSyncSuccessful;
            metav1.Status := metav1.ConditionTrue;
            metav1.Reason := conditionReasonSyncCompleted;
            metav1.Message := "Registry sync completed successfully";
            metav1.LastTransitionTime := None |} ];
     statusUpdate.SyncData :=
       Some {| syncData.LastSyncTime := Some now;
               syncData.LastSyncHash := FetchResult.Hash fetchResult;
               syncData.ServerCount := FetchResult.ServerCount fetchResult;
               syncData.StorageRef := storageRef;
               syncData.SyncAttempts := 0;
               syncData.NextRetryTime := None;
               syncData.LastManualSyncTrigger := lastManualSyncTrigger |};
     statusUpdate.RetryResult := Some ctrl.empty |}.

(** The terminal decision of [PerformSync]: the one [statusUpdate] the run
    composes, with the cluster and the object as they are at that point.
    [PerformSync] names [sourceHandler] without declaring it: it is the handler
    [fetchAndProcessRegistryData] created; the second [fetchResult, err :=] in
    the same scope assigns the variables of the first. Its own calls of
    [Validate] and [FetchRegistry] are the second ones of the run. *)
Definition composeStatusUpdate (c : client.Cluster) (mcpRegistry : MCPRegistry)
  : statusUpdate.t * client.Cluster * MCPRegistry :=
  let '(res, c, mcpRegistry) := fetchAndProcessRegistryData c mcpRegistry in
  match res with
  | Err err =>
      (failedStep mcpRegistry MaxHandlerCreationRetries
         "Failed to create source handler"
         ConditionSourceAvailable conditionReasonHandlerCreationFailed err (Hour * 1),
       c, mcpRegistry)
  | Ok (_, sourceHandler) =>
      let c := client.called c client.CallValidate in
      let '(verr, source) := Validate sourceHandler 1%nat (Source (Spec mcpRegistry)) in
      let mcpRegistry := with_Source mcpRegistry source in
      match verr with
      | Some err =>
          (failedStep mcpRegistry MaxValidationRetries "Source validation failed"
             ConditionSourceAvailable conditionReasonValidationFailed err (Hour * 1),
           c, mcpRegistry)
      | None =>
          let c := client.called c client.CallFetch in
          match FetchRegistry sourceHandler 1%nat mcpRegistry with
          | Err err =>
              (failedStep mcpRegistry MaxSyncAttempts "Fetch failed"
                 ConditionSyncSuccessful conditionReasonFetchFailed err
                 (calculateRetryInterval (SyncAttempts (Status mcpRegistry))),
               c, mcpRegistry)
          | Ok fetchResult =>
              let '(serr, c) := client.Store c (FetchResult.Registry fetchResult) in
              match serr with
              | Some err =>
                  (failedStep mcpRegistry MaxSyncAttempts "Storage failed"
                     ConditionSyncSuccessful conditionReasonStorageFailed err
                     (calculateRetryInterval (SyncAttempts (Status mcpRegistry))),
                   c, mcpRegistry)
              | None => (successUpdate mcpRegistry fetchResult, c, mcpRegistry)
              end
          end
      end
  end.

(** [PerformSync]: every path ends in [applyFinalStatusUpdate] of the update
    it composed. *)
Definition PerformSync (c : client.Cluster) (mcpRegistry : MCPRegistry)
  : ctrl.Result * option error * client.Cluster * MCPRegistry :=
  let '(update, c, mcpRegistry) := composeStatusUpdate c mcpRegistry in
  applyFinalStatusUpdate now c mcpRegistry update.

End Manager.

(** Modelled from the spec: [IsManualSync] is declared outside the sources;
    a sync is manual when its reason is one of the two manual-sync reasons
    (section 4.5.1, rule 5). *)
Definition IsManualSync (reason : string) : bool :=
  String.eqb reason ReasonManualWithChanges || String.eqb reason ReasonManualNoChanges.

End sync.

(* ===================================================================== *)

(** ** controllers: the MCPRegistry reconciler *)
(* ===================================================================== *)

Module controllers.

Definition MCPRegistryFinalizer := "mcpregistry.toolhive.stacklok.dev/finalizer".

(** [MCPRegistryReconciler]: the sync manager it delegates to;
    [time.ParseDuration] is the library's. *)
Record MCPRegistryReconciler := {
  syncManager : sync.DefaultSyncManager;
  ParseDuration : string -> result Duration
}.

(** [&mcpv1alpha1.MCPRegistry{}] *)
Definition zeroMCPRegistry : MCPRegistry :=
  {| Name := ""; Namespace := ""; Annotations := ∅; DeletionTimestamp := None;
     Finalizers := [];
     Spec := {| DisplayName := ""; Format := "";
                Source := {| MCPRegistrySource.Type_ := "";
                             MCPRegistrySource.Format := "";
                             MCPRegistrySource.ConfigMap := None |};
                SyncPolicy := None; Filter := None |};
     Status := {| Conditions := []; Phase := ""; Message := "";
                  LastSyncTime := None; LastSyncHash := ""; ServerCount := 0;
                  SyncAttempts := 0; NextRetryTime := None; StorageRef := None;
                  LastManualSyncTrigger := "" |} |}.

(** [errors.IsNotFound] *)
Definition IsNotFound (e : error) : bool :=
  match e with ErrNotFound => true | _ => false end.

(** [finalizeMCPRegistry]: a failed storage cleanup is logged and the
    finalization goes on. *)
Definition finalizeMCPRegistry (c : client.Cluster) (registry : MCPRegistry)
  : option error * client.Cluster * MCPRegistry :=
  let registry :=
    with_Status registry
      (with_Message (with_Phase (Status registry) MCPRegistryPhaseTerminating)
         "MCPRegistry is being terminated") in
  let '(err, c) := client.StatusUpdate c registry in
  match err with
  | Some e => (Some e, c, registry)
  | None =>
      let '(_, c) := sync.Delete c in
      (None, c, registry)
  end.

Section Reconciler.

Variable r : MCPRegistryReconciler.
Variable now : Time.

(** The loop of [reconcileSync] that re-reads the declaration after a sync,
    at most [remaining] more times; [i] is the loop counter. *)
Fixpoint refreshAfterSync (remaining : nat) (i : Z) (c : client.Cluster)
  (mcpRegistry : MCPRegistry) (refreshedRegistry : MCPRegistry)
  : result MCPRegistry * client.Cluster :=
  match remaining with
  | O => (Ok refreshedRegistry, c)
  | S remaining' =>
      let '(err, c, freshRegistry) := client.Get c zeroMCPRegistry in
      match err with
      | Some e => (Err e, c)
      | None =>
          if (i >? 0) && (SyncAttempts (Status freshRegistry)
                          >? SyncAttempts (Status mcpRegistry))
          then (Ok freshRegistry, c)
          else refreshAfterSync remaining' (i + 1) c mcpRegistry freshRegistry
      end
  end.

(** [reconcileSync] *)
Definition reconcileSync (c : client.Cluster) (mcpRegistry : MCPRegistry)
  : ctrl.Result * option error * client.Cluster * MCPRegistry :=
  let '(err, c, mcpRegistry) := client.Get c mcpRegistry in
  match err with
  | Some e => (ctrl.empty, Some e, c, mcpRegistry)
  | None =>
      let '(syncNeeded, syncReason, nextSyncTime, err) :=
        sync.ShouldSync (sync.checkers (syncManager r)) now mcpRegistry in
      let '(syncNeeded, syncReason) :=
        match err with
        | Some _ => (true, sync.ReasonErrorCheckingSyncNeed)
        | None => (syncNeeded, syncReason)
        end in
      if negb syncNeeded then
        match nextSyncTime with
        | Some t => (ctrl.after (t - now), None, c, mcpRegistry)
        | None => (ctrl.empty, None, c, mcpRegistry)
        end
      else if String.eqb syncReason sync.ReasonManualNoChanges then
        sync.UpdateManualSyncTriggerOnly c mcpRegistry
      else
        let '(result, err, c, mcpRegistry) :=
          sync.PerformSync (syncManager r) now c mcpRegistry in
        match err with
        | Some e =>
            let retryAfter :=
              if ctrl.RequeueAfter result >? 0 then ctrl.RequeueAfter result
              else Minute * 5 in
            (ctrl.after retryAfter, Some e, c, mcpRegistry)
        | None =>
            let '(refreshed, c) := refreshAfterSync 3 0 c mcpRegistry mcpRegistry in
            match refreshed with
            | Err e => (ctrl.empty, Some e, c, mcpRegistry)
            | Ok refreshedRegistry =>
                if String.eqb (Phase (Status refreshedRegistry)) MCPRegistryPhaseFailed then
                  let retryAfter :=
                    if ctrl.RequeueAfter result >? 0 then ctrl.RequeueAfter result
                    else Minute * 5 in
                  (ctrl.after retryAfter, None, c, mcpRegistry)
                else
                  match SyncPolicy (Spec mcpRegistry) with
                  | Some policy =>
                      if negb (sync.IsManualSync syncReason) then
                        match ParseDuration r (MCPRegistrySyncPolicy.Interval policy) with
                        | Ok interval =>
                            ({| ctrl.Requeue := ctrl.Requeue result;
                                ctrl.RequeueAfter := interval |}, None, c, mcpRegistry)
                        | Err _ => (result, None, c, mcpRegistry)
                        end
                      else (result, None, c, mcpRegistry)
                  | None => (result, None, c, mcpRegistry)
                  end
            end
        end
  end.

(** [Reconcile]: the result and error returned to the work queue, and the
    cluster the run leaves. *)
Definition Reconcile (c : client.Cluster) : ctrl.Result * option error * client.Cluster :=
  let '(err, c, mcpRegistry) := client.Get c zeroMCPRegistry in
  match err with
  | Some e =>
      if IsNotFound e then (ctrl.empty, None, c) else (ctrl.empty, Some e, c)
  | None =>
      match DeletionTimestamp mcpRegistry with
      | Some _ =>
          if controllerutil.ContainsFinalizer mcpRegistry MCPRegistryFinalizer then
            let '(err, c, mcpRegistry) := finalizeMCPRegistry c mcpRegistry in
            match err with
            | Some e => (ctrl.empty, Some e, c)
            | None =>
                let mcpRegistry :=
                  controllerutil.RemoveFinalizer mcpRegistry MCPRegistryFinalizer in
                let '(err, c) := client.Update c mcpRegistry in
                match err with
                | Some e => (ctrl.empty, Some e, c)
                | None => (ctrl.empty, None, c)
                end
            end
          else (ctrl.empty, None, c)
      | None =>
          if negb (controllerutil.ContainsFinalizer mcpRegistry MCPRegistryFinalizer) then
            let mcpRegistry :=
              controllerutil.AddFinalizer mcpRegistry MCPRegistryFinalizer in
            let '(err, c) := client.Update c mcpRegistry in
            match err with
            | Some e => (ctrl.empty, Some e, c)
            | None => (ctrl.empty, None, c)
            end
          else
            let '(result, err, c, mcpRegistry) := reconcileSync c mcpRegistry in
            let '(_, c, _) := client.Get c mcpRegistry in
            (result, err, c)
      end
  end.

End Reconciler.

End controllers.

(* ===================================================================== *)

(** ** corev1 and the read side of the cluster client *)
(* ===================================================================== *)

Module corev1.

(** A ConfigMap: its data, its creation time and the times of its managed
    fields (an entry may carry none). *)
Record ConfigMap := {
  Name : string;
  Namespace : string;
  Data : gmap string string;
  CreationTimestamp : Time;
  ManagedFields : list (option Time)
}.

End corev1.

Module kube.

(** [client.Client] as a reader: [Get] of a declaration and of a ConfigMap,
    by name and namespace. *)
Record Reader := {
  GetMCPRegistry : string -> string -> result MCPRegistry;
  GetConfigMap : string -> string -> result corev1.ConfigMap
}.

End kube.

(* ===================================================================== *)

(** ** controllers: the ConfigMap source handler *)
(* ===================================================================== *)

Module ConfigMapSourceHandler.

Definition ConfigMapSourceType := "configmap".
Definition DefaultRegistryKey := "registry.json".

(** Two's complement wrap-around of [int32]. *)
Definition wrap32 (z : Z) : Z := (z + 2 ^ 31) mod 2 ^ 32 - 2 ^ 31.

(** [time.Time{}], the zero time: 1 January of year 1. *)
Definition zeroTime : Time := -62135596800 * Second.

Module SyncResult.
Record t := {
  Data : string;
  Hash : string;
  ServerCount : Z;
  LastModified : Time;
  Format : string
}.
End SyncResult.

(** [Server] of the registry data; the fields beyond these are decoded for
    their types only. *)
Module Server.
Record t := {
  Description : string;
  Tier : string;
  Status : string;
  Transport : string;
  Tools : list string;
  Tags : list string;
  Image : string
}.
End Server.

Module RegistryData.
Record t := {
  Schema : string;
  Version : string;
  LastUpdated : Time;
  Servers : option (gmap string Server.t)
}.
End RegistryData.

Import registry.

Definition decodeStrings (v : option json.value) : result (list string) :=
  decodeSlice (fun x => decodeString (Some x)) v.

(** [EnvConfig] and [Environment], decoded for their types. *)
Definition decodeEnvConfig (v : option json.value) : result unit :=
  match v with
  | None | Some json.Null => Ok tt
  | Some (json.Object ms) =>
      match decodeMap (fun x => decodeString (Some x)) (json.field "env" ms),
            decodeStrings (json.field "args" ms) with
      | Ok _, Ok _ => Ok tt
      | _, _ => Err (typeError "controllers.EnvConfig")
      end
  | Some _ => Err (typeError "controllers.EnvConfig")
  end.

Definition decodeEnvironment (v : json.value) : result unit :=
  match v with
  | json.Null => Ok tt
  | json.Object ms =>
      match decodeString (json.field "name" ms),
            decodeString (json.field "description" ms),
            decodeEnvConfig (json.field "config" ms) with
      | Ok _, Ok _, Ok _ => Ok tt
      | _, _, _ => Err (typeError "controllers.Environment")
      end
  | _ => Err (typeError "controllers.Environment")
  end.

Definition zeroServer : Server.t :=
  {| Server.Description := ""; Server.Tier := ""; Server.Status := "";
     Server.Transport := ""; Server.Tools := []; Server.Tags := [];
     Server.Image := "" |}.

Definition decodeServer (v : json.value) : result Server.t :=
  match v with
  | json.Null => Ok zeroServer
  | json.Object ms =>
      match decodeString (json.field "description" ms),
            decodeString (json.field "tier" ms),
            decodeString (json.field "status" ms),
            decodeString (json.field "transport" ms),
            decodeStrings (json.field "tools" ms),
            decodeMap (fun x => Ok x) (json.field "metadata" ms),
            decodeString (json.field "repository_url" ms),
            decodeStrings (json.field "tags" ms),
            decodeString (json.field "image" ms),
            decodeStrings (json.field "command" ms),
            decodeStrings (json.field "args" ms),
            decodeSlice decodeEnvironment (json.field "environments" ms) with
      | Ok description, Ok tier, Ok status, Ok transport, Ok tools, Ok _, Ok _,
        Ok tags, Ok image, Ok _, Ok _, Ok _ =>
          Ok {| Server.Description := description; Server.Tier := tier;
                Server.Status := status; Server.Transport := transport;
                Server.Tools := tools; Server.Tags := tags; Server.Image := image |}
      | _, _, _, _, _, _, _, _, _, _, _, _ => Err (typeError "controllers.Server")
      end
  | _ => Err (typeError "controllers.Server")
  end.

Section Handler.

Variable enc : json.Encoding.

(** [time.Parse(time.RFC3339, s)], as [time.Time] decodes a JSON string. *)
Variable parseRFC3339 : string -> option Time.

(** The choice of the map range in [DetectFormat], and the time stamp of a
    conversion. *)
Variable order : nat.
Variable timestamp : string.

Variable client : kube.Reader.

Definition decodeTime (v : option json.value) : result Time :=
  match v with
  | None | Some json.Null => Ok zeroTime
  | Some (json.Str s) =>
      match parseRFC3339 s with
      | Some t => Ok t
      | None => Err (fmtErrorf "parsing time: cannot parse")
      end
  | Some _ => Err (typeError "time.Time")
  end.

Definition decodeRegistryData (v : json.value) : result RegistryData.t :=
  match v with
  | json.Null =>
      Ok {| RegistryData.Schema := ""; RegistryData.Version := "";
            RegistryData.LastUpdated := zeroTime; RegistryData.Servers := None |}
  | json.Object ms =>
      match decodeString (json.field "$schema" ms),
            decodeString (json.field "version" ms),
            decodeTime (json.field "last_updated" ms),
            decodeMap decodeServer (json.field "servers" ms) with
      | Ok schema, Ok version, Ok lastUpdated, Ok servers =>
          Ok {| RegistryData.Schema := schema; RegistryData.Version := version;
                RegistryData.LastUpdated := lastUpdated;
                RegistryData.Servers := servers |}
      | _, _, _, _ => Err (typeError "controllers.RegistryData")
      end
  | _ => Err (typeError "controllers.RegistryData")
  end.

(** [json.Unmarshal([]byte(data), &registryData)] *)
Definition unmarshalRegistryData (data : string) : result RegistryData.t :=
  match json.parse enc data with
  | None => Err (fmtErrorf "invalid character")
  | Some v => decodeRegistryData v
  end.

(** [Validate]: the source is passed by pointer and gets the default key. *)
Definition Validate (source : MCPRegistrySource.t)
  : option error * MCPRegistrySource.t :=
  if negb (String.eqb (MCPRegistrySource.Type_ source) ConfigMapSourceType) then
    (Some (NewSourceHandlerError ConfigMapSourceType "validate" "source type mismatch"
             (fmtErrorf ("expected " +:+ ConfigMapSourceType +:+ ", got "
                         +:+ MCPRegistrySource.Type_ source))),
     source)
  else
    match MCPRegistrySource.ConfigMap source with
    | None =>
        (Some (NewSourceHandlerError ConfigMapSourceType "validate"
                 "configmap configuration is required" ErrValidationFailed),
         source)
    | Some cm =>
        if String.eqb (ConfigMapRegistrySource.Name cm) "" then
          (Some (NewSourceHandlerError ConfigMapSourceType "validate"
                   "configmap name is required" ErrValidationFailed),
           source)
        else if String.eqb (ConfigMapRegistrySource.Key cm) "" then
          (None,
           {| MCPRegistrySource.Type_ := MCPRegistrySource.Type_ source;
              MCPRegistrySource.Format := MCPRegistrySource.Format source;
              MCPRegistrySource.ConfigMap :=
                Some {| ConfigMapRegistrySource.Name := ConfigMapRegistrySource.Name cm;
                        ConfigMapRegistrySource.Namespace :=
                          ConfigMapRegistrySource.Namespace cm;
                        ConfigMapRegistrySource.Key := DefaultRegistryKey |} |})
        else (None, source)
    end.

(** [calculateHash] *)
Definition calculateHash (data : string) : string :=
  hex.EncodeToString (sha256.Sum256 data).

(** The last modification time: the latest of the creation time and the
    times of the managed fields. *)
Definition lastModifiedOf (configMap : corev1.ConfigMap) : Time :=
  let lastModified := zeroTime in
  let lastModified :=
    if lastModified <? corev1.CreationTimestamp configMap
    then corev1.CreationTimestamp configMap else lastModified in
  fold_left
    (fun lastModified managedField =>
       match managedField with
       | Some t => if lastModified <? t then t else lastModified
       | None => lastModified
       end)
    (corev1.ManagedFields configMap) lastModified.

(** [Sync] *)
Definition Sync (registry : MCPRegistry) : result SyncResult.t :=
  let '(verr, source) := Validate (Source (Spec registry)) in
  match verr, MCPRegistrySource.ConfigMap source with
  | Some err, _ => Err err
  | None, None => Err (ErrOther "nil pointer dereference")
  | None, Some cmSource =>
      let namespace :=
        if String.eqb (ConfigMapRegistrySource.Namespace cmSource) ""
        then Namespace registry
        else ConfigMapRegistrySource.Namespace cmSource in
      match kube.GetConfigMap client (ConfigMapRegistrySource.Name cmSource) namespace with
      | Err err =>
          if match err with ErrNotFound => true | _ => false end then
            Err (NewSourceHandlerError ConfigMapSourceType "sync"
                   ("ConfigMap '" +:+ ConfigMapRegistrySource.Name cmSource
                      +:+ "' not found in namespace '" +:+ namespace +:+ "'")
                   ErrSourceNotFound)
          else
            Err (NewSourceHandlerError ConfigMapSourceType "sync"
                   "failed to fetch ConfigMap" err)
      | Ok configMap =>
          match corev1.Data configMap !! ConfigMapRegistrySource.Key cmSource with
          | None =>
              Err (NewSourceHandlerError ConfigMapSourceType "sync"
                     ("key '" +:+ ConfigMapRegistrySource.Key cmSource
                        +:+ "' not found in ConfigMap '"
                        +:+ ConfigMapRegistrySource.Name cmSource +:+ "'")
                     ErrSourceNotFound)
          | Some data =>
              match unmarshalRegistryData data with
              | Err _ =>
                  Err (NewSourceHandlerError ConfigMapSourceType "sync"
                         ("invalid JSON in ConfigMap key '"
                            +:+ ConfigMapRegistrySource.Key cmSource +:+ "'")
                         ErrInvalidData)
              | Ok registryData =>
                  let hash := calculateHash data in
                  let lastModified := lastModifiedOf configMap in
                  let serverCount :=
                    wrap32 (sync.len (RegistryData.Servers registryData)) in
                  let targetFormat :=
                    if String.eqb (Format (Spec registry)) ""
                    then RegistryFormatToolHive else Format (Spec registry) in
                  let sourceFormat :=
                    match RegistryFormatConverter.DetectFormat enc order data with
                    | Ok f => f
                    | Err _ => targetFormat
                    end in
                  let converted :=
                    if negb (String.eqb sourceFormat targetFormat) then
                      match RegistryFormatConverter.Convert enc timestamp data
                              sourceFormat targetFormat with
                      | Err err =>
                          Err (NewSourceHandlerError ConfigMapSourceType "conversion"
                                 ("failed to convert from " +:+ sourceFormat +:+ " to "
                                    +:+ targetFormat +:+ " format") err)
                      | Ok convertedBytes => Ok convertedBytes
                      end
                    else Ok data in
                  match converted with
                  | Err err => Err err
                  | Ok convertedData =>
                      Ok {| SyncResult.Data := convertedData;
                            SyncResult.Hash := hash;
                            SyncResult.ServerCount := serverCount;
                            SyncResult.LastModified := lastModified;
                            SyncResult.Format := targetFormat |}
                  end
              end
          end
      end
  end.

End Handler.

End ConfigMapSourceHandler.

(* ===================================================================== *)

(** ** pkg/registryapi: the read API of a registry *)
(* ===================================================================== *)

Module registryapi.

Definition StatusOK : Z := 200.
Definition StatusBadRequest : Z := 400.
Definition StatusInternalServerError : Z := 500.
Definition StatusServiceUnavailable : Z := 503.

(** [http.StatusText] *)
Definition StatusText (code : Z) : string :=
  if code =? 200 then "OK"
  else if code =? 400 then "Bad Request"
  else if code =? 404 then "Not Found"
  else if code =? 500 then "Internal Server Error"
  else if code =? 503 then "Service Unavailable"
  else "".

(** [StorageConfigMapKeyData] of the controllers package. *)
Definition StorageConfigMapKeyData := "registry.json".

Record ServerConfig := {
  Port : Z;
  RegistryName : string;
  RegistryNamespace : string
}.

Record Server := {
  config : ServerConfig;
  kubeClient : kube.Reader;
  formatConverter : FormatConverter.t
}.

Module ServerListResponse.
Record t := {
  Servers : gmap string json.value;
  Count : Z;
  Format : string
}.
End ServerListResponse.

Module ServerResponse.
Record t := { Name : string; Server : json.value; Format : string }.
End ServerResponse.

Module ErrorResponse.
Record t := { Error : string; Message : string; Code : Z }.
End ErrorResponse.

(** What a handler writes: the status code and the body. *)
Inductive Body :=
| Text (s : string)
| ServerList (r : ServerListResponse.t)
| OneServer (r : ServerResponse.t)
| Failure (r : ErrorResponse.t).

Record Response := { StatusCode : Z; Payload : Body }.

Definition newline : string := String "010"%char EmptyString.

(** [http.Error] *)
Definition httpError (message : string) (code : Z) : Response :=
  {| StatusCode := code; Payload := Text (message +:+ newline) |}.

(** [writeErrorResponse] *)
Definition writeErrorResponse (message : string) (statusCode : Z) : Response :=
  {| StatusCode := statusCode;
     Payload := Failure {| ErrorResponse.Error := StatusText statusCode;
                           ErrorResponse.Message := message;
                           ErrorResponse.Code := statusCode |} |}.

(** [contains] *)
Definition contains (slice : list string) (item : string) : bool :=
  existsb (fun s => String.eqb s item) slice.

(** [%v] of a slice of strings. *)
Fixpoint fmt_v_items (l : list string) : string :=
  match l with
  | [] => ""
  | [x] => x
  | x :: r => x +:+ " " +:+ fmt_v_items r
  end.

Definition fmt_v (l : list string) : string := "[" +:+ fmt_v_items l +:+ "]".

(** The handlers read [StorageRef.Name] and [StorageRef.Namespace]; in the
    declared [StorageReference] the two are fields of its [ConfigMapRef]. *)
Definition storageName (ref : StorageReference.t) : string :=
  match StorageReference.ConfigMapRef ref with
  | Some cm => ConfigMapReference.Name cm
  | None => ""
  end.

Definition storageNamespace (ref : StorageReference.t) : string :=
  match StorageReference.ConfigMapRef ref with
  | Some cm => ConfigMapReference.Namespace cm
  | None => ""
  end.

Section Handlers.

Variable enc : json.Encoding.
Variable s : Server.

(** [handleHealth] *)
Definition handleHealth : Response :=
  {| StatusCode := StatusOK; Payload := Text "OK" |}.

(** [handleReadiness]: ready as soon as the declaration can be read. *)
Definition handleReadiness : Response :=
  match kube.GetMCPRegistry (kubeClient s)
          (RegistryName (config s)) (RegistryNamespace (config s)) with
  | Err _ => httpError "Not ready: cannot access registry" StatusServiceUnavailable
  | Ok _ => {| StatusCode := StatusOK; Payload := Text "Ready" |}
  end.

(** [getRegistryData] *)
Definition getRegistryData : result string :=
  match kube.GetMCPRegistry (kubeClient s)
          (RegistryName (config s)) (RegistryNamespace (config s)) with
  | Err err => Err (fmtErrorfW "failed to get MCPRegistry" err)
  | Ok registry =>
      match StorageRef (Status registry) with
      | None => Err (fmtErrorf "no storage reference found in registry status")
      | Some ref =>
          match kube.GetConfigMap (kubeClient s) (storageName ref) (storageNamespace ref) with
          | Err err => Err (fmtErrorfW "failed to get storage ConfigMap" err)
          | Ok configMap =>
              match corev1.Data configMap !! StorageConfigMapKeyData with
              | None => Err (fmtErrorf "no registry data found in storage ConfigMap")
              | Some data => Ok data
              end
          end
      end
  end.

(** [convertRegistryFormat] *)
Definition convertRegistryFormat (data targetFormat : string) : result string :=
  let currentFormat :=
    match FormatConverter.DetectFormat (formatConverter s) data with
    | Ok f => f
    | Err _ => targetFormat
    end in
  if negb (String.eqb currentFormat targetFormat) then
    FormatConverter.Convert (formatConverter s) data currentFormat targetFormat
  else Ok data.

(** [json.Unmarshal] into [map[string]interface{}]: the document must be an
    object (or null, which leaves the map nil). *)
Definition unmarshalObject (data : string) : result (list (string * json.value)) :=
  match json.parse enc data with
  | None => Err (fmtErrorf "invalid character")
  | Some (json.Object members) => Ok members
  | Some json.Null => Ok []
  | Some _ => Err (registry.typeError "map[string]interface {}")
  end.

(** [serversData["servers"].(map[string]interface{})], an empty map when the
    key is absent or holds no object. *)
Definition extractServers (serversData : list (string * json.value))
  : gmap string json.value :=
  match json.member "servers" serversData with
  | Some (json.Object members) =>
      match registry.decodeMembers (fun v => Ok v) members with
      | Ok servers => servers
      | Err _ => ∅
      end
  | _ => ∅
  end.

(** [handleListServers]; [format] is the query parameter, empty when absent. *)
Definition handleListServers (format : string) : Response :=
  let requestedFormat :=
    if String.eqb format "" then RegistryFormatToolHive else format in
  let supportedFormats := FormatConverter.SupportedFormats (formatConverter s) in
  if negb (contains supportedFormats requestedFormat) then
    writeErrorResponse
      ("Unsupported format: " +:+ requestedFormat +:+ ". Supported formats: "
         +:+ fmt_v supportedFormats)
      StatusBadRequest
  else
    match getRegistryData with
    | Err _ =>
        writeErrorResponse "Failed to retrieve registry data" StatusInternalServerError
    | Ok registryData =>
        match convertRegistryFormat registryData requestedFormat with
        | Err _ =>
            writeErrorResponse "Failed to convert registry format"
              StatusInternalServerError
        | Ok convertedData =>
            match unmarshalObject convertedData with
            | Err _ =>
                writeErrorResponse "Failed to parse registry data"
                  StatusInternalServerError
            | Ok serversData =>
                let servers := extractServers serversData in
                {| StatusCode := StatusOK;
                   Payload := ServerList
                     {| ServerListResponse.Servers := servers;
                        ServerListResponse.Count := Z.of_nat (size servers);
                        ServerListResponse.Format := requestedFormat |} |}
            end
        end
    end.


End Handlers.

End registryapi.

(* ===================================================================== *)

(** ** Sample declarations used to run the definitions *)
(* ===================================================================== *)

Module Fixtures.

Definition emptyStatus : MCPRegistryStatus :=
  {| Conditions := []; Phase := ""; Message := "";
     LastSyncTime := None; LastSyncHash := ""; ServerCount := 0;
     SyncAttempts := 0; NextRetryTime := None; StorageRef := None;
     LastManualSyncTrigger := "" |}.

Definition configMapSource : MCPRegistrySource.t :=
  {| MCPRegistrySource.Type_ := "configmap";
     MCPRegistrySource.Format := "toolhive";
     MCPRegistrySource.ConfigMap :=
       Some {| ConfigMapRegistrySource.Name := "registry-data";
               ConfigMapRegistrySource.Namespace := "";
               ConfigMapRegistrySource.Key := "" |} |}.

Definition declaration (st : MCPRegistryStatus) : MCPRegistry :=
  {| Name := "community"; Namespace := "toolhive-system";
     Annotations := ∅; DeletionTimestamp := None;
     Finalizers := ["mcpregistry.toolhive.stacklok.dev/finalizer"];
     Spec := {| DisplayName := "Community"; Format := "";
                Source := configMapSource;
                SyncPolicy := None; Filter := None |};
     Status := st |}.

(** A declaration in phase [p] with the given retry time. *)
Definition inPhase (p : MCPRegistryPhase) (retry : option Time) : MCPRegistry :=
  declaration (with_NextRetryTime (with_Phase emptyStatus p) retry).

(** Checkers that report no change, no manual trigger and no interval. *)
Definition quietCheckers : sync.Checkers :=
  {| sync.IsDataChanged := fun _ => (false, None);
     sync.IsManualSyncRequested := fun _ => (false, "no-annotations");
     sync.IsIntervalSyncNeeded := fun _ => (false, 0, None) |}.

Definition emptyRegistry : registry.Registry :=
  {| registry.Version := "1.0.0"; registry.LastUpdated := "2025-09-02T00:17:21Z";
     registry.Servers := Some ∅; registry.RemoteServers := None |}.

(** A registry without entries, fetched with the count a handler reports. *)
Definition emptyFetch : sync.FetchResult.t :=
  {| sync.FetchResult.Registry := emptyRegistry;
     sync.FetchResult.Hash := "e3b0c442";
     sync.FetchResult.ServerCount := 0;
     sync.FetchResult.Format := "toolhive" |}.

Definition handlerFetching (r : result sync.FetchResult.t) : sync.SourceHandler :=
  {| sync.Validate := fun _ src => (None, src);
     sync.FetchRegistry := fun _ _ => r |}.

Definition storageReference (o : MCPRegistry) : option StorageReference.t :=
  Some {| StorageReference.Type_ := "configmap";
          StorageReference.ConfigMapRef :=
            Some {| ConfigMapReference.Name := Name o +:+ "-registry-storage";
                    ConfigMapReference.Namespace := Namespace o;
                    ConfigMapReference.Key := "registry.json" |} |}.

Definition managerWith (h : result sync.SourceHandler) : sync.DefaultSyncManager :=
  {| sync.CreateHandler := fun _ => h;
     sync.ApplyFilters := fun reg _ => Ok reg;
     sync.GetStorageReference := storageReference;
     sync.checkers := quietCheckers |}.

(** The status of a declaration that was synced before: five servers. *)
Definition syncedStatus : MCPRegistryStatus :=
  {| Conditions := []; Phase := "Ready";
     Message := "Registry is ready and synchronized";
     LastSyncTime := Some 50; LastSyncHash := "0a1b2c3d"; ServerCount := 5;
     SyncAttempts := 0; NextRetryTime := None;
     StorageRef := storageReference (declaration emptyStatus);
     LastManualSyncTrigger := "trigger-1" |}.

(** A cluster that holds the declaration [o] and answers every call. *)
Definition clusterOf (o : MCPRegistry) : client.Cluster :=
  {| client.object := Some o; client.artifact := None;
     client.faults := []; client.trace := [] |}.

Definition connectionRefused : error := ErrOther "connection refused".

(** A manager whose source cannot be reached. *)
Definition unreachableSource : sync.DefaultSyncManager :=
  managerWith (Ok (handlerFetching (Err connectionRefused))).

(** A manager whose source holds a registry with an empty servers map. *)
Definition emptySource : sync.DefaultSyncManager :=
  managerWith (Ok (handlerFetching (Ok emptyFetch))).

(** A synced declaration that carries a manual sync trigger. *)
Definition triggered (v : string) : MCPRegistry :=
  {| Name := "community"; Namespace := "toolhive-system";
     Annotations := {[ sync.SyncTriggerAnnotation := v ]};
     DeletionTimestamp := None;
     Finalizers := ["mcpregistry.toolhive.stacklok.dev/finalizer"];
     Spec := {| DisplayName := "Community"; Format := "";
                Source := configMapSource;
                SyncPolicy := None; Filter := None |};
     Status := syncedStatus |}.

(** Checkers that see a manual trigger and unchanged data. *)
Definition manualCheckers : sync.Checkers :=
  {| sync.IsDataChanged := fun _ => (false, None);
     sync.IsManualSyncRequested := fun _ => (true, "manual-sync-requested");
     sync.IsIntervalSyncNeeded := fun _ => (false, 0, None) |}.

Definition manualReconciler : controllers.MCPRegistryReconciler :=
  {| controllers.syncManager :=
       {| sync.CreateHandler := fun _ => Ok (handlerFetching (Ok emptyFetch));
          sync.ApplyFilters := fun reg _ => Ok reg;
          sync.GetStorageReference := storageReference;
          sync.checkers := manualCheckers |};
     controllers.ParseDuration := fun _ => Err (ErrOther "time: invalid duration") |}.

(** A synced declaration marked for deletion, its artifact still stored. *)
Definition deleted : MCPRegistry :=
  {| Name := "community"; Namespace := "toolhive-system";
     Annotations := ∅; DeletionTimestamp := Some 900;
     Finalizers := ["mcpregistry.toolhive.stacklok.dev/finalizer"];
     Spec := {| DisplayName := "Community"; Format := "";
                Source := configMapSource;
                SyncPolicy := None; Filter := None |};
     Status := syncedStatus |}.

Definition storageUnavailable : error := ErrOther "failed to delete storage ConfigMap".

Definition conflict : error := ErrOther "the object has been modified".

(** The cluster during a deletion, with the outcome of the coming calls. *)
Definition deleting (outcomes : list (option error)) : client.Cluster :=
  {| client.object := Some deleted; client.artifact := Some emptyRegistry;
     client.faults := outcomes; client.trace := [] |}.

Definition reconciler : controllers.MCPRegistryReconciler :=
  {| controllers.syncManager := emptySource;
     controllers.ParseDuration := fun _ => Err (ErrOther "time: invalid duration") |}.

(** An upstream envelope with the given [server.name]. *)
Definition envelope (name : string) : json.value :=
  json.Object
    [("server",
      json.Object [("name", json.Str name); ("description", json.Str "a server")])].

(** An envelope without [server.name]. *)
Definition namelessEnvelope : json.value :=
  json.Object [("server", json.Object [("description", json.Str "a server")])].

(** An upstream map in which one of two entries carries a name. *)
Definition mixedUpstream : string :=
  json.printValue
    (json.Object [("alpha", envelope "alpha"); ("beta", namelessEnvelope)]).

(** An upstream map in which every entry carries a name. *)
Definition namedUpstream : string :=
  json.printValue
    (json.Object [("alpha", envelope "alpha"); ("beta", envelope "beta")]).

(** A canonical registry with the server [filesystem]. *)
Definition canonicalFilesystem : string :=
  json.printValue
    (json.Object
       [("version", json.Str "1.0.0");
        ("last_updated", json.Str "2025-09-02T00:17:21Z");
        ("servers",
         json.Object
           [("filesystem",
             json.Object
               [("name", json.Str "filesystem");
                ("description", json.Str "Filesystem operations server");
                ("transport", json.Str "stdio");
                ("image", json.Str "mcp/filesystem:latest")])])]).

(** The map a payload decodes to, for the payloads that are upstream maps. *)
Definition decodedUpstream (data : string)
  : gmap string (option registry.UpstreamServerDetail.t) :=
  match FormatSpec.upstreamMap json.std data with
  | Some m => m
  | None => ∅
  end.

(** A reader over a cluster that holds one declaration and one ConfigMap
    (or fails to return them). *)
Definition readerOf (reg : result MCPRegistry) (cm : result corev1.ConfigMap)
  : kube.Reader :=
  {| kube.GetMCPRegistry := fun name namespace =>
       match reg with
       | Ok o => if String.eqb name (Name o) && String.eqb namespace (Namespace o)
                 then Ok o else Err ErrNotFound
       | Err e => Err e
       end;
     kube.GetConfigMap := fun name namespace =>
       match cm with
       | Ok m => if String.eqb name (corev1.Name m)
                    && String.eqb namespace (corev1.Namespace m)
                 then Ok m else Err ErrNotFound
       | Err e => Err e
       end |}.

(** The storage ConfigMap of the declaration [community], holding [data]. *)
Definition storageConfigMap (data : string) : corev1.ConfigMap :=
  {| corev1.Name := "community-registry-storage";
     corev1.Namespace := "toolhive-system";
     corev1.Data := {[ "registry.json" := data ]};
     corev1.CreationTimestamp := 100;
     corev1.ManagedFields := [] |}.

(** The API server of the declaration [community], as [NewServer] builds it. *)
Definition apiServer (reg : result MCPRegistry) (cm : result corev1.ConfigMap)
  : registryapi.Server :=
  {| registryapi.config :=
       {| registryapi.Port := 8080;
          registryapi.RegistryName := "community";
          registryapi.RegistryNamespace := "toolhive-system" |};
     registryapi.kubeClient := readerOf reg cm;
     registryapi.formatConverter :=
       RegistryFormatConverter.NewRegistryFormatConverter json.std 0
         "2025-09-02T00:17:21Z" |}.

(** A declaration that was never synced: no storage reference. *)
Definition pending : MCPRegistry :=
  declaration (with_Phase emptyStatus "Pending").

(** The API server of a synced declaration whose storage holds [data]. *)
Definition servingStored (data : string) : registryapi.Server :=
  apiServer (Ok (declaration syncedStatus)) (Ok (storageConfigMap data)).

(** The source ConfigMap [registry-data] of the sample declaration. *)
Definition sourceConfigMap (key data : string) : corev1.ConfigMap :=
  {| corev1.Name := "registry-data";
     corev1.Namespace := "toolhive-system";
     corev1.Data := {[ key := data ]};
     corev1.CreationTimestamp := 100;
     corev1.ManagedFields := [Some 250; None; Some 180] |}.

(** A stand-in for the RFC 3339 parser: it accepts the one time stamp the
    sample payloads carry. *)
Definition sampleRFC3339 (s : string) : option Time :=
  if String.eqb s "2025-09-02T00:17:21Z" then Some (1756772241 * Second) else None.

Definition syncFrom (cm : result corev1.ConfigMap)
  : result ConfigMapSourceHandler.SyncResult.t :=
  ConfigMapSourceHandler.Sync json.std sampleRFC3339 0 "2025-09-02T00:17:21Z"
    (readerOf (Err ErrNotFound) cm) (declaration emptyStatus).

(** The ConfigMap source of the sample declaration. *)
Definition registryDataSource : ConfigMapRegistrySource.t :=
  {| ConfigMapRegistrySource.Name := "registry-data";
     ConfigMapRegistrySource.Namespace := "";
     ConfigMapRegistrySource.Key := "" |}.

Definition notJSON : string := "{invalid json}".

(** A manager whose source answers the first fetch of a run and then
    refuses the connection. *)
Definition flakySource : sync.DefaultSyncManager :=
  managerWith
    (Ok {| sync.Validate := fun _ src => (None, src);
           sync.FetchRegistry := fun call _ =>
             match call with
             | O => Ok emptyFetch
             | S _ => Err connectionRefused
             end |}).

(** The status after [attempts] failed attempts. *)
Definition failedStatus (attempts : Z) : MCPRegistryStatus :=
  with_SyncAttempts (with_Phase syncedStatus "Failed") attempts.

End Fixtures.

(* ===================================================================== *)
(** ** Observations on runs, used to state the properties *)
(* ===================================================================== *)

Module Observe.

(** The record of the last successful sync kept in a status. *)
Definition lastSync (st : MCPRegistryStatus)
  : option Time * string * Z * option StorageReference.t * string :=
  (LastSyncTime st, LastSyncHash st, ServerCount st, StorageRef st,
   LastManualSyncTrigger st).

(** The same record, read from the declaration stored in the cluster. *)
Definition storedLastSync (c : client.Cluster) :=
  option_map (fun o => lastSync (Status o)) (client.object c).

(** What a status holds beside [lastManualSyncTrigger]. *)
Definition exceptTrigger (st : MCPRegistryStatus) :=
  (Conditions st, Phase st, Message st, LastSyncTime st, LastSyncHash st,
   ServerCount st, SyncAttempts st, NextRetryTime st, StorageRef st).

(** An update that carries no last-sync value. *)
Definition carriesNoSyncRecord (u : sync.statusUpdate.t) : Prop :=
  match sync.statusUpdate.SyncData u with
  | Some sd =>
      sync.syncData.LastSyncTime sd = None /\
      sync.syncData.LastSyncHash sd = "" /\
      sync.syncData.ServerCount sd <= 0 /\
      sync.syncData.StorageRef sd = None /\
      sync.syncData.LastManualSyncTrigger sd = ""
  | None => True
  end.

(** The number of entries of a stored registry. *)
Definition entries (reg : registry.Registry) : Z :=
  sync.len (registry.Servers reg) + sync.len (registry.RemoteServers reg).

(** The update a run of [PerformSync] decides on, and the cluster it leaves. *)
Definition decision (s : sync.DefaultSyncManager) (now : Time)
  (c : client.Cluster) (obj : MCPRegistry) : sync.statusUpdate.t :=
  fst (fst (sync.composeStatusUpdate s now c obj)).

Definition afterPerformSync (s : sync.DefaultSyncManager) (now : Time)
  (c : client.Cluster) (obj : MCPRegistry) : client.Cluster :=
  snd (fst (sync.PerformSync s now c obj)).

Definition resultOfPerformSync (s : sync.DefaultSyncManager) (now : Time)
  (c : client.Cluster) (obj : MCPRegistry) : ctrl.Result * option error :=
  fst (fst (sync.PerformSync s now c obj)).

(** The calls of the fast path: reads and status writes of the declaration. *)
Definition declarationCall (k : client.Call) : Prop :=
  k = client.CallGet \/ k = client.CallStatusUpdate.

(** The status the fast path writes: the refreshed one, with the trigger. *)
Definition trackedStatus (o : MCPRegistry) : MCPRegistryStatus :=
  match Annotations o !! sync.SyncTriggerAnnotation with
  | Some v => if negb (String.eqb v "")
              then with_LastManualSyncTrigger (Status o) v else Status o
  | None => Status o
  end.

(** The outcome of a run of [reconcileSync]. *)
Definition resultOfReconcileSync (r : controllers.MCPRegistryReconciler) (now : Time)
  (c : client.Cluster) (obj : MCPRegistry) : ctrl.Result :=
  fst (fst (fst (controllers.reconcileSync r now c obj))).

Definition errorOfReconcileSync (r : controllers.MCPRegistryReconciler) (now : Time)
  (c : client.Cluster) (obj : MCPRegistry) : option error :=
  snd (fst (fst (controllers.reconcileSync r now c obj))).

Definition afterReconcileSync (r : controllers.MCPRegistryReconciler) (now : Time)
  (c : client.Cluster) (obj : MCPRegistry) : client.Cluster :=
  snd (fst (controllers.reconcileSync r now c obj)).

(** The outcome of a run of [Reconcile]. *)
Definition errorOfReconcile (r : controllers.MCPRegistryReconciler) (now : Time)
  (c : client.Cluster) : option error :=
  snd (fst (controllers.Reconcile r now c)).

Definition afterReconcile (r : controllers.MCPRegistryReconciler) (now : Time)
  (c : client.Cluster) : client.Cluster :=
  snd (controllers.Reconcile r now c).

(** The declaration is still stored and still holds the finalizer. *)
Definition finalizerAttached (c : client.Cluster) : Prop :=
  exists o, client.object c = Some o /\
            controllerutil.ContainsFinalizer o controllers.MCPRegistryFinalizer = true.

(** The declaration is gone, or stored without the finalizer. *)
Definition finalizerRemoved (c : client.Cluster) : Prop :=
  forall o, client.object c = Some o ->
            controllerutil.ContainsFinalizer o controllers.MCPRegistryFinalizer = false.

(** A declaration with a well-formed ConfigMap source: the namespace and the
    key under which its handler looks for the data. *)
Definition lookupNamespace (registry : MCPRegistry) (cm : ConfigMapRegistrySource.t)
  : string :=
  if String.eqb (ConfigMapRegistrySource.Namespace cm) ""
  then Namespace registry else ConfigMapRegistrySource.Namespace cm.

Definition lookupKey (cm : ConfigMapRegistrySource.t) : string :=
  if String.eqb (ConfigMapRegistrySource.Key cm) ""
  then ConfigMapSourceHandler.DefaultRegistryKey else ConfigMapRegistrySource.Key cm.

(** The error is of the given kind: [errors.Is] finds the sentinel. *)
Definition failsWith {T} (r : result T) (kind : error) : Prop :=
  exists e, r = Err e /\ errors_Is e kind = true.

End Observe.

(* ===================================================================== *)
(** ** Further observations on runs *)
(* ===================================================================== *)

Module Watch.

(** [meta.FindStatusCondition], reduced to the status it finds: the status of
    the first condition of the given type. *)
Fixpoint conditionStatus (conditions : list metav1.Condition) (conditionType : string)
  : option metav1.ConditionStatus :=
  match conditions with
  | [] => None
  | c :: rest =>
      if String.eqb (metav1.Type_ c) conditionType then Some (metav1.Status c)
      else conditionStatus rest conditionType
  end.

(** The first phase of [PerformSync] failed. *)
Definition fetchFailed (s : sync.DefaultSyncManager) (now : Time)
  (c : client.Cluster) (obj : MCPRegistry) : Prop :=
  exists e, fst (fst (sync.fetchAndProcessRegistryData s now c obj)) = Err e.

End Watch.

(* ===================================================================== *)
(** ** Further sample values *)
(* ===================================================================== *)

Module Samples.

Definition filesystemImage : registry.ImageMetadata :=
  {| registry.Name := "filesystem";
     registry.Description := "Filesystem operations server";
     registry.Tier := "Official"; registry.Status := "Active";
     registry.Transport := "stdio"; registry.Tools := ["read_file"];
     registry.Tags := ["filesystem"];
     registry.Image := "mcp/filesystem:latest" |}.

(** The servers map of a registry with the one server [filesystem]. *)
Definition filesystemServers : gmap string (option registry.ImageMetadata) :=
  {[ "filesystem" := Some filesystemImage ]}.

(** The map a conversion loop ends with; empty when the loop fails. *)
Definition converted {T} (r : result (gmap string T)) : gmap string T :=
  match r with
  | Ok m => m
  | Err _ => ∅
  end.

(** A stored document with servers but without a version: neither format is
    detected. *)
Definition versionless : string :=
  json.printValue
    (json.Object
       [("servers",
         json.Object
           [("filesystem",
             json.Object
               [("name", json.Str "filesystem");
                ("image", json.Str "mcp/filesystem:latest")])])]).

(** What the ConfigMap handler returns for the sample declaration when its
    source holds the canonical registry [filesystem]. *)
Definition syncedResult : ConfigMapSourceHandler.SyncResult.t :=
  match Fixtures.syncFrom
          (Ok (Fixtures.sourceConfigMap "registry.json" Fixtures.canonicalFilesystem)) with
  | Ok res => res
  | Err _ =>
      {| ConfigMapSourceHandler.SyncResult.Data := "";
         ConfigMapSourceHandler.SyncResult.Hash := "";
         ConfigMapSourceHandler.SyncResult.ServerCount := 0;
         ConfigMapSourceHandler.SyncResult.LastModified := 0;
         ConfigMapSourceHandler.SyncResult.Format := "" |}
  end.

(** A synced declaration under the automatic policy, every thirty minutes. *)
Definition automatic : MCPRegistry :=
  {| Name := "community"; Namespace := "toolhive-system";
     Annotations := ∅; DeletionTimestamp := None;
     Finalizers := ["mcpregistry.toolhive.stacklok.dev/finalizer"];
     Spec := {| DisplayName := "Community"; Format := "";
                Source := Fixtures.configMapSource;
                SyncPolicy :=
                  Some {| MCPRegistrySyncPolicy.Type_ := "automatic";
                          MCPRegistrySyncPolicy.Interval := "30m" |};
                Filter := None |};
     Status := Fixtures.syncedStatus |}.

(** A stand-in for the duration parser: it knows the interval of the sample. *)
Definition sampleDuration (s : string) : result Duration :=
  if String.eqb s "30m" then Ok (30 * Minute)
  else Err (ErrOther "time: invalid duration").

End Samples.

(* ===================================================================== *)
(** ** controllers: the other methods of the ConfigMap source handler
       (configmap_source_handler.go) *)
(* ===================================================================== *)

Module NamespacedName.
Record t := { Name : string; Namespace : string }.
End NamespacedName.

Module ConfigMapSource.

Import ConfigMapSourceHandler.

(** [GetSourceType] *)
Definition GetSourceType : string := ConfigMapSourceType.

(** [GetConfigMapReference]: the result is [(NamespacedName, key, error)].
    As in [Sync], [Validate] has checked the pointer that is read next. *)
Definition GetConfigMapReference (registry : MCPRegistry)
  : NamespacedName.t * string * option error :=
  let '(verr, source) := Validate (Source (Spec registry)) in
  match verr, MCPRegistrySource.ConfigMap source with
  | Some err, _ =>
      ({| NamespacedName.Name := ""; NamespacedName.Namespace := "" |}, "", Some err)
  | None, None =>
      ({| NamespacedName.Name := ""; NamespacedName.Namespace := "" |}, "",
       Some (ErrOther "nil pointer dereference"))
  | None, Some cmSource =>
      let namespace :=
        if String.eqb (ConfigMapRegistrySource.Namespace cmSource) ""
        then Namespace registry
        else ConfigMapRegistrySource.Namespace cmSource in
      ({| NamespacedName.Name := ConfigMapRegistrySource.Name cmSource;
          NamespacedName.Namespace := namespace |},
       ConfigMapRegistrySource.Key cmSource, None)
  end.

Definition validTransports : list string :=
  ["stdio"; "http"; "sse"; "streamable-http"].

(** [validateServer] *)
Definition validateServer (name : string) (server : Server.t) : option error :=
  if String.eqb (Server.Description server) "" then
    Some (fmtErrorf "description is required")
  else if String.eqb (Server.Image server) "" then
    Some (fmtErrorf "image is required")
  else if String.eqb (Server.Transport server) "" then
    Some (fmtErrorf "transport is required")
  else
    let validTransport :=
      existsb (fun valid => String.eqb (Server.Transport server) valid)
        validTransports in
    if negb validTransport then
      Some (fmtErrorf ("invalid transport '" +:+ Server.Transport server
                       +:+ "', must be one of: " +:+ registryapi.fmt_v validTransports))
    else None.

(** The loop of [validateRegistryData] over the servers: it ends at the first
    server found wanting. The order of the range only decides which of
    several errors is returned. *)
Fixpoint validateServers (servers : list (string * Server.t)) : option error :=
  match servers with
  | [] => None
  | (serverName, server) :: rest =>
      match validateServer serverName server with
      | Some err =>
          Some (fmtErrorfW ("invalid server '" +:+ serverName +:+ "'") err)
      | None => validateServers rest
      end
  end.

Section Checks.

Variable enc : json.Encoding.
Variable parseRFC3339 : string -> option Time.

(** [validateRegistryData] *)
Definition validateRegistryData (data : string) : option error :=
  match unmarshalRegistryData enc parseRFC3339 data with
  | Err err => Some (fmtErrorfW "invalid JSON format" err)
  | Ok registryData =>
      if String.eqb (RegistryData.Version registryData) "" then
        Some (fmtErrorf "version field is required")
      else
        match RegistryData.Servers registryData with
        | None => Some (fmtErrorf "servers field is required")
        | Some servers => validateServers (map_to_list servers)
        end
  end.

End Checks.

End ConfigMapSource.

(* ===================================================================== *)
(** ** controllers: the status manager (status_manager.go) *)
(* ===================================================================== *)

Module StatusManager.

Definition ConditionTypeSourceAvailable := "SourceAvailable".
Definition ConditionTypeDataValid := "DataValid".
Definition ConditionTypeSyncSuccessful := "SyncSuccessful".
Definition ConditionTypeStorageReady := "StorageReady".

Definition ReasonSourceFound := "SourceFound".
Definition ReasonDataValid := "DataValid".
Definition ReasonDataInvalid := "DataInvalid".
Definition ReasonSyncSuccessful := "SyncSuccessful".
Definition ReasonSyncFailed := "SyncFailed".
Definition ReasonStorageReady := "StorageReady".
Definition ReasonValidationFailed := "ValidationFailed".
Definition ReasonConfigMapNotFound := "ConfigMapNotFound".
Definition ReasonInvalidJSON := "InvalidJSON".

(** A call either returns or panics (a slice out of range, a nil pointer). *)
Inductive outcome (A : Type) :=
| Returned (a : A)
| Panicked (message : string).

Arguments Returned {A} a.
Arguments Panicked {A} message.

(** [==] on [metav1.ConditionStatus]. *)
Definition sameStatus (a b : metav1.ConditionStatus) : bool :=
  match a, b with
  | metav1.ConditionTrue, metav1.ConditionTrue
  | metav1.ConditionFalse, metav1.ConditionFalse
  | metav1.ConditionUnknown, metav1.ConditionUnknown => true
  | _, _ => false
  end.

(** The body of [setCondition] on the slice of conditions: the first condition
    of the type is updated, and stamped, when one of status, reason and
    message differs; a condition of a new type is appended. *)
Fixpoint setConditionIn (now : Time) (conditions : list metav1.Condition)
  (conditionType : string) (status : metav1.ConditionStatus) (reason message : string)
  : list metav1.Condition :=
  match conditions with
  | [] =>
      [ {| metav1.Type_ := conditionType; metav1.Status := status;
           metav1.Reason := reason; metav1.Message := message;
           metav1.LastTransitionTime := Some now |} ]
  | existingCondition :: rest =>
      if String.eqb (metav1.Type_ existingCondition) conditionType then
        if negb (sameStatus (metav1.Status existingCondition) status)
           || negb (String.eqb (metav1.Reason existingCondition) reason)
           || negb (String.eqb (metav1.Message existingCondition) message)
        then {| metav1.Type_ := metav1.Type_ existingCondition;
                metav1.Status := status; metav1.Reason := reason;
                metav1.Message := message;
                metav1.LastTransitionTime := Some now |} :: rest
        else existingCondition :: rest
      else existingCondition
             :: setConditionIn now rest conditionType status reason message
  end.

(** [setCondition]; [now] is its reading of the clock. *)
Definition setCondition (now : Time) (registry : MCPRegistry)
  (conditionType : string) (status : metav1.ConditionStatus) (reason message : string)
  : MCPRegistry :=
  with_Status registry
    (with_Conditions (v1alpha1.Status registry)
       (setConditionIn now (Conditions (v1alpha1.Status registry))
          conditionType status reason message)).

(** [GetCondition] *)
Definition GetCondition (registry : MCPRegistry) (conditionType : string)
  : option metav1.Condition :=
  List.find (fun c => String.eqb (metav1.Type_ c) conditionType)
    (Conditions (v1alpha1.Status registry)).

(** [IsConditionTrue] *)
Definition IsConditionTrue (registry : MCPRegistry) (conditionType : string) : bool :=
  match List.find (fun c => String.eqb (metav1.Type_ c) conditionType)
          (Conditions (v1alpha1.Status registry)) with
  | Some condition => sameStatus (metav1.Status condition) metav1.ConditionTrue
  | None => false
  end.

Section Manager.

(** The readings of [time.Now()] during a call, in the order they are made. *)
Variable clock : nat -> Time.

(** [updateConditionsForError]; its calls of [setCondition] read the clock
    from the reading [k] on. The type assertion holds for an error that is a
    [SourceHandlerError] itself, not for one that wraps it. *)
Definition updateConditionsForError (k : nat) (registry : MCPRegistry) (err : error)
  : MCPRegistry :=
  match err with
  | SourceHandlerError _ _ reason _ =>
      if String.eqb reason
           "ConfigMap 'registry-data' not found in namespace 'toolhive-system'"
         || String.eqb reason "source not found" then
        let registry :=
          setCondition (clock k) registry ConditionTypeSourceAvailable
            metav1.ConditionFalse ReasonConfigMapNotFound reason in
        setCondition (clock (S k)) registry ConditionTypeSyncSuccessful
          metav1.ConditionFalse ReasonSyncFailed (Error err)
      else if String.eqb reason "invalid data format" then
        let registry :=
          setCondition (clock k) registry ConditionTypeSourceAvailable
            metav1.ConditionTrue ReasonSourceFound "Source is accessible" in
        let registry :=
          setCondition (clock (S k)) registry ConditionTypeDataValid
            metav1.ConditionFalse ReasonInvalidJSON reason in
        setCondition (clock (S (S k))) registry ConditionTypeSyncSuccessful
          metav1.ConditionFalse ReasonSyncFailed (Error err)
      else if String.eqb reason "validation failed" then
        let registry :=
          setCondition (clock k) registry ConditionTypeDataValid
            metav1.ConditionFalse ReasonValidationFailed reason in
        setCondition (clock (S k)) registry ConditionTypeSyncSuccessful
          metav1.ConditionFalse ReasonSyncFailed (Error err)
      else
        setCondition (clock k) registry ConditionTypeSyncSuccessful
          metav1.ConditionFalse ReasonSyncFailed (Error err)
  | _ =>
      setCondition (clock k) registry ConditionTypeSyncSuccessful
        metav1.ConditionFalse ReasonSyncFailed (Error err)
  end.

(** [UpdateSyncStatus]. The declared [SyncAttempts] is an [int32]. The
    success branch logs [result.Hash[:8]], which panics on a shorter hash.
    The original is written only after the update succeeded. *)
Definition UpdateSyncStatus (c : client.Cluster) (registry : MCPRegistry)
  (result : option ConfigMapSourceHandler.SyncResult.t) (syncErr : option error)
  : outcome (option error * client.Cluster * MCPRegistry) :=
  let now := clock 0 in
  let composed : outcome MCPRegistry :=
    match syncErr, result with
    | Some err, _ =>
        let st := with_Phase (v1alpha1.Status registry) MCPRegistryPhaseFailed in
        let st := with_Message st ("Sync failed: " +:+ Error err) in
        let st :=
          with_SyncAttempts st (ConfigMapSourceHandler.wrap32 (SyncAttempts st + 1)) in
        Returned (updateConditionsForError 1 (with_Status registry st) err)
    | None, Some result =>
        if (String.length (ConfigMapSourceHandler.SyncResult.Hash result) <? 8)%nat then
          Panicked "slice bounds out of range"
        else
          let st := with_Phase (v1alpha1.Status registry) MCPRegistryPhaseReady in
          let st :=
            with_Message st
              ("Successfully synced "
                 +:+ fmt_d (ConfigMapSourceHandler.SyncResult.ServerCount result)
                 +:+ " servers") in
          let st := with_LastSyncTime st (Some now) in
          let st :=
            with_LastSyncHash st (ConfigMapSourceHandler.SyncResult.Hash result) in
          let st :=
            with_ServerCount st (ConfigMapSourceHandler.SyncResult.ServerCount result) in
          let st := with_SyncAttempts st 0 in
          let updated := with_Status registry st in
          let updated :=
            setCondition (clock 1) updated ConditionTypeSourceAvailable
              metav1.ConditionTrue ReasonSourceFound "Source is available and accessible" in
          let updated :=
            setCondition (clock 2) updated ConditionTypeDataValid
              metav1.ConditionTrue ReasonDataValid "Registry data is valid" in
          Returned
            (setCondition (clock 3) updated ConditionTypeSyncSuccessful
               metav1.ConditionTrue ReasonSyncSuccessful
               "Sync operation completed successfully")
    | None, None => Returned registry
    end in
  match composed with
  | Panicked message => Panicked message
  | Returned updated =>
      let '(err, c) := client.StatusUpdate c updated in
      match err with
      | Some err =>
          Returned (Some (fmtErrorfW "failed to update registry status" err),
                    c, registry)
      | None =>
          Returned (None, c, with_Status registry (v1alpha1.Status updated))
      end
  end.

(** [UpdatePhase]: nothing is written when phase and message are the ones
    the registry has. *)
Definition UpdatePhase (c : client.Cluster) (registry : MCPRegistry)
  (phase : MCPRegistryPhase) (message : string)
  : option error * client.Cluster * MCPRegistry :=
  if String.eqb (Phase (v1alpha1.Status registry)) phase
     && String.eqb (Message (v1alpha1.Status registry)) message
  then (None, c, registry)
  else
    let updated :=
      with_Status registry
        (with_Message (with_Phase (v1alpha1.Status registry) phase) message) in
    let '(err, c) := client.StatusUpdate c updated in
    match err with
    | Some err =>
        (Some (fmtErrorfW "failed to update registry phase" err), c, registry)
    | None => (None, c, with_Status registry (v1alpha1.Status updated))
    end.

(** [UpdateStorageReference]; the log line reads [storageRef.Type], which
    panics on a nil reference. *)
Definition UpdateStorageReference (c : client.Cluster) (registry : MCPRegistry)
  (storageRef : option StorageReference.t)
  : outcome (option error * client.Cluster * MCPRegistry) :=
  match storageRef with
  | None => Panicked "nil pointer dereference"
  | Some _ =>
      let updated :=
        with_Status registry (with_StorageRef (v1alpha1.Status registry) storageRef) in
      let updated :=
        setCondition (clock 0) updated ConditionTypeStorageReady
          metav1.ConditionTrue ReasonStorageReady "Storage is ready and accessible" in
      let '(err, c) := client.StatusUpdate c updated in
      match err with
      | Some err =>
          Returned (Some (fmtErrorfW "failed to update storage reference" err),
                    c, registry)
      | None =>
          Returned (None, c, with_Status registry (v1alpha1.Status updated))
      end
  end.

End Manager.

End StatusManager.

(* ===================================================================== *)
(** ** controllers: the ConfigMap storage manager *)
(* ===================================================================== *)

Module storage.

Definition StorageConfigMapKeyData := "registry.json".
Definition StorageConfigMapKeyMetadata := "metadata.json".

Module OwnerReference.
Record t := { Kind : string; Name : string; Controller : bool }.
End OwnerReference.

(** [corev1.ConfigMap] with the metadata the storage manager writes. *)
Module ConfigMap.
Record t := {
  Name : string;
  Namespace : string;
  Labels : gmap string string;
  Annotations : gmap string string;
  OwnerReferences : list OwnerReference.t;
  Data : gmap string string
}.
End ConfigMap.

Inductive Call := CallGet | CallCreate | CallUpdate | CallDelete.

(** The ConfigMaps of the cluster, by namespace and name. [registered] tells
    whether the scheme of the client knows the kind of the declaration.
    [faults] fixes the outcome of the coming API calls, [None] for success;
    when it runs out every call succeeds. [trace] records the calls made. *)
Record Cluster := {
  configMaps : gmap (string * string) ConfigMap.t;
  registered : bool;
  faults : list (option error);
  trace : list Call
}.

Definition nextFault (c : Cluster) (call : Call) : option error * Cluster :=
  match faults c with
  | [] =>
      (None, {| configMaps := configMaps c; registered := registered c;
                faults := []; trace := trace c ++ [call] |})
  | f :: fs =>
      (f, {| configMaps := configMaps c; registered := registered c;
             faults := fs; trace := trace c ++ [call] |})
  end.

Definition with_configMaps (c : Cluster) (m : gmap (string * string) ConfigMap.t)
  : Cluster :=
  {| configMaps := m; registered := registered c; faults := faults c;
     trace := trace c |}.

Definition AlreadyExists : error := ErrOther "already exists".

(** [client.Get] of a ConfigMap. *)
Definition clientGet (c : Cluster) (name namespace : string)
  : result ConfigMap.t * Cluster :=
  let '(f, c1) := nextFault c CallGet in
  match f with
  | Some e => (Err e, c1)
  | None =>
      match configMaps c1 !! (namespace, name) with
      | Some cm => (Ok cm, c1)
      | None => (Err ErrNotFound, c1)
      end
  end.

(** [client.Create] *)
Definition clientCreate (c : Cluster) (cm : ConfigMap.t) : option error * Cluster :=
  let '(f, c1) := nextFault c CallCreate in
  match f with
  | Some e => (Some e, c1)
  | None =>
      match configMaps c1 !! (ConfigMap.Namespace cm, ConfigMap.Name cm) with
      | Some _ => (Some AlreadyExists, c1)
      | None =>
          (None,
           with_configMaps c1
             (<[(ConfigMap.Namespace cm, ConfigMap.Name cm) := cm]> (configMaps c1)))
      end
  end.

(** [client.Update] *)
Definition clientUpdate (c : Cluster) (cm : ConfigMap.t) : option error * Cluster :=
  let '(f, c1) := nextFault c CallUpdate in
  match f with
  | Some e => (Some e, c1)
  | None =>
      match configMaps c1 !! (ConfigMap.Namespace cm, ConfigMap.Name cm) with
      | Some _ =>
          (None,
           with_configMaps c1
             (<[(ConfigMap.Namespace cm, ConfigMap.Name cm) := cm]> (configMaps c1)))
      | None => (Some ErrNotFound, c1)
      end
  end.

(** [client.Delete] *)
Definition clientDelete (c : Cluster) (name namespace : string)
  : option error * Cluster :=
  let '(f, c1) := nextFault c CallDelete in
  match f with
  | Some e => (Some e, c1)
  | None =>
      match configMaps c1 !! (namespace, name) with
      | Some _ => (None, with_configMaps c1 (delete (namespace, name) (configMaps c1)))
      | None => (Some ErrNotFound, c1)
      end
  end.

(** [controllerutil.SetControllerReference] on a ConfigMap: the kind of the
    owner must be known to the scheme, the owner must not live in another
    namespace, and the object must not have another controller. *)
Definition SetControllerReference (c : Cluster) (owner : MCPRegistry)
  (object : ConfigMap.t) : result ConfigMap.t :=
  if negb (registered c) then
    Err (ErrOther "no kind is registered for the type v1alpha1.MCPRegistry")
  else if negb (String.eqb (Namespace owner) "")
          && (String.eqb (ConfigMap.Namespace object) ""
              || negb (String.eqb (Namespace owner) (ConfigMap.Namespace object))) then
    Err (ErrOther "cross-namespace owner references are disallowed")
  else
    let ref := {| OwnerReference.Kind := "MCPRegistry";
                  OwnerReference.Name := Name owner;
                  OwnerReference.Controller := true |} in
    match List.find OwnerReference.Controller (ConfigMap.OwnerReferences object) with
    | Some existing =>
        if String.eqb (OwnerReference.Kind existing) "MCPRegistry"
           && String.eqb (OwnerReference.Name existing) (Name owner)
        then Ok object
        else Err (ErrOther "Object is already owned by another controller")
    | None =>
        Ok {| ConfigMap.Name := ConfigMap.Name object;
              ConfigMap.Namespace := ConfigMap.Namespace object;
              ConfigMap.Labels := ConfigMap.Labels object;
              ConfigMap.Annotations := ConfigMap.Annotations object;
              ConfigMap.OwnerReferences := ConfigMap.OwnerReferences object ++ [ref];
              ConfigMap.Data := ConfigMap.Data object |}
    end.

(** [getStorageConfigMapName] *)
Definition getStorageConfigMapName (registry : MCPRegistry) : string :=
  Name registry +:+ "-registry-storage".

(** [getStorageLabels] *)
Definition getStorageLabels (registry : MCPRegistry) : gmap string string :=
  {[ "app.kubernetes.io/name" := "toolhive-registry";
     "app.kubernetes.io/component" := "storage";
     "app.kubernetes.io/part-of" := "toolhive";
     "app.kubernetes.io/managed-by" := "toolhive-operator";
     "toolhive.stacklok.dev/registry" := Name registry;
     "toolhive.stacklok.dev/type" := "registry-storage" ]}.

(** [Store] *)
Definition Store (c : Cluster) (registry : MCPRegistry) (data : string)
  : option error * Cluster :=
  let configMapName := getStorageConfigMapName registry in
  let configMap :=
    {| ConfigMap.Name := configMapName;
       ConfigMap.Namespace := Namespace registry;
       ConfigMap.Labels := getStorageLabels registry;
       ConfigMap.Annotations :=
         {[ "toolhive.stacklok.dev/registry-name" := Name registry;
            "toolhive.stacklok.dev/registry-format" := Format (Spec registry);
            "toolhive.stacklok.dev/storage-type" := "registry-data" ]};
       ConfigMap.OwnerReferences := [];
       ConfigMap.Data := {[ StorageConfigMapKeyData := data ]} |} in
  match SetControllerReference c registry configMap with
  | Err err => (Some (fmtErrorfW "failed to set controller reference" err), c)
  | Ok configMap =>
      let '(existing, c) := clientGet c configMapName (Namespace registry) in
      match existing with
      | Err err =>
          if controllers.IsNotFound err then
            let '(err, c) := clientCreate c configMap in
            match err with
            | Some err => (Some (fmtErrorfW "failed to create storage ConfigMap" err), c)
            | None => (None, c)
            end
          else (Some (fmtErrorfW "failed to get existing ConfigMap" err), c)
      | Ok existing =>
          let existing :=
            {| ConfigMap.Name := ConfigMap.Name existing;
               ConfigMap.Namespace := ConfigMap.Namespace existing;
               ConfigMap.Labels := ConfigMap.Labels configMap;
               ConfigMap.Annotations := ConfigMap.Annotations configMap;
               ConfigMap.OwnerReferences := ConfigMap.OwnerReferences existing;
               ConfigMap.Data := ConfigMap.Data configMap |} in
          let '(err, c) := clientUpdate c existing in
          match err with
          | Some err => (Some (fmtErrorfW "failed to update storage ConfigMap" err), c)
          | None => (None, c)
          end
      end
  end.

(** [Get] *)
Definition Get (c : Cluster) (registry : MCPRegistry) : result string * Cluster :=
  let configMapName := getStorageConfigMapName registry in
  let '(res, c) := clientGet c configMapName (Namespace registry) in
  match res with
  | Err err =>
      if controllers.IsNotFound err
      then (Err (fmtErrorfW "storage ConfigMap not found" err), c)
      else (Err (fmtErrorfW "failed to get storage ConfigMap" err), c)
  | Ok configMap =>
      match ConfigMap.Data configMap !! StorageConfigMapKeyData with
      | None =>
          (Err (fmtErrorf ("data key '" +:+ StorageConfigMapKeyData
                           +:+ "' not found in storage ConfigMap")), c)
      | Some data => (Ok data, c)
      end
  end.

(** [Delete]: a ConfigMap that is already gone is no error. *)
Definition Delete (c : Cluster) (registry : MCPRegistry) : option error * Cluster :=
  let configMapName := getStorageConfigMapName registry in
  let '(err, c) := clientDelete c configMapName (Namespace registry) in
  match err with
  | Some err =>
      if controllers.IsNotFound err then (None, c)
      else (Some (fmtErrorfW "failed to delete storage ConfigMap" err), c)
  | None => (None, c)
  end.

(** [GetStorageReference] *)
Definition GetStorageReference (registry : MCPRegistry) : option StorageReference.t :=
  let configMapName := getStorageConfigMapName registry in
  Some {| StorageReference.Type_ := "configmap";
          StorageReference.ConfigMapRef :=
            Some {| ConfigMapReference.Name := configMapName;
                    ConfigMapReference.Namespace := Namespace registry;
                    ConfigMapReference.Key := StorageConfigMapKeyData |} |}.

End storage.

Module StorageView.

(** Every ConfigMap is stored under its own namespace and name. *)
Definition wellKeyed (c : storage.Cluster) : Prop :=
  forall namespace name cm,
    storage.configMaps c !! (namespace, name) = Some cm ->
    storage.ConfigMap.Namespace cm = namespace /\ storage.ConfigMap.Name cm = name.

(** Where the storage ConfigMap of a declaration lives. *)
Definition storageKey (registry : MCPRegistry) : string * string :=
  (Namespace registry, storage.getStorageConfigMapName registry).

(** The next API call is not scheduled to fail. *)
Definition nextSucceeds (c : storage.Cluster) : Prop :=
  match storage.faults c with
  | Some _ :: _ => False
  | _ => True
  end.

(** The owner reference [Store] gives a ConfigMap it creates. *)
Definition controllerRef (registry : MCPRegistry) : storage.OwnerReference.t :=
  {| storage.OwnerReference.Kind := "MCPRegistry";
     storage.OwnerReference.Name := Name registry;
     storage.OwnerReference.Controller := true |}.

(** The ConfigMaps of the cluster as a reader of the API server sees them,
    beside the one declaration it serves. *)
Definition reader (c : storage.Cluster) (registry : MCPRegistry) : kube.Reader :=
  {| kube.GetMCPRegistry := fun name namespace =>
       if String.eqb name (Name registry) && String.eqb namespace (Namespace registry)
       then Ok registry else Err ErrNotFound;
     kube.GetConfigMap := fun name namespace =>
       match storage.configMaps c !! (namespace, name) with
       | Some cm =>
           Ok {| corev1.Name := storage.ConfigMap.Name cm;
                 corev1.Namespace := storage.ConfigMap.Namespace cm;
                 corev1.Data := storage.ConfigMap.Data cm;
                 corev1.CreationTimestamp := 0;
                 corev1.ManagedFields := [] |}
       | None => Err ErrNotFound
       end |}.

(** The API server of a declaration over these ConfigMaps. *)
Definition serverOf (c : storage.Cluster) (registry : MCPRegistry) : registryapi.Server :=
  {| registryapi.config :=
       {| registryapi.Port := 8080;
          registryapi.RegistryName := Name registry;
          registryapi.RegistryNamespace := Namespace registry |};
     registryapi.kubeClient := reader c registry;
     registryapi.formatConverter :=
       RegistryFormatConverter.NewRegistryFormatConverter json.std 0
         "2025-09-02T00:17:21Z" |}.

End StorageView.

(* ===================================================================== *)
(** ** controllers: the reconciler built on the status and storage managers *)
(* ===================================================================== *)

Module reconciler.

Definition AnnotationSyncTrigger := "toolhive.stacklok.dev/sync-trigger".
Definition DefaultSyncInterval : Duration := 1 * Hour.
Definition SyncPolicyManual := "manual".
Definition SyncPolicyAutomatic := "automatic".

(** [hasManualSyncTrigger]: the presence of the annotation, whatever its
    value. *)
Definition hasManualSyncTrigger (registry : MCPRegistry) : bool :=
  match Annotations registry !! AnnotationSyncTrigger with
  | Some _ => true
  | None => false
  end.

Section Reconciler.

(** [time.ParseDuration] and [time.Now()]. *)
Variable ParseDuration : string -> result Duration.
Variable now : Time.

(** [getSyncInterval] *)
Definition getSyncInterval (registry : MCPRegistry) : Duration :=
  match SyncPolicy (Spec registry) with
  | None => DefaultSyncInterval
  | Some policy =>
      if String.eqb (MCPRegistrySyncPolicy.Interval policy) "" then DefaultSyncInterval
      else
        match ParseDuration (MCPRegistrySyncPolicy.Interval policy) with
        | Ok duration => duration
        | Err _ => DefaultSyncInterval
        end
  end.

(** [shouldAutoSync]; [now.After(nextSync)] is [nextSync.Before(now)]. *)
Definition shouldAutoSync (registry : MCPRegistry) : bool :=
  match LastSyncTime (Status registry) with
  | None => true
  | Some lastSyncTime =>
      let interval := getSyncInterval registry in
      let nextSync := Add lastSyncTime interval in
      Before nextSync now
  end.

(** [shouldSync] *)
Definition shouldSync (registry : MCPRegistry) : bool :=
  if String.eqb (Phase (Status registry)) MCPRegistryPhasePending
     || String.eqb (Phase (Status registry)) MCPRegistryPhaseFailed then true
  else if hasManualSyncTrigger registry then true
  else
    match SyncPolicy (Spec registry) with
    | Some policy =>
        if String.eqb (MCPRegistrySyncPolicy.Type_ policy) SyncPolicyAutomatic
        then shouldAutoSync registry
        else false
    | None => false
    end.

(** [scheduleNextSync] *)
Definition scheduleNextSync (registry : MCPRegistry) : ctrl.Result :=
  match SyncPolicy (Spec registry) with
  | Some policy =>
      if negb (String.eqb (MCPRegistrySyncPolicy.Type_ policy) SyncPolicyAutomatic)
      then ctrl.empty
      else ctrl.after (getSyncInterval registry)
  | None => ctrl.empty
  end.

End Reconciler.

(** [handleDeletion]: the storage is cleaned up before the finalizer is
    removed; a failed cleanup is returned and the finalizer stays. The
    storage manager acts on the ConfigMaps, the client on the declaration. *)
Definition handleDeletion (s : storage.Cluster) (c : client.Cluster)
  (registry : MCPRegistry)
  : ctrl.Result * option error * storage.Cluster * client.Cluster :=
  if controllerutil.ContainsFinalizer registry controllers.MCPRegistryFinalizer then
    let '(err, s) := storage.Delete s registry in
    match err with
    | Some err => (ctrl.empty, Some err, s, c)
    | None =>
        let registry :=
          controllerutil.RemoveFinalizer registry controllers.MCPRegistryFinalizer in
        let '(err, c) := client.Update c registry in
        match err with
        | Some err => (ctrl.empty, Some err, s, c)
        | None => (ctrl.empty, None, s, c)
        end
    end
  else (ctrl.empty, None, s, c).

(** The loop of [findMCPRegistriesForConfigMap] over the listed items. *)
Fixpoint requestsFor (items : list MCPRegistry) (name namespace : string)
  : list NamespacedName.t :=
  match items with
  | [] => []
  | registry :: rest =>
      let more := requestsFor rest name namespace in
      if String.eqb (MCPRegistrySource.Type_ (Source (Spec registry)))
           RegistrySourceTypeConfigMap then
        match MCPRegistrySource.ConfigMap (Source (Spec registry)) with
        | Some cmSource =>
            let ns :=
              if String.eqb (ConfigMapRegistrySource.Namespace cmSource) ""
              then Namespace registry
              else ConfigMapRegistrySource.Namespace cmSource in
            if String.eqb (ConfigMapRegistrySource.Name cmSource) name
               && String.eqb ns namespace
            then {| NamespacedName.Name := Name registry;
                    NamespacedName.Namespace := Namespace registry |} :: more
            else more
        | None => more
        end
      else more
  end.

(** [findMCPRegistriesForConfigMap]; [listed] is the outcome of [r.List], the
    ConfigMap is given by its name and namespace. *)
Definition findMCPRegistriesForConfigMap (listed : result (list MCPRegistry))
  (name namespace : string) : list NamespacedName.t :=
  match listed with
  | Err _ => []
  | Ok items => requestsFor items name namespace
  end.

End reconciler.

Module Watching.

(** The declaration has a valid ConfigMap source whose handler reads the
    ConfigMap of the given name and namespace. *)
Definition reads (registry : MCPRegistry) (name namespace : string) : bool :=
  match ConfigMapSource.GetConfigMapReference registry with
  | (configMapKey, _, None) =>
      String.eqb (NamespacedName.Name configMapKey) name
      && String.eqb (NamespacedName.Namespace configMapKey) namespace
  | (_, _, Some _) => false
  end.

Definition requestOf (registry : MCPRegistry) : NamespacedName.t :=
  {| NamespacedName.Name := Name registry;
     NamespacedName.Namespace := Namespace registry |}.

End Watching.

(* ===================================================================== *)
(** ** Consecutive runs of the sync manager *)
(* ===================================================================== *)

Module Retries.








End Retries.

(* ===================================================================== *)
(** * Theorems *)
(* ===================================================================== *)

Ltac int64_lia :=
  unfold is_int64, MinInt64, MaxInt64 in *;
  change (2 ^ 63) with 9223372036854775808 in *;
  change (2 ^ 64) with 18446744073709551616 in *;
  lia.

Section GoArith.

Lemma wrap64_small z : is_int64 z -> wrap64 z = z.
Proof.
  intros H. unfold wrap64. rewrite Z.mod_small; int64_lia.
Qed.

End GoArith.

(* --------------------------------------------------------------------- *)
(** ** The library models on known values *)
(* --------------------------------------------------------------------- *)

Section LibraryChecks.

(** The test vectors of FIPS 180-2 for SHA-256. *)
Example Sum256_abc :
  hex.EncodeToString (sha256.Sum256 "abc")
  = "ba7816bf8f01cfea414140de5dae2223b00361a396177a9cb410ff61f20015ad".
Proof. vm_compute. reflexivity. Qed.

Example Sum256_empty :
  hex.EncodeToString (sha256.Sum256 "")
  = "e3b0c44298fc1c149afbf4c8996fb92427ae41e4649b934ca495991b7852b855".
Proof. vm_compute. reflexivity. Qed.

Example Sum256_two_blocks :
  hex.EncodeToString
    (sha256.Sum256 "abcdbcdecdefdefgefghfghighijhijkijkljklmklmnlmnomnopnopq")
  = "248d6a61d20638b8e5c026930c3e6039a33ce45964ff2167f6ecedd419db06c1".
Proof. vm_compute. reflexivity. Qed.

(** The parser reads back what the printer writes, and rejects what is not
    JSON. *)
Example parse_print_registry :
  json.parseDocument Fixtures.canonicalFilesystem
  = Some (json.Object
            [("version", json.Str "1.0.0");
             ("last_updated", json.Str "2025-09-02T00:17:21Z");
             ("servers",
              json.Object
                [("filesystem",
                  json.Object
                    [("name", json.Str "filesystem");
                     ("description", json.Str "Filesystem operations server");
                     ("transport", json.Str "stdio");
                     ("image", json.Str "mcp/filesystem:latest")])])]).
Proof. vm_compute. reflexivity. Qed.

Example parse_numbers_and_space :
  json.parseDocument " [1, -2.5e+3 , true,null , {} ] "
  = Some (json.Array
            [json.Number "1"; json.Number "-2.5e+3"; json.Bool true; json.Null;
             json.Object []]).
Proof. vm_compute. reflexivity. Qed.

Example parse_rejects :
  List.map json.parseDocument [""; "{invalid json}"; "[1,]"; "01"; "{} x"]
  = [None; None; None; None; None].
Proof. vm_compute. reflexivity. Qed.

(** The cases of the converter's own detection test. *)
Example DetectFormat_cases :
  List.map (RegistryFormatConverter.DetectFormat json.std 0)
    [Fixtures.canonicalFilesystem; Fixtures.namedUpstream; "";
     json.printValue (json.Object [("unknown", json.Str "format")])]
  = [Ok "toolhive"; Ok "upstream";
     Err (fmtErrorf "cannot detect format of empty data");
     Err (fmtErrorf
            "unable to detect registry format: data does not match any known format")].
Proof. vm_compute. reflexivity. Qed.

End LibraryChecks.

(* --------------------------------------------------------------------- *)
(** ** ShouldSync: the phase rules *)
(* --------------------------------------------------------------------- *)

Section ShouldSyncPhase.

Variable s : sync.Checkers.
Variable now : Time.

Lemma ShouldSync_syncing r :
  Phase (Status r) = MCPRegistryPhaseSyncing ->
  sync.ShouldSync s now r = (false, sync.ReasonAlreadyInProgress, None, None).
Proof. intros H. unfold sync.ShouldSync. rewrite H. reflexivity. Qed.

Lemma ShouldSync_backoff r t :
  Phase (Status r) = MCPRegistryPhaseFailed ->
  NextRetryTime (Status r) = Some t ->
  now < t ->
  sync.ShouldSync s now r = (false, sync.ReasonRetryBackoffActive, Some t, None).
Proof.
  intros Hp Ht Hlt. unfold sync.ShouldSync. rewrite Hp, Ht. cbn.
  unfold Before. destruct (Z.ltb_spec now t); [reflexivity | lia].
Qed.

Lemma ShouldSync_not_ready r :
  Phase (Status r) <> MCPRegistryPhaseReady ->
  Phase (Status r) <> MCPRegistryPhaseSyncing ->
  ~ (Phase (Status r) = MCPRegistryPhaseFailed /\
     exists t, NextRetryTime (Status r) = Some t /\ now < t) ->
  sync.ShouldSync s now r = (true, sync.ReasonRegistryNotReady, None, None).
Proof.
  intros Hr Hs Hb. unfold sync.ShouldSync.
  destruct (String.eqb_spec (Phase (Status r)) MCPRegistryPhaseSyncing) as [E|_];
    [contradiction|].
  destruct (String.eqb_spec (Phase (Status r)) MCPRegistryPhaseReady) as [E|_];
    [contradiction|]. cbn.
  destruct (String.eqb_spec (Phase (Status r)) MCPRegistryPhaseFailed) as [E|_];
    [|reflexivity].
  destruct (NextRetryTime (Status r)) as [t|] eqn:Et; [|reflexivity].
  unfold Before. destruct (Z.ltb_spec now t); [|reflexivity].
  exfalso. apply Hb. split; [assumption|]. exists t. split; [reflexivity|lia].
Qed.

End ShouldSyncPhase.

(** C1. ShouldSync decides the phase rules in the order of the specification:
    a declaration in phase Syncing gives (false, sync-already-in-progress, no
    next check); a declaration in phase Failed whose nextRetryTime is strictly
    after now gives (false, retry-backoff-active, nextRetryTime); every other
    declaration whose phase is not Ready gives (true, registry-not-ready, no
    next check). None of the three consults the checkers. *)
Theorem ShouldSync_phase_rules (s : sync.Checkers) (now : Time) (r : MCPRegistry) :
  (Phase (Status r) = MCPRegistryPhaseSyncing ->
   sync.ShouldSync s now r = (false, "sync-already-in-progress", None, None)) /\
  (forall t, Phase (Status r) = MCPRegistryPhaseFailed ->
   NextRetryTime (Status r) = Some t -> now < t ->
   sync.ShouldSync s now r = (false, "retry-backoff-active", Some t, None)) /\
  (Phase (Status r) <> MCPRegistryPhaseReady ->
   Phase (Status r) <> MCPRegistryPhaseSyncing ->
   ~ (Phase (Status r) = MCPRegistryPhaseFailed /\
      exists t, NextRetryTime (Status r) = Some t /\ now < t) ->
   sync.ShouldSync s now r = (true, "registry-not-ready", None, None)).
Proof.
  split; [|split].
  - apply ShouldSync_syncing.
  - intros t. apply ShouldSync_backoff.
  - apply ShouldSync_not_ready.
Qed.

Lemma ShouldSync_phase_rules_witness :
  sync.ShouldSync Fixtures.quietCheckers 100 (Fixtures.inPhase "Syncing" None)
    = (false, "sync-already-in-progress", None, None) /\
  sync.ShouldSync Fixtures.quietCheckers 100 (Fixtures.inPhase "Failed" (Some 200))
    = (false, "retry-backoff-active", Some 200, None) /\
  sync.ShouldSync Fixtures.quietCheckers 100 (Fixtures.inPhase "Failed" (Some 100))
    = (true, "registry-not-ready", None, None) /\
  sync.ShouldSync Fixtures.quietCheckers 100 (Fixtures.inPhase "Pending" None)
    = (true, "registry-not-ready", None, None).
Proof.
  split; [|split; [|split]].
  - apply (proj1 (ShouldSync_phase_rules _ _ _)). reflexivity.
  - apply (proj1 (proj2 (ShouldSync_phase_rules _ _ _))); [reflexivity | reflexivity | lia].
  - apply (proj2 (proj2 (ShouldSync_phase_rules _ _ _))).
    + discriminate.
    + discriminate.
    + intros [_ [t [Ht Hlt]]]. cbn in Ht. inversion Ht; subst. lia.
  - apply (proj2 (proj2 (ShouldSync_phase_rules _ _ _))).
    + discriminate.
    + discriminate.
    + intros [Hp _]. discriminate Hp.
Defined.

(* --------------------------------------------------------------------- *)
(** ** calculateRetryInterval: exponential backoff capped at one hour *)
(* --------------------------------------------------------------------- *)

Section Backoff.

Lemma calculateRetryInterval_nonpos a :
  a <= 0 -> sync.calculateRetryInterval a = 5 * Minute.
Proof.
  intros H. unfold sync.calculateRetryInterval.
  destruct (Z.leb_spec a 0); [reflexivity | lia].
Qed.

Lemma calculateRetryInterval_capped a :
  is_int64 a -> 5 <= a -> sync.calculateRetryInterval a = Hour.
Proof.
  intros Hr H. unfold sync.calculateRetryInterval.
  destruct (Z.leb_spec a 0); [lia|].
  cbv zeta. rewrite (wrap64_small (a - 1)) by int64_lia.
  rewrite (Z.min_r (a - 1) 4) by lia. reflexivity.
Qed.

Lemma calculateRetryInterval_below_cap a :
  1 <= a <= 4 -> sync.calculateRetryInterval a = 5 * Minute * 2 ^ (a - 1).
Proof.
  intros H.
  assert (E : a = 1 \/ a = 2 \/ a = 3 \/ a = 4) by lia.
  destruct E as [-> | [-> | [-> | ->]]]; reflexivity.
Qed.

Lemma backoff_formula_saturates a :
  5 <= a -> Z.min (5 * Minute * 2 ^ (a - 1)) Hour = Hour.
Proof.
  intros H. apply Z.min_r.
  assert (P : 2 ^ 4 <= 2 ^ (a - 1)) by (apply Z.pow_le_mono_r; lia).
  change (2 ^ 4) with 16 in P.
  change Hour with 3600000000000. change (5 * Minute) with 300000000000. lia.
Qed.

End Backoff.

(** The function on its argument: for every (64-bit) attempts >= 1,
    calculateRetryInterval(attempts) is min(5 minutes * 2^(attempts-1), 1
    hour); for attempts <= 0 it is 5 minutes; so the values at 1, 2, 3, 4, 5,
    6 are 5m, 10m, 20m, 40m, 1h, 1h, and every later one is 1h. *)
Lemma calculateRetryInterval_spec (attempts : Z) :
  (is_int64 attempts -> 1 <= attempts ->
   sync.calculateRetryInterval attempts
     = Z.min (5 * Minute * 2 ^ (attempts - 1)) Hour) /\
  (attempts <= 0 -> sync.calculateRetryInterval attempts = 5 * Minute) /\
  map sync.calculateRetryInterval [1; 2; 3; 4; 5; 6]
    = [5 * Minute; 10 * Minute; 20 * Minute; 40 * Minute; Hour; Hour] /\
  (is_int64 attempts -> 5 <= attempts ->
   sync.calculateRetryInterval attempts = Hour).
Proof.
  split; [|split; [|split]].
  - intros Hr H. destruct (Z_lt_le_dec attempts 5) as [Hlt|Hge].
    + rewrite calculateRetryInterval_below_cap by lia.
      symmetry. apply Z.min_l.
      assert (E : attempts = 1 \/ attempts = 2 \/ attempts = 3 \/ attempts = 4) by lia.
      destruct E as [-> | [-> | [-> | ->]]]; vm_compute; discriminate.
    + rewrite calculateRetryInterval_capped by assumption.
      symmetry. apply backoff_formula_saturates. assumption.
  - apply calculateRetryInterval_nonpos.
  - reflexivity.
  - apply calculateRetryInterval_capped.
Qed.

Lemma calculateRetryInterval_spec_witness :
  sync.calculateRetryInterval 3 = Z.min (5 * Minute * 2 ^ (3 - 1)) Hour /\
  sync.calculateRetryInterval 0 = 5 * Minute /\
  sync.calculateRetryInterval 7 = Hour.
Proof.
  split; [|split].
  - apply (proj1 (calculateRetryInterval_spec 3)).
    + int64_lia.
    + lia.
  - apply (proj1 (proj2 (calculateRetryInterval_spec 0))). lia.
  - apply (proj2 (proj2 (proj2 (calculateRetryInterval_spec 7)))).
    + int64_lia.
    + lia.
Defined.

(* --------------------------------------------------------------------- *)
(** ** The cluster client: what each call leaves of the stored object *)
(* --------------------------------------------------------------------- *)

Section ClientFrame.

Import Observe.

Lemma nextFault_object c call f c1 :
  client.nextFault c call = (f, c1) -> client.object c1 = client.object c.
Proof.
  unfold client.nextFault. destruct (client.faults c); intros E; inversion E; reflexivity.
Qed.

Lemma nextFault_artifact c call f c1 :
  client.nextFault c call = (f, c1) -> client.artifact c1 = client.artifact c.
Proof.
  unfold client.nextFault. destruct (client.faults c); intros E; inversion E; reflexivity.
Qed.

Lemma Get_object c obj err c1 obj1 :
  client.Get c obj = (err, c1, obj1) ->
  client.object c1 = client.object c /\
  client.artifact c1 = client.artifact c /\
  (err = None -> client.object c = Some obj1).
Proof.
  unfold client.Get. destruct (client.nextFault c client.CallGet) as [f c'] eqn:F.
  pose proof (nextFault_object _ _ _ _ F) as Ho.
  pose proof (nextFault_artifact _ _ _ _ F) as Ha.
  destruct f as [e|].
  - intros E; inversion E; subst. split; [|split]; [assumption | assumption | discriminate].
  - destruct (client.object c') as [o|] eqn:O; intros E; inversion E; subst;
      (split; [congruence | split; [congruence | intros; congruence]]).
Qed.

Lemma StatusUpdate_object c obj err c1 :
  client.StatusUpdate c obj = (err, c1) ->
  client.artifact c1 = client.artifact c /\
  (client.object c1 = client.object c \/
   exists o, client.object c = Some o /\ err = None /\
             client.object c1 = Some (with_Status o (Status obj))).
Proof.
  unfold client.StatusUpdate.
  destruct (client.nextFault c client.CallStatusUpdate) as [f c'] eqn:F.
  pose proof (nextFault_object _ _ _ _ F) as Ho.
  pose proof (nextFault_artifact _ _ _ _ F) as Ha.
  destruct f as [e|].
  - intros E; inversion E; subst. split; [congruence | left; congruence].
  - destruct (client.object c') as [o|] eqn:O; intros E; inversion E; subst.
    + split; [cbn; congruence|]. right. exists o. cbn. split; [congruence | auto].
    + split; [congruence | left; congruence].
Qed.

Lemma StatusUpdate_storedLastSync c obj err c1 o :
  client.StatusUpdate c obj = (err, c1) ->
  client.object c = Some o ->
  lastSync (Status obj) = lastSync (Status o) ->
  storedLastSync c1 = storedLastSync c.
Proof.
  intros E O L. apply StatusUpdate_object in E. destruct E as [_ [E | (o' & O' & _ & E)]].
  - unfold storedLastSync. rewrite E. reflexivity.
  - unfold storedLastSync. rewrite E, O. cbn. rewrite L. reflexivity.
Qed.

Lemma Store_object c reg err c1 :
  client.Store c reg = (err, c1) -> client.object c1 = client.object c.
Proof.
  unfold client.Store. destruct (client.nextFault c client.CallStore) as [f c'] eqn:F.
  pose proof (nextFault_object _ _ _ _ F) as Ho.
  destruct f; intros E; inversion E; subst; cbn; congruence.
Qed.

Lemma StatusUpdate_cases c obj err c1 o :
  client.StatusUpdate c obj = (err, c1) ->
  client.object c = Some o ->
  (err = None /\ client.object c1 = Some (with_Status o (Status obj))) \/
  (err <> None /\ client.object c1 = Some o).
Proof.
  unfold client.StatusUpdate.
  destruct (client.nextFault c client.CallStatusUpdate) as [f c'] eqn:F.
  apply nextFault_object in F. intros E Ho. rewrite <- F in Ho.
  destruct f as [e|].
  - inversion E; subst. right. split; [discriminate | exact Ho].
  - rewrite Ho in E. inversion E; subst. left. split; reflexivity.
Qed.

End ClientFrame.

(* --------------------------------------------------------------------- *)
(** ** The sync manager: what a status update writes *)
(* --------------------------------------------------------------------- *)

Section StatusFrame.

Import Observe.

Variable s : sync.DefaultSyncManager.
Variable now : Time.

Lemma applySyncData_lastSync st sd :
  sync.syncData.LastSyncTime sd = None ->
  sync.syncData.LastSyncHash sd = "" ->
  sync.syncData.ServerCount sd <= 0 ->
  sync.syncData.StorageRef sd = None ->
  sync.syncData.LastManualSyncTrigger sd = "" ->
  lastSync (sync.applySyncData st sd) = lastSync st.
Proof.
  intros Ht Hh Hn Hr Hm. unfold sync.applySyncData.
  rewrite Ht, Hh, Hr, Hm. cbn.
  destruct (Z.gtb_spec (sync.syncData.ServerCount sd) 0); [lia | reflexivity].
Qed.

Lemma finalStatus_lastSync st u :
  carriesNoSyncRecord u -> lastSync (sync.finalStatus now st u) = lastSync st.
Proof.
  unfold carriesNoSyncRecord, sync.finalStatus.
  destruct (sync.statusUpdate.SyncData u) as [sd|].
  - intros (Ht & Hh & Hn & Hr & Hm).
    change (lastSync
              (sync.applySyncData
                 (with_Message (with_Phase st (sync.statusUpdate.Phase u))
                    (sync.statusUpdate.Message u)) sd) = lastSync st).
    rewrite applySyncData_lastSync by assumption. reflexivity.
  - intros _. reflexivity.
Qed.

(** A failure update changes phase, message, conditions, syncAttempts and
    nextRetryTime, and nothing else. *)
Lemma finalStatus_failureUpdate st obj message conditionType reason err retryAfter :
  sync.finalStatus now st
    (sync.failureUpdate now obj message conditionType reason err retryAfter)
  = {| Conditions :=
         meta.SetStatusCondition now (Conditions st)
           {| metav1.Type_ := conditionType;
              metav1.Status := metav1.ConditionFalse;
              metav1.Reason := reason;
              metav1.Message := Error err;
              metav1.LastTransitionTime := None |};
       Phase := MCPRegistryPhaseFailed;
       Message := message;
       LastSyncTime := LastSyncTime st;
       LastSyncHash := LastSyncHash st;
       ServerCount := ServerCount st;
       SyncAttempts := wrap64 (SyncAttempts (Status obj) + 1);
       NextRetryTime := option_map (Add now) retryAfter;
       StorageRef := StorageRef st;
       LastManualSyncTrigger := LastManualSyncTrigger st |}.
Proof. destruct retryAfter; reflexivity. Qed.

Lemma failureUpdate_carriesNoSyncRecord obj message conditionType reason err retryAfter :
  carriesNoSyncRecord
    (sync.failureUpdate now obj message conditionType reason err retryAfter).
Proof. unfold carriesNoSyncRecord; cbn. repeat split; lia. Qed.

Lemma failedStep_carriesNoSyncRecord obj limit what conditionType reason err interval :
  carriesNoSyncRecord
    (sync.failedStep now obj limit what conditionType reason err interval) /\
  sync.statusUpdate.Phase
    (sync.failedStep now obj limit what conditionType reason err interval)
  = MCPRegistryPhaseFailed.
Proof.
  unfold sync.failedStep.
  destruct (SyncAttempts (Status obj) >=? limit);
    (split; [apply failureUpdate_carriesNoSyncRecord | reflexivity]).
Qed.

Lemma applyFinalStatusUpdate_frame c obj u r e c1 obj1 :
  sync.applyFinalStatusUpdate now c obj u = (r, e, c1, obj1) ->
  carriesNoSyncRecord u ->
  storedLastSync c1 = storedLastSync c /\ client.artifact c1 = client.artifact c.
Proof.
  unfold sync.applyFinalStatusUpdate. intros E Hu.
  destruct (client.Get c obj) as [[ge cg] og] eqn:G.
  apply Get_object in G. destruct G as (Go & Ga & Gs).
  destruct ge as [ge|].
  - inversion E; subst. unfold storedLastSync. rewrite Go. auto.
  - specialize (Gs eq_refl).
    destruct (client.StatusUpdate cg _) as [ue cu] eqn:U.
    assert (Hc : storedLastSync cu = storedLastSync c /\
                 client.artifact cu = client.artifact c).
    { split.
      - transitivity (storedLastSync cg).
        + eapply StatusUpdate_storedLastSync; [exact U | rewrite Go; exact Gs |].
          cbn. apply finalStatus_lastSync. assumption.
        + unfold storedLastSync. rewrite Go. reflexivity.
      - apply StatusUpdate_object in U. destruct U as [Ua _]. congruence. }
    destruct ue as [ue|]; [inversion E; subst; assumption|].
    destruct (sync.statusUpdate.RetryResult u); inversion E; subst; assumption.
Qed.

Lemma updatePhaseFailedWithCondition_frame c obj m ct rs cm e c1 obj1 :
  sync.updatePhaseFailedWithCondition now c obj m ct rs cm = (e, c1, obj1) ->
  storedLastSync c1 = storedLastSync c /\ client.artifact c1 = client.artifact c.
Proof.
  unfold sync.updatePhaseFailedWithCondition. intros E.
  destruct (client.Get c obj) as [[ge cg] og] eqn:G.
  apply Get_object in G. destruct G as (Go & Ga & Gs).
  destruct ge as [ge|].
  - inversion E; subst. unfold storedLastSync. rewrite Go. auto.
  - specialize (Gs eq_refl).
    destruct (client.StatusUpdate cg _) as [ue cu] eqn:U.
    inversion E; subst. split.
    + transitivity (storedLastSync cg).
      * eapply StatusUpdate_storedLastSync; [exact U | rewrite Go; exact Gs | reflexivity].
      * unfold storedLastSync. rewrite Go. reflexivity.
    + apply StatusUpdate_object in U. destruct U as [Ua _]. congruence.
Qed.

End StatusFrame.

(* --------------------------------------------------------------------- *)
(** ** PerformSync: a failed run keeps the record of the last sync *)
(* --------------------------------------------------------------------- *)

Section PerformSyncFrame.

Import Observe.

Variable s : sync.DefaultSyncManager.
Variable now : Time.

Lemma applyFilteringIfConfigured_frame c obj fr e c1 obj1 fr1 :
  sync.applyFilteringIfConfigured s now c obj fr = (e, c1, obj1, fr1) ->
  storedLastSync c1 = storedLastSync c /\ client.artifact c1 = client.artifact c.
Proof.
  unfold sync.applyFilteringIfConfigured. intros E.
  destruct (Filter (Spec obj)) as [f|]; [|inversion E; subst; auto].
  destruct (sync.ApplyFilters s _ f) as [reg|err].
  - inversion E; subst. auto.
  - destruct (sync.updatePhaseFailedWithCondition now _ obj _ _ _ _)
      as [[ue cu] ou] eqn:U.
    apply updatePhaseFailedWithCondition_frame in U.
    inversion E; subst. exact U.
Qed.

Lemma fetchAndProcessRegistryData_frame c obj res c1 obj1 :
  sync.fetchAndProcessRegistryData s now c obj = (res, c1, obj1) ->
  storedLastSync c1 = storedLastSync c /\ client.artifact c1 = client.artifact c.
Proof.
  unfold sync.fetchAndProcessRegistryData. intros E.
  destruct (sync.CreateHandler s _) as [h|err].
  - destruct (sync.Validate h _ _) as [verr src].
    destruct verr as [verr|].
    + destruct (sync.updatePhaseFailedWithCondition now _ _ _ _ _ _)
        as [[ue cu] ou] eqn:U.
      apply updatePhaseFailedWithCondition_frame in U.
      inversion E; subst. exact U.
    + destruct (sync.FetchRegistry h _ _) as [fr|ferr].
      * destruct (sync.applyFilteringIfConfigured s now _ _ fr)
          as [[[fe cf] ob] fr1] eqn:F.
        apply applyFilteringIfConfigured_frame in F.
        destruct fe; inversion E; subst; exact F.
      * destruct (sync.updatePhaseFailedWithCondition now _ _ _ _ _ _)
          as [[ue cu] ou] eqn:U.
        apply updatePhaseFailedWithCondition_frame in U.
        inversion E; subst. exact U.
  - destruct (sync.updatePhaseFailedWithCondition now _ _ _ _ _ _)
      as [[ue cu] ou] eqn:U.
    apply updatePhaseFailedWithCondition_frame in U.
    inversion E; subst. exact U.
Qed.

(** Every run decides either on a failed step or on the success update, the
    latter only after the fetched registry was stored. *)
Lemma composeStatusUpdate_cases c obj u c1 obj1 :
  sync.composeStatusUpdate s now c obj = (u, c1, obj1) ->
  storedLastSync c1 = storedLastSync c /\
  ((exists limit what ct rs err interval,
       u = sync.failedStep now obj1 limit what ct rs err interval) \/
   (exists fr, u = sync.successUpdate s now obj1 fr /\
               client.artifact c1 = Some (sync.FetchResult.Registry fr))).
Proof.
  unfold sync.composeStatusUpdate. intros E.
  destruct (sync.fetchAndProcessRegistryData s now c obj) as [[res cf] ob] eqn:F.
  apply fetchAndProcessRegistryData_frame in F. destruct F as [Fs Fa].
  destruct res as [[fr0 h]|err].
  - destruct (sync.Validate h _ _) as [verr src].
    destruct verr as [verr|].
    + inversion E; subst. split; [exact Fs|]. left. eauto 10.
    + destruct (sync.FetchRegistry h _ _) as [fr|ferr].
      * destruct (client.Store _ _) as [serr cs] eqn:S.
        pose proof (Store_object _ _ _ _ S) as So.
        assert (Hs : storedLastSync cs = storedLastSync c).
        { unfold storedLastSync in *. rewrite So. exact Fs. }
        destruct serr as [serr|].
        -- inversion E; subst. split; [exact Hs|]. left. eauto 10.
        -- inversion E; subst. split; [exact Hs|]. right. exists fr.
           split; [reflexivity|].
           unfold client.Store in S.
           destruct (client.nextFault _ _) as [f c'] in S.
           destruct f; inversion S. reflexivity.
      * inversion E; subst. split; [exact Fs|]. left. eauto 10.
  - inversion E; subst. split; [exact Fs|]. left. eauto 10.
Qed.

Lemma successUpdate_phase obj fr :
  sync.statusUpdate.Phase (sync.successUpdate s now obj fr) = MCPRegistryPhaseReady.
Proof. reflexivity. Qed.

End PerformSyncFrame.

Section PerformSyncFailure.

Import Observe.

Variable s : sync.DefaultSyncManager.
Variable now : Time.

Lemma failedStep_is_failureUpdate obj limit what ct rs err interval :
  exists message retryAfter,
    sync.failedStep now obj limit what ct rs err interval
    = sync.failureUpdate now obj message ct rs err retryAfter.
Proof.
  unfold sync.failedStep.
  destruct (SyncAttempts (Status obj) >=? limit); eauto.
Qed.

Lemma decision_failed_cases c obj :
  sync.statusUpdate.Phase (decision s now c obj) = MCPRegistryPhaseFailed ->
  exists obj1 message ct rs err retryAfter,
    decision s now c obj = sync.failureUpdate now obj1 message ct rs err retryAfter.
Proof.
  unfold decision.
  destruct (sync.composeStatusUpdate s now c obj) as [[u c1] obj1] eqn:E.
  apply composeStatusUpdate_cases in E.
  destruct E as [_ [(limit & what & ct & rs & err & interval & ->) | (fr & -> & _)]].
  - intros _. cbn.
    destruct (failedStep_is_failureUpdate obj1 limit what ct rs err interval)
      as (m & ra & ->). eauto 10.
  - cbn. discriminate.
Qed.

Lemma PerformSync_failed_storedLastSync c obj :
  sync.statusUpdate.Phase (decision s now c obj) = MCPRegistryPhaseFailed ->
  storedLastSync (afterPerformSync s now c obj) = storedLastSync c.
Proof.
  intros Hp. destruct (decision_failed_cases c obj Hp)
    as (obj' & m & ct & rs & err & ra & Hd).
  unfold afterPerformSync, sync.PerformSync, decision in *.
  destruct (sync.composeStatusUpdate s now c obj) as [[u c1] obj1] eqn:E.
  apply composeStatusUpdate_cases in E. destruct E as [Hs _].
  cbn in Hd. subst u.
  destruct (sync.applyFinalStatusUpdate now c1 obj1 _) as [[[r e] c2] obj2] eqn:A.
  apply applyFinalStatusUpdate_frame in A;
    [|apply failureUpdate_carriesNoSyncRecord].
  cbn. destruct A as [A _]. congruence.
Qed.

(** A final update that cannot be read or written leaves the stored
    declaration as it was. *)
Lemma applyFinalStatusUpdate_error c obj u r e c1 obj1 :
  sync.applyFinalStatusUpdate now c obj u = (r, Some e, c1, obj1) ->
  client.object c1 = client.object c.
Proof.
  unfold sync.applyFinalStatusUpdate. intros E.
  destruct (client.Get c obj) as [[ge cg] og] eqn:G.
  apply Get_object in G. destruct G as (Go & Ga & Gs).
  destruct ge as [ge|]; [inversion E; subst; exact Go|].
  specialize (Gs eq_refl).
  destruct (client.StatusUpdate cg _) as [ue cu] eqn:U.
  eapply StatusUpdate_cases in U; [|rewrite Go; exact Gs].
  destruct ue as [ue|].
  - inversion E; subst. destruct U as [[Ue _] | [_ Uo]]; [discriminate | congruence].
  - destruct (sync.statusUpdate.RetryResult u); inversion E.
Qed.

Lemma PerformSync_error_storedLastSync c obj :
  snd (resultOfPerformSync s now c obj) <> None ->
  storedLastSync (afterPerformSync s now c obj) = storedLastSync c.
Proof.
  unfold resultOfPerformSync, afterPerformSync, sync.PerformSync.
  destruct (sync.composeStatusUpdate s now c obj) as [[u c1] obj1] eqn:E.
  apply composeStatusUpdate_cases in E. destruct E as [Hs _].
  destruct (sync.applyFinalStatusUpdate now c1 obj1 u) as [[[r e] c2] obj2] eqn:A.
  cbn. destruct e as [e|]; [|contradiction]. intros _.
  apply applyFinalStatusUpdate_error in A.
  unfold storedLastSync in *. rewrite A. exact Hs.
Qed.

Lemma storedLastSync_fields c c' o :
  client.object c = Some o ->
  storedLastSync c' = storedLastSync c ->
  exists o', client.object c' = Some o' /\
    LastSyncTime (Status o') = LastSyncTime (Status o) /\
    LastSyncHash (Status o') = LastSyncHash (Status o) /\
    StorageRef (Status o') = StorageRef (Status o) /\
    ServerCount (Status o') = ServerCount (Status o) /\
    LastManualSyncTrigger (Status o') = LastManualSyncTrigger (Status o).
Proof.
  intros Ho Hs. unfold storedLastSync in Hs. rewrite Ho in Hs. cbn in Hs.
  destruct (client.object c') as [o'|]; [|discriminate].
  exists o'. split; [reflexivity|].
  cbn in Hs. unfold lastSync in Hs. inversion Hs. auto.
Qed.

End PerformSyncFailure.

(** C10. Every failing path of PerformSync keeps the record of the last
    successful sync. When the run decides on a failed step, (1) the update it
    composes carries no last-sync value; (2) applied to any status, that
    update changes phase, message, one condition, syncAttempts and
    nextRetryTime and nothing else; (3) the declaration stored in the cluster
    afterwards has the lastSyncTime, lastSyncHash, storageRef, serverCount and
    lastManualSyncTrigger it had before the attempt. The same record is kept
    (4) by a run that returns an error because its final update could not be
    read or written. *)
Theorem PerformSync_failure_keeps_last_sync
  (s : sync.DefaultSyncManager) (now : Time) (c : client.Cluster)
  (obj o : MCPRegistry) :
  client.object c = Some o ->
  (sync.statusUpdate.Phase (Observe.decision s now c obj) = MCPRegistryPhaseFailed ->
   Observe.carriesNoSyncRecord (Observe.decision s now c obj) /\
   (exists message condition attempts retry, forall st,
       sync.finalStatus now st (Observe.decision s now c obj)
       = {| Conditions := meta.SetStatusCondition now (Conditions st) condition;
            Phase := MCPRegistryPhaseFailed;
            Message := message;
            LastSyncTime := LastSyncTime st;
            LastSyncHash := LastSyncHash st;
            ServerCount := ServerCount st;
            SyncAttempts := attempts;
            NextRetryTime := retry;
            StorageRef := StorageRef st;
            LastManualSyncTrigger := LastManualSyncTrigger st |}) /\
   (exists o', client.object (Observe.afterPerformSync s now c obj) = Some o' /\
       LastSyncTime (Status o') = LastSyncTime (Status o) /\
       LastSyncHash (Status o') = LastSyncHash (Status o) /\
       StorageRef (Status o') = StorageRef (Status o) /\
       ServerCount (Status o') = ServerCount (Status o) /\
       LastManualSyncTrigger (Status o') = LastManualSyncTrigger (Status o))) /\
  (snd (Observe.resultOfPerformSync s now c obj) <> None ->
   exists o', client.object (Observe.afterPerformSync s now c obj) = Some o' /\
       LastSyncTime (Status o') = LastSyncTime (Status o) /\
       LastSyncHash (Status o') = LastSyncHash (Status o) /\
       StorageRef (Status o') = StorageRef (Status o) /\
       ServerCount (Status o') = ServerCount (Status o) /\
       LastManualSyncTrigger (Status o') = LastManualSyncTrigger (Status o)).
Proof.
  intros Ho. split.
  - intros Hp.
    destruct (decision_failed_cases s now c obj Hp)
      as (obj' & m & ct & rs & err & ra & Hd).
    split; [|split].
    + rewrite Hd. apply failureUpdate_carriesNoSyncRecord.
    + rewrite Hd. do 4 eexists. intros st. apply finalStatus_failureUpdate.
    + apply (storedLastSync_fields c _ o Ho).
      apply PerformSync_failed_storedLastSync. exact Hp.
  - intros He. apply (storedLastSync_fields c _ o Ho).
    apply PerformSync_error_storedLastSync. exact He.
Qed.

Lemma PerformSync_failure_keeps_last_sync_witness :
  sync.statusUpdate.Phase
    (Observe.decision Fixtures.unreachableSource 1000
       (Fixtures.clusterOf (Fixtures.declaration Fixtures.syncedStatus))
       (Fixtures.declaration Fixtures.syncedStatus)) = "Failed" /\
  exists o',
    client.object
      (Observe.afterPerformSync Fixtures.unreachableSource 1000
         (Fixtures.clusterOf (Fixtures.declaration Fixtures.syncedStatus))
         (Fixtures.declaration Fixtures.syncedStatus)) = Some o' /\
    LastSyncTime (Status o') = Some 50 /\
    LastSyncHash (Status o') = "0a1b2c3d" /\
    StorageRef (Status o') = StorageRef Fixtures.syncedStatus /\
    ServerCount (Status o') = 5 /\
    LastManualSyncTrigger (Status o') = "trigger-1".
Proof.
  split; [vm_compute; reflexivity|].
  apply (proj1 (PerformSync_failure_keeps_last_sync Fixtures.unreachableSource 1000
           (Fixtures.clusterOf (Fixtures.declaration Fixtures.syncedStatus))
           (Fixtures.declaration Fixtures.syncedStatus)
           (Fixtures.declaration Fixtures.syncedStatus) eq_refl)).
  vm_compute. reflexivity.
Defined.

(* --------------------------------------------------------------------- *)
(** ** PerformSync: the server count of a successful sync *)
(* --------------------------------------------------------------------- *)

Section ServerCountOnSuccess.

Variable s : sync.DefaultSyncManager.
Variable now : Time.

(** The success update writes the fetched count only when it is positive;
    a count of zero leaves the count of the previous sync in the status. *)
Lemma successUpdate_ServerCount st obj fr :
  ServerCount (sync.finalStatus now st (sync.successUpdate s now obj fr))
  = if sync.FetchResult.ServerCount fr >? 0
    then sync.FetchResult.ServerCount fr
    else ServerCount st.
Proof.
  unfold sync.finalStatus, sync.successUpdate, sync.applySyncData. cbn.
  destruct (sync.GetStorageReference s obj);
  destruct (negb (String.eqb (sync.FetchResult.Hash fr) ""));
  destruct (sync.FetchResult.ServerCount fr >? 0);
  destruct (negb (String.eqb
              match Annotations obj !! sync.SyncTriggerAnnotation with
              | Some v => v | None => "" end ""));
  reflexivity.
Qed.

(** Filtering sets the count of the fetch result to the number of entries
    of the filtered registry. *)
Lemma applyFilteringIfConfigured_ServerCount c obj fr filter c1 obj1 fr1 :
  Filter (Spec obj) = Some filter ->
  sync.applyFilteringIfConfigured s now c obj fr = (None, c1, obj1, fr1) ->
  Go.is_int64 (Observe.entries (sync.FetchResult.Registry fr1)) ->
  sync.FetchResult.ServerCount fr1
  = Observe.entries (sync.FetchResult.Registry fr1).
Proof.
  unfold sync.applyFilteringIfConfigured. intros -> E Hr.
  destruct (sync.ApplyFilters s _ filter) as [reg|err].
  - inversion E; subst. cbn in *. apply wrap64_small. exact Hr.
  - destruct (sync.updatePhaseFailedWithCondition now _ obj _ _ _ _)
      as [[ue cu] ou]. inversion E.
Qed.

End ServerCountOnSuccess.

(** C3 (the code departs from the claim). A declaration that was synced with
    five servers is synced again from a source whose servers map is empty.
    PerformSync succeeds (no error, no requeue, phase Ready, attempts 0) and
    stores a registry with no entry, yet status.serverCount is still 5: the
    success update carries the count 0, which applyFinalStatusUpdate writes
    only when it is positive. *)
Theorem PerformSync_empty_registry_keeps_stale_serverCount :
  let c := Fixtures.clusterOf (Fixtures.declaration Fixtures.syncedStatus) in
  let obj := Fixtures.declaration Fixtures.syncedStatus in
  Observe.resultOfPerformSync Fixtures.emptySource 1000 c obj = (ctrl.empty, None) /\
  exists o' reg,
    client.object (Observe.afterPerformSync Fixtures.emptySource 1000 c obj) = Some o' /\
    client.artifact (Observe.afterPerformSync Fixtures.emptySource 1000 c obj) = Some reg /\
    Phase (Status o') = MCPRegistryPhaseReady /\
    SyncAttempts (Status o') = 0 /\
    LastSyncHash (Status o') = "e3b0c442" /\
    Observe.entries reg = 0 /\
    ServerCount (Status o') = 5.
Proof.
  cbv zeta. split; [vm_compute; reflexivity|].
  eexists. eexists. split; [vm_compute; reflexivity|].
  split; [vm_compute; reflexivity|].
  repeat split; vm_compute; reflexivity.
Qed.

(* --------------------------------------------------------------------- *)
(** ** PerformSync: the retry a failed fetch schedules *)
(* --------------------------------------------------------------------- *)

Section RetrySchedule.

(** A fetch that fails while the status counts [attempts] failures is retried
    after [calculateRetryInterval attempts], the counter as read before it is
    raised: the run below starts at one failure, requeues after five minutes
    and leaves the counter at two. *)
Example PerformSync_fetch_failure_schedule :
  let c := Fixtures.clusterOf (Fixtures.declaration (Fixtures.failedStatus 1)) in
  let obj := Fixtures.declaration (Fixtures.failedStatus 1) in
  Observe.resultOfPerformSync Fixtures.flakySource 1000 c obj
    = (ctrl.after (5 * Minute), None) /\
  option_map (fun o => (Phase (Status o), SyncAttempts (Status o),
                        NextRetryTime (Status o)))
    (client.object (Observe.afterPerformSync Fixtures.flakySource 1000 c obj))
    = Some ("Failed", 2, Some (1000 + 5 * Minute)).
Proof. cbv zeta. split; vm_compute; reflexivity. Qed.

End RetrySchedule.

(* --------------------------------------------------------------------- *)
(** ** The manual-trigger fast path *)
(* --------------------------------------------------------------------- *)

Section FastPath.

Import Observe.

Lemma nextFault_trace c call f c1 :
  client.nextFault c call = (f, c1) -> client.trace c1 = (client.trace c ++ [call])%list.
Proof.
  unfold client.nextFault. destruct (client.faults c); intros E; inversion E; reflexivity.
Qed.

Lemma Get_trace c obj err c1 obj1 :
  client.Get c obj = (err, c1, obj1) ->
  client.trace c1 = (client.trace c ++ [client.CallGet])%list.
Proof.
  unfold client.Get. destruct (client.nextFault c client.CallGet) as [f c'] eqn:F.
  apply nextFault_trace in F.
  destruct f; [|destruct (client.object c')]; intros E; inversion E; subst; exact F.
Qed.

Lemma StatusUpdate_trace c obj err c1 :
  client.StatusUpdate c obj = (err, c1) ->
  client.trace c1 = (client.trace c ++ [client.CallStatusUpdate])%list.
Proof.
  unfold client.StatusUpdate.
  destruct (client.nextFault c client.CallStatusUpdate) as [f c'] eqn:F.
  apply nextFault_trace in F.
  destruct f; [|destruct (client.object c')]; intros E; inversion E; subst; exact F.
Qed.

Lemma trackedStatus_exceptTrigger o :
  exceptTrigger (trackedStatus o) = exceptTrigger (Status o).
Proof.
  unfold trackedStatus.
  destruct (Annotations o !! sync.SyncTriggerAnnotation) as [v|]; [|reflexivity].
  destruct (negb (String.eqb v "")); reflexivity.
Qed.

Lemma trackedStatus_trigger o v :
  Annotations o !! sync.SyncTriggerAnnotation = Some v -> v <> "" ->
  LastManualSyncTrigger (trackedStatus o) = v.
Proof.
  intros Hv Hne. unfold trackedStatus. rewrite Hv.
  destruct (String.eqb_spec v ""); [contradiction | reflexivity].
Qed.

Lemma UpdateManualSyncTriggerOnly_spec c obj o res err c1 obj1 :
  client.object c = Some o ->
  sync.UpdateManualSyncTriggerOnly c obj = (res, err, c1, obj1) ->
  res = ctrl.empty /\
  client.artifact c1 = client.artifact c /\
  (exists calls, client.trace c1 = (client.trace c ++ calls)%list /\
                 Forall declarationCall calls) /\
  ((err = None /\ client.object c1 = Some (with_Status o (trackedStatus o))) \/
   (err <> None /\ client.object c1 = Some o)).
Proof.
  intros Ho. unfold sync.UpdateManualSyncTriggerOnly. intros E.
  destruct (client.Get c obj) as [[ge cg] og] eqn:G.
  pose proof (Get_trace _ _ _ _ _ G) as Gt.
  apply Get_object in G. destruct G as (Go & Ga & Gs).
  destruct ge as [ge|].
  - inversion E; subst. split; [reflexivity|]. split; [exact Ga|]. split.
    + exists [client.CallGet]. split; [exact Gt|]. repeat constructor.
    + right. split; [discriminate | congruence].
  - specialize (Gs eq_refl). assert (og = o) by congruence. subst og.
    destruct (client.StatusUpdate cg _) as [ue cu] eqn:U.
    pose proof (StatusUpdate_trace _ _ _ _ U) as Ut.
    pose proof (StatusUpdate_object _ _ _ _ U) as [Ua _].
    eapply StatusUpdate_cases in U; [|rewrite Go; exact Ho].
    assert (Hres : res = ctrl.empty /\ c1 = cu /\ err = ue).
    { destruct ue; inversion E; subst; auto. }
    destruct Hres as (-> & -> & ->). clear E.
    split; [reflexivity|]. split; [congruence|]. split.
    + exists [client.CallGet; client.CallStatusUpdate]. split.
      * rewrite Ut, Gt. symmetry.
        apply (List.app_assoc (client.trace c) [client.CallGet] [client.CallStatusUpdate]).
      * constructor; [left; reflexivity|].
        constructor; [right; reflexivity|]. constructor.
    + destruct U as [[Ue Uo] | [Ue Uo]]; [left | right]; (split; [exact Ue|]);
        [|exact Uo].
      rewrite Uo. f_equal. f_equal. unfold trackedStatus.
      destruct (Annotations o !! sync.SyncTriggerAnnotation) as [v|]; [|reflexivity].
      destruct (negb (String.eqb v "")); reflexivity.
Qed.

End FastPath.

(** C7. When ShouldSync answers manual-sync-no-data-changes, reconcileSync
    takes the trigger-tracking fast path only: it returns no requeue; the
    calls it makes are reads and status writes of the declaration (no handler
    creation, validation, fetch, filter or store) and the storage artifact is
    untouched; the stored status afterwards agrees with the one before on
    every field but lastManualSyncTrigger, which holds the annotation value
    once the write succeeded. *)
Theorem reconcileSync_manual_no_changes
  (r : controllers.MCPRegistryReconciler) (now : Time) (c : client.Cluster)
  (obj o : MCPRegistry) (nextCheck : option Time) :
  client.object c = Some o ->
  sync.ShouldSync (sync.checkers (controllers.syncManager r)) now o
    = (true, "manual-sync-no-data-changes", nextCheck, None) ->
  Observe.resultOfReconcileSync r now c obj = ctrl.empty /\
  client.artifact (Observe.afterReconcileSync r now c obj) = client.artifact c /\
  (exists calls,
      client.trace (Observe.afterReconcileSync r now c obj)
        = (client.trace c ++ calls)%list /\
      Forall Observe.declarationCall calls) /\
  (exists o',
      client.object (Observe.afterReconcileSync r now c obj) = Some o' /\
      Observe.exceptTrigger (Status o') = Observe.exceptTrigger (Status o) /\
      (forall v, Observe.errorOfReconcileSync r now c obj = None ->
         Annotations o !! sync.SyncTriggerAnnotation = Some v -> v <> "" ->
         LastManualSyncTrigger (Status o') = v)).
Proof.
  intros Ho Hs.
  unfold Observe.resultOfReconcileSync, Observe.afterReconcileSync,
    Observe.errorOfReconcileSync, controllers.reconcileSync.
  destruct (client.Get c obj) as [[ge cg] og] eqn:G.
  pose proof (Get_trace _ _ _ _ _ G) as Gt.
  apply Get_object in G. destruct G as (Go & Ga & Gs).
  destruct ge as [ge|].
  - cbn. split; [reflexivity|]. split; [exact Ga|]. split.
    + exists [client.CallGet]. split; [exact Gt|].
      constructor; [left; reflexivity | constructor].
    + exists o. split; [congruence|]. split; [reflexivity|].
      intros v Hn. discriminate Hn.
  - specialize (Gs eq_refl). assert (og = o) by congruence. subst og.
    rewrite Hs. cbn.
    destruct (sync.UpdateManualSyncTriggerOnly cg o) as [[[res err] c1] obj1] eqn:U.
    eapply UpdateManualSyncTriggerOnly_spec in U; [|rewrite Go; exact Ho].
    destruct U as (Hr & Ha & (calls & Ht & Hf) & Hw). cbn.
    split; [exact Hr|]. split; [congruence|]. split.
    + exists (client.CallGet :: calls). split.
      * rewrite Ht, Gt. symmetry.
        apply (List.app_assoc (client.trace c) [client.CallGet] calls).
      * constructor; [left; reflexivity | exact Hf].
    + destruct Hw as [[He Hw] | [He Hw]].
      * exists (with_Status o (Observe.trackedStatus o)). split; [exact Hw|].
        split; [apply trackedStatus_exceptTrigger|].
        intros v _ Hv Hne. apply trackedStatus_trigger; assumption.
      * exists o. split; [exact Hw|]. split; [reflexivity|].
        intros v Hn. contradiction.
Qed.

Lemma reconcileSync_manual_no_changes_witness :
  Observe.resultOfReconcileSync Fixtures.manualReconciler 1000
    (Fixtures.clusterOf (Fixtures.triggered "trigger-2"))
    (Fixtures.triggered "trigger-2") = ctrl.empty /\
  exists o',
    client.object
      (Observe.afterReconcileSync Fixtures.manualReconciler 1000
         (Fixtures.clusterOf (Fixtures.triggered "trigger-2"))
         (Fixtures.triggered "trigger-2")) = Some o' /\
    Observe.exceptTrigger (Status o')
      = Observe.exceptTrigger Fixtures.syncedStatus /\
    LastManualSyncTrigger (Status o') = "trigger-2".
Proof.
  destruct (reconcileSync_manual_no_changes Fixtures.manualReconciler 1000
              (Fixtures.clusterOf (Fixtures.triggered "trigger-2"))
              (Fixtures.triggered "trigger-2") (Fixtures.triggered "trigger-2") None)
    as (Hr & _ & _ & (o' & Ho' & He & Ht)).
  - reflexivity.
  - vm_compute. reflexivity.
  - split; [exact Hr|]. exists o'. split; [exact Ho'|]. split; [exact He|].
    apply Ht.
    + vm_compute. reflexivity.
    + vm_compute. reflexivity.
    + discriminate.
Defined.

(* --------------------------------------------------------------------- *)
(** ** Deletion: finalization and the finalizer *)
(* --------------------------------------------------------------------- *)

Section Finalization.

Import Observe.

Variable r : controllers.MCPRegistryReconciler.
Variable now : Time.

Lemma RemoveFinalizer_not_contained o f :
  controllerutil.ContainsFinalizer (controllerutil.RemoveFinalizer o f) f = false.
Proof.
  unfold controllerutil.ContainsFinalizer, controllerutil.RemoveFinalizer. cbn.
  induction (Finalizers o) as [|x l IH]; [reflexivity|]. cbn.
  destruct (String.eqb_spec x f) as [->|Hne]; cbn; [exact IH|].
  destruct (String.eqb_spec f x) as [->|_]; [contradiction | exact IH].
Qed.

Lemma Update_finalizerRemoved c o f err c1 :
  client.Update c (controllerutil.RemoveFinalizer o f) = (err, c1) ->
  err = None ->
  forall o', client.object c1 = Some o' ->
             controllerutil.ContainsFinalizer o' f = false.
Proof.
  unfold client.Update.
  destruct (client.nextFault c client.CallUpdate) as [fl c'].
  destruct fl as [e|]; [intros E He; inversion E; subst; discriminate|].
  destruct (client.object c') as [st|]; [|intros E He; inversion E; subst; discriminate].
  intros E _ o' Ho'.
  set (u := with_Status (controllerutil.RemoveFinalizer o f) (Status st)) in *.
  assert (Hu : controllerutil.ContainsFinalizer u f = false)
    by apply (RemoveFinalizer_not_contained o f).
  destruct (DeletionTimestamp u); [destruct (Finalizers u) eqn:Fu|];
    inversion E; subst; cbn in Ho'; try discriminate;
    inversion Ho'; subst; exact Hu.
Qed.

(** A failed status update stops the finalization: the error is returned,
    nothing is written, the finalizer stays. *)
Lemma Reconcile_finalize_status_error c o e rest :
  client.object c = Some o ->
  DeletionTimestamp o <> None ->
  controllerutil.ContainsFinalizer o controllers.MCPRegistryFinalizer = true ->
  client.faults c = None :: Some e :: rest ->
  errorOfReconcile r now c = Some e /\
  client.object (afterReconcile r now c) = Some o /\
  client.artifact (afterReconcile r now c) = client.artifact c.
Proof.
  intros Ho Hd Hf Hfl. destruct c as [ob ar fl tr]. cbn in Ho, Hfl. subst ob fl.
  destruct (DeletionTimestamp o) as [t|] eqn:Dt; [|contradiction].
  unfold errorOfReconcile, afterReconcile, controllers.Reconcile. cbn.
  rewrite Dt, Hf. cbn. auto.
Qed.

(** A failed storage cleanup does not stop it: no error is returned and the
    finalizer is removed, while the artifact is still there. *)
Lemma Reconcile_finalize_storage_error c o e rest :
  client.object c = Some o ->
  DeletionTimestamp o <> None ->
  controllerutil.ContainsFinalizer o controllers.MCPRegistryFinalizer = true ->
  client.faults c = None :: None :: Some e :: rest ->
  (rest = [] \/ exists rest', rest = None :: rest') ->
  errorOfReconcile r now c = None /\
  finalizerRemoved (afterReconcile r now c) /\
  client.artifact (afterReconcile r now c) = client.artifact c.
Proof.
  intros Ho Hd Hf Hfl Hrest. destruct c as [ob ar fl tr]. cbn in Ho, Hfl. subst ob fl.
  destruct (DeletionTimestamp o) as [t|] eqn:Dt; [|contradiction].
  unfold errorOfReconcile, afterReconcile, finalizerRemoved, controllers.Reconcile.
  cbn. rewrite Dt, Hf. cbn.
  destruct (client.Update _ _) as [ue cu] eqn:U.
  assert (Hue : ue = None /\ client.artifact cu = ar).
  { unfold client.Update in U.
    destruct Hrest as [-> | [rest' ->]]; cbn in U; rewrite Dt in U;
      destruct (List.filter _ (Finalizers o)); inversion U; subst; auto. }
  destruct Hue as [-> Ha]. cbn. split; [reflexivity|]. split; [|exact Ha].
  intros o' Ho'.
  eapply (Update_finalizerRemoved _ _ _ _ _ U eq_refl). exact Ho'.
Qed.

End Finalization.

(** C6 (as amended). During deletion the finalizer is removed only after the
    status update to Terminating succeeds: when that update returns an error,
    the error is propagated, the finalizer stays attached and the declaration
    is not deleted. An error of the storage cleanup is logged and not
    propagated: the run returns no error and removes the finalizer although
    the storage artifact is still there. *)
Theorem Reconcile_finalization
  (r : controllers.MCPRegistryReconciler) (now : Time) (c : client.Cluster)
  (o : MCPRegistry) :
  client.object c = Some o ->
  DeletionTimestamp o <> None ->
  controllerutil.ContainsFinalizer o controllers.MCPRegistryFinalizer = true ->
  (forall e rest, client.faults c = None :: Some e :: rest ->
     Observe.errorOfReconcile r now c = Some e /\
     Observe.finalizerAttached (Observe.afterReconcile r now c) /\
     client.artifact (Observe.afterReconcile r now c) = client.artifact c) /\
  (forall e rest, client.faults c = None :: None :: Some e :: rest ->
     (rest = [] \/ exists rest', rest = None :: rest') ->
     Observe.errorOfReconcile r now c = None /\
     Observe.finalizerRemoved (Observe.afterReconcile r now c) /\
     client.artifact (Observe.afterReconcile r now c) = client.artifact c).
Proof.
  intros Ho Hd Hf. split.
  - intros e rest Hfl.
    destruct (Reconcile_finalize_status_error r now c o e rest Ho Hd Hf Hfl)
      as (He & Hob & Ha).
    split; [exact He|]. split; [|exact Ha].
    exists o. split; assumption.
  - intros e rest Hfl Hrest.
    apply (Reconcile_finalize_storage_error r now c o e rest); assumption.
Qed.

Lemma Reconcile_finalization_witness :
  (Observe.errorOfReconcile Fixtures.reconciler 1000
     (Fixtures.deleting [None; Some Fixtures.conflict]) = Some Fixtures.conflict /\
   Observe.finalizerAttached
     (Observe.afterReconcile Fixtures.reconciler 1000
        (Fixtures.deleting [None; Some Fixtures.conflict]))) /\
  (Observe.errorOfReconcile Fixtures.reconciler 1000
     (Fixtures.deleting [None; None; Some Fixtures.storageUnavailable]) = None /\
   Observe.finalizerRemoved
     (Observe.afterReconcile Fixtures.reconciler 1000
        (Fixtures.deleting [None; None; Some Fixtures.storageUnavailable]))).
Proof.
  split.
  - destruct (Reconcile_finalization Fixtures.reconciler 1000
                (Fixtures.deleting [None; Some Fixtures.conflict]) Fixtures.deleted)
      as [H _]; [reflexivity | discriminate | reflexivity |].
    destruct (H Fixtures.conflict [] eq_refl) as (He & Hf & _). split; assumption.
  - destruct (Reconcile_finalization Fixtures.reconciler 1000
                (Fixtures.deleting [None; None; Some Fixtures.storageUnavailable])
                Fixtures.deleted)
      as [_ H]; [reflexivity | discriminate | reflexivity |].
    destruct (H Fixtures.storageUnavailable [] eq_refl (or_introl eq_refl))
      as (He & Hf & _). split; assumption.
Defined.

(** C6 as stated does not hold: in a finalization run whose storage deletion
    returns an error, no error is propagated and the declaration is deleted. *)
Lemma Reconcile_storage_error_counterexample :
  ~ (forall (r : controllers.MCPRegistryReconciler) (now : Time)
            (c : client.Cluster) (o : MCPRegistry) (e : error) rest,
       client.object c = Some o ->
       DeletionTimestamp o <> None ->
       controllerutil.ContainsFinalizer o controllers.MCPRegistryFinalizer = true ->
       client.faults c = None :: None :: Some e :: rest ->
       Observe.errorOfReconcile r now c <> None /\
       Observe.finalizerAttached (Observe.afterReconcile r now c)).
Proof.
  intros H.
  destruct (H Fixtures.reconciler 1000
              (Fixtures.deleting [None; None; Some Fixtures.storageUnavailable])
              Fixtures.deleted Fixtures.storageUnavailable [])
    as [He _]; [reflexivity | discriminate | reflexivity | reflexivity |].
  apply He. vm_compute. reflexivity.
Qed.

(* --------------------------------------------------------------------- *)
(** ** Format detection *)
(* --------------------------------------------------------------------- *)

Section Detection.

Import FormatSpec.

Variable enc : json.Encoding.

Lemma rangeFirst_lookup {V} (order : nat) (m : gmap string V) :
  (0 < size m)%nat ->
  exists k v, RegistryFormatConverter.rangeFirst order m = Some (k, v) /\ m !! k = Some v.
Proof.
  intros Hs. unfold RegistryFormatConverter.rangeFirst.
  destruct (lookup_lt_is_Some_2 (map_to_list m) (order mod size m)%nat) as [[k v] Hkv].
  { rewrite length_map_to_list. apply Nat.mod_upper_bound. lia. }
  exists k, v. split; [exact Hkv|].
  apply elem_of_map_to_list. eapply list_elem_of_lookup_2. exact Hkv.
Qed.

Lemma rangeFirst_any {V} (m : gmap string V) k v :
  m !! k = Some v ->
  exists order, RegistryFormatConverter.rangeFirst order m = Some (k, v).
Proof.
  intros Hk. apply elem_of_map_to_list in Hk.
  apply list_elem_of_lookup_1 in Hk. destruct Hk as [i Hi].
  exists i. unfold RegistryFormatConverter.rangeFirst.
  pose proof (lookup_lt_Some _ _ _ Hi) as Hlt. rewrite length_map_to_list in Hlt.
  rewrite Nat.mod_small by exact Hlt. exact Hi.
Qed.

(** The code decides on the first entry of the range. *)
Lemma DetectFormat_detectFirst order data :
  formatOf (RegistryFormatConverter.DetectFormat enc order data)
  = detectFirst enc order data.
Proof.
  unfold RegistryFormatConverter.DetectFormat, detectFirst, isCanonical, upstreamMap.
  destruct (Nat.eqb (String.length data) 0); [reflexivity|].
  destruct (registry.unmarshalRegistry enc data) as [r|e].
  - destruct (negb (String.eqb (registry.Version r) "")
              && match registry.Servers r with Some _ => true | None => false end);
      [reflexivity|].
    destruct (registry.unmarshalUpstream enc data) as [[m|]|e]; try reflexivity.
    destruct (0 <? size m)%nat; [|reflexivity].
    destruct (RegistryFormatConverter.rangeFirst order m) as [[k [d|]]|]; try reflexivity.
    unfold hasName. destruct (negb _); reflexivity.
  - destruct (registry.unmarshalUpstream enc data) as [[m|]|e']; try reflexivity.
    destruct (0 <? size m)%nat; [|reflexivity].
    destruct (RegistryFormatConverter.rangeFirst order m) as [[k [d|]]|]; try reflexivity.
    unfold hasName. destruct (negb _); reflexivity.
Qed.

Lemma upstreamMap_nonempty data m : upstreamMap enc data = Some m -> (0 < size m)%nat.
Proof.
  unfold upstreamMap.
  destruct (registry.unmarshalUpstream enc data) as [[m'|]|e]; try discriminate.
  destruct (Nat.ltb_spec 0 (size m')); [|discriminate].
  intros E; inversion E; subst. assumption.
Qed.

End Detection.

(** C8 (as amended). For every payload and every order in which Go visits the
    upstream map: DetectFormat fails on an empty payload; it returns toolhive
    when the payload parses as the canonical shape with version and servers
    present; otherwise it returns upstream when the payload parses as a
    non-empty upstream map whose entry visited first has a non-empty nested
    server.name; in all other cases it fails. Hence a map in which every value
    carries a server.name is upstream and one in which none does is an error,
    while a map in which some but not all do is upstream in one visiting order
    and an error in another. *)
Theorem DetectFormat_first_entry
  (enc : json.Encoding) (order : nat) (data : string) :
  FormatSpec.formatOf (RegistryFormatConverter.DetectFormat enc order data)
    = FormatSpec.detectFirst enc order data /\
  (forall m,
     String.length data <> 0%nat ->
     FormatSpec.isCanonical enc data = false ->
     FormatSpec.upstreamMap enc data = Some m ->
     ((forall k d, m !! k = Some d -> FormatSpec.hasName d = true) ->
      FormatSpec.formatOf (RegistryFormatConverter.DetectFormat enc order data)
        = Some "upstream") /\
     ((forall k d, m !! k = Some d -> FormatSpec.hasName d = false) ->
      FormatSpec.formatOf (RegistryFormatConverter.DetectFormat enc order data) = None) /\
     (forall k1 d1 k2 d2,
        m !! k1 = Some d1 -> FormatSpec.hasName d1 = true ->
        m !! k2 = Some d2 -> FormatSpec.hasName d2 = false ->
        (exists o1, FormatSpec.formatOf (RegistryFormatConverter.DetectFormat enc o1 data)
                    = Some "upstream") /\
        (exists o2, FormatSpec.formatOf (RegistryFormatConverter.DetectFormat enc o2 data)
                    = None))).
Proof.
  split; [apply DetectFormat_detectFirst|].
  intros m Hlen Hc Hm.
  assert (Hd : forall o, FormatSpec.detectFirst enc o data =
                 match RegistryFormatConverter.rangeFirst o m with
                 | Some (_, d) => if FormatSpec.hasName d then Some "upstream" else None
                 | None => None
                 end).
  { intros o. unfold FormatSpec.detectFirst. rewrite Hc, Hm.
    destruct (Nat.eqb_spec (String.length data) 0); [contradiction | reflexivity]. }
  pose proof (upstreamMap_nonempty enc data m Hm) as Hs.
  split; [|split].
  - intros Hall. rewrite DetectFormat_detectFirst, Hd.
    destruct (rangeFirst_lookup order m Hs) as (k & d & -> & Hk).
    rewrite (Hall k d Hk). reflexivity.
  - intros Hnone. rewrite DetectFormat_detectFirst, Hd.
    destruct (rangeFirst_lookup order m Hs) as (k & d & -> & Hk).
    rewrite (Hnone k d Hk). reflexivity.
  - intros k1 d1 k2 d2 H1 N1 H2 N2. split.
    + destruct (rangeFirst_any m k1 d1 H1) as [o1 Ho1]. exists o1.
      rewrite DetectFormat_detectFirst, Hd, Ho1, N1. reflexivity.
    + destruct (rangeFirst_any m k2 d2 H2) as [o2 Ho2]. exists o2.
      rewrite DetectFormat_detectFirst, Hd, Ho2, N2. reflexivity.
Qed.

Section DetectionExamples.

Import FormatSpec.

Lemma namedUpstream_all_named k d :
  Fixtures.decodedUpstream Fixtures.namedUpstream !! k = Some d -> hasName d = true.
Proof.
  intros Hk. apply elem_of_map_to_list in Hk.
  assert (F : Forall (fun kv => hasName (snd kv) = true)
                (map_to_list (Fixtures.decodedUpstream Fixtures.namedUpstream))).
  { vm_compute. repeat constructor. }
  rewrite Forall_forall in F. exact (F (k, d) Hk).
Qed.

(** In the mixed map the range visits [alpha] first at order 0 and [beta]
    first at order 1. *)
Example mixedUpstream_visits :
  option_map fst
    (RegistryFormatConverter.rangeFirst 0
       (Fixtures.decodedUpstream Fixtures.mixedUpstream)) = Some "alpha" /\
  option_map fst
    (RegistryFormatConverter.rangeFirst 1
       (Fixtures.decodedUpstream Fixtures.mixedUpstream)) = Some "beta".
Proof. split; vm_compute; reflexivity. Qed.

Lemma mixedUpstream_alpha :
  exists d, Fixtures.decodedUpstream Fixtures.mixedUpstream !! "alpha" = Some d /\ hasName d = true.
Proof. eexists. split; vm_compute; reflexivity. Qed.

Lemma mixedUpstream_beta :
  exists d, Fixtures.decodedUpstream Fixtures.mixedUpstream !! "beta" = Some d /\ hasName d = false.
Proof. eexists. split; vm_compute; reflexivity. Qed.

End DetectionExamples.

Lemma DetectFormat_first_entry_witness :
  FormatSpec.formatOf
    (RegistryFormatConverter.DetectFormat json.std 1 Fixtures.namedUpstream)
    = Some "upstream" /\
  (exists o1, FormatSpec.formatOf
                (RegistryFormatConverter.DetectFormat json.std o1 Fixtures.mixedUpstream)
              = Some "upstream") /\
  (exists o2, FormatSpec.formatOf
                (RegistryFormatConverter.DetectFormat json.std o2 Fixtures.mixedUpstream)
              = None).
Proof.
  split.
  - destruct (DetectFormat_first_entry json.std 1 Fixtures.namedUpstream) as [_ H].
    destruct (H (Fixtures.decodedUpstream Fixtures.namedUpstream)) as [Hall _].
    + vm_compute. discriminate.
    + vm_compute. reflexivity.
    + vm_compute. reflexivity.
    + apply Hall. apply namedUpstream_all_named.
  - destruct (DetectFormat_first_entry json.std 0 Fixtures.mixedUpstream) as [_ H].
    destruct (H (Fixtures.decodedUpstream Fixtures.mixedUpstream)) as (_ & _ & Hmixed).
    + vm_compute. discriminate.
    + vm_compute. reflexivity.
    + vm_compute. reflexivity.
    + destruct mixedUpstream_alpha as (d1 & H1 & N1).
      destruct mixedUpstream_beta as (d2 & H2 & N2).
      exact (Hmixed "alpha" d1 "beta" d2 H1 N1 H2 N2).
Defined.

(** C8 as stated does not hold: the payload is an upstream map with two
    entries of which only [alpha] carries a server.name; the specification
    rejects it, the code answers upstream when the range visits [alpha] first. *)
Lemma DetectFormat_mixed_counterexample :
  ~ (forall (enc : json.Encoding) (order : nat) (data : string),
       FormatSpec.formatOf (RegistryFormatConverter.DetectFormat enc order data)
       = FormatSpec.detect enc data).
Proof.
  intros H. specialize (H json.std 0%nat Fixtures.mixedUpstream).
  vm_compute in H. discriminate H.
Qed.

(* --------------------------------------------------------------------- *)
(** ** The read API: readiness *)
(* --------------------------------------------------------------------- *)

(** C5 (as amended). GET /readiness returns 200 if and only if the
    declaration is retrievable from the cluster, whatever its status and
    storageRef; when the declaration is not retrievable it returns 503. *)
Theorem handleReadiness_retrievable (s : registryapi.Server) :
  registryapi.StatusCode (registryapi.handleReadiness s)
    = match kube.GetMCPRegistry (registryapi.kubeClient s)
              (registryapi.RegistryName (registryapi.config s))
              (registryapi.RegistryNamespace (registryapi.config s)) with
      | Ok _ => 200
      | Err _ => 503
      end /\
  (registryapi.StatusCode (registryapi.handleReadiness s) = 200 <->
   exists registry,
     kube.GetMCPRegistry (registryapi.kubeClient s)
       (registryapi.RegistryName (registryapi.config s))
       (registryapi.RegistryNamespace (registryapi.config s)) = Ok registry) /\
  (registryapi.StatusCode (registryapi.handleReadiness s) = 503 <->
   exists err,
     kube.GetMCPRegistry (registryapi.kubeClient s)
       (registryapi.RegistryName (registryapi.config s))
       (registryapi.RegistryNamespace (registryapi.config s)) = Err err).
Proof.
  unfold registryapi.handleReadiness.
  destruct (kube.GetMCPRegistry _ _ _) as [registry|err]; cbn.
  - split; [reflexivity|]. split; split.
    + intros _. exists registry. reflexivity.
    + reflexivity.
    + discriminate.
    + intros [e He]. discriminate He.
  - split; [reflexivity|]. split; split.
    + discriminate.
    + intros [o Ho]. discriminate Ho.
    + intros _. exists err. reflexivity.
    + reflexivity.
Qed.

Lemma handleReadiness_retrievable_witness :
  registryapi.StatusCode
    (registryapi.handleReadiness
       (Fixtures.apiServer (Ok Fixtures.pending) (Err ErrNotFound))) = 200 /\
  registryapi.StatusCode
    (registryapi.handleReadiness
       (Fixtures.apiServer (Err ErrNotFound) (Err ErrNotFound))) = 503.
Proof.
  split.
  - apply (proj2 (proj1 (proj2 (handleReadiness_retrievable
             (Fixtures.apiServer (Ok Fixtures.pending) (Err ErrNotFound)))))).
    exists Fixtures.pending. reflexivity.
  - apply (proj2 (proj2 (proj2 (handleReadiness_retrievable
             (Fixtures.apiServer (Err ErrNotFound) (Err ErrNotFound)))))).
    exists ErrNotFound. reflexivity.
Defined.

(** C5 as stated does not hold: a declaration that is retrievable but has no
    storageRef is answered with 200, not with 503. *)
Lemma handleReadiness_storageRef_counterexample :
  ~ (forall s : registryapi.Server,
       registryapi.StatusCode (registryapi.handleReadiness s) = 200 <->
       exists registry,
         kube.GetMCPRegistry (registryapi.kubeClient s)
           (registryapi.RegistryName (registryapi.config s))
           (registryapi.RegistryNamespace (registryapi.config s)) = Ok registry /\
         StorageRef (Status registry) <> None).
Proof.
  intros H.
  destruct (proj1 (H (Fixtures.apiServer (Ok Fixtures.pending) (Err ErrNotFound))))
    as (registry & Hget & Href).
  - reflexivity.
  - vm_compute in Hget. inversion Hget; subst. apply Href. reflexivity.
Qed.

(* --------------------------------------------------------------------- *)
(** ** The read API: listing servers in the upstream format *)
(* --------------------------------------------------------------------- *)

(** C4 (the code departs from the claim). The storage of a synced declaration
    holds a canonical registry with the server [filesystem]. The data is
    detected as toolhive and its conversion to upstream does contain the key
    [filesystem] with [server.name = filesystem]; but handleListServers then
    looks for the servers under a top-level key [servers], which an upstream
    map does not have: GET /api/v1/registry/servers?format=upstream answers
    200 with an empty servers map and count 0. Without the format parameter
    the same server lists [filesystem]. *)
Theorem handleListServers_upstream_lists_nothing :
  let s := Fixtures.servingStored Fixtures.canonicalFilesystem in
  RegistryFormatConverter.DetectFormat json.std 0 Fixtures.canonicalFilesystem
    = Ok "toolhive" /\
  (exists converted upstream detail,
      registryapi.convertRegistryFormat s Fixtures.canonicalFilesystem "upstream"
        = Ok converted /\
      registry.unmarshalUpstream json.std converted = Ok (Some upstream) /\
      upstream !! "filesystem" = Some (Some detail) /\
      registry.UpstreamServer.Name (registry.UpstreamServerDetail.Server detail)
        = "filesystem") /\
  registryapi.handleListServers json.std s "upstream"
    = {| registryapi.StatusCode := 200;
         registryapi.Payload :=
           registryapi.ServerList
             {| registryapi.ServerListResponse.Servers := ∅;
                registryapi.ServerListResponse.Count := 0;
                registryapi.ServerListResponse.Format := "upstream" |} |} /\
  (exists listed server,
      registryapi.Payload (registryapi.handleListServers json.std s "")
        = registryapi.ServerList listed /\
      registryapi.ServerListResponse.Count listed = 1 /\
      registryapi.ServerListResponse.Servers listed !! "filesystem" = Some server).
Proof.
  cbv zeta. split; [vm_compute; reflexivity|]. split; [|split].
  - eexists. eexists. eexists. split; [vm_compute; reflexivity|].
    split; [vm_compute; reflexivity|]. split; vm_compute; reflexivity.
  - vm_compute. reflexivity.
  - eexists. eexists. split; [vm_compute; reflexivity|].
    split; vm_compute; reflexivity.
Qed.

(* --------------------------------------------------------------------- *)
(** ** The ConfigMap source handler *)
(* --------------------------------------------------------------------- *)

Section ConfigMapSync.

Import Observe.

Variable enc : json.Encoding.
Variable parseRFC3339 : string -> option Time.
Variable order : nat.
Variable timestamp : string.
Variable reader : kube.Reader.

Variable registry : MCPRegistry.
Variable cmSource : ConfigMapRegistrySource.t.

Hypothesis source_type :
  MCPRegistrySource.Type_ (Source (Spec registry)) = "configmap".
Hypothesis source_configmap :
  MCPRegistrySource.ConfigMap (Source (Spec registry)) = Some cmSource.
Hypothesis source_name : ConfigMapRegistrySource.Name cmSource <> "".

Local Abbreviation Sync :=
  (ConfigMapSourceHandler.Sync enc parseRFC3339 order timestamp reader registry).
Local Abbreviation getConfigMap :=
  (kube.GetConfigMap reader (ConfigMapRegistrySource.Name cmSource)
     (lookupNamespace registry cmSource)).

(** After validation the handler looks up the named ConfigMap and key, then
    decodes the data; once decoded, a result carries the hash of the data. *)
Lemma Sync_after_validate :
  match getConfigMap with
  | Err err =>
      Sync =
      if match err with ErrNotFound => true | _ => false end then
        Err (SourceHandlerError "configmap" "sync"
               ("ConfigMap '" +:+ ConfigMapRegistrySource.Name cmSource
                  +:+ "' not found in namespace '"
                  +:+ lookupNamespace registry cmSource +:+ "'")
               ErrSourceNotFound)
      else Err (SourceHandlerError "configmap" "sync" "failed to fetch ConfigMap" err)
  | Ok configMap =>
      match corev1.Data configMap !! lookupKey cmSource with
      | None =>
          Sync =
          Err (SourceHandlerError "configmap" "sync"
                 ("key '" +:+ lookupKey cmSource +:+ "' not found in ConfigMap '"
                    +:+ ConfigMapRegistrySource.Name cmSource +:+ "'")
                 ErrSourceNotFound)
      | Some data =>
          match ConfigMapSourceHandler.unmarshalRegistryData enc parseRFC3339 data with
          | Err _ =>
              Sync =
              Err (SourceHandlerError "configmap" "sync"
                     ("invalid JSON in ConfigMap key '" +:+ lookupKey cmSource +:+ "'")
                     ErrInvalidData)
          | Ok registryData =>
              forall res, Sync = Ok res ->
                ConfigMapSourceHandler.SyncResult.Hash res
                = ConfigMapSourceHandler.calculateHash data
          end
      end
  end.
Proof.
  unfold ConfigMapSourceHandler.Sync, ConfigMapSourceHandler.Validate,
    lookupNamespace, lookupKey.
  rewrite source_type, source_configmap. cbn.
  destruct (String.eqb_spec (ConfigMapRegistrySource.Name cmSource) "") as [E|_];
    [contradiction|].
  destruct (String.eqb (ConfigMapRegistrySource.Key cmSource) ""); cbn;
    rewrite ?source_type, ?source_configmap;
    (destruct (kube.GetConfigMap reader _ _) as [configMap|err]; [|reflexivity]);
    (destruct (corev1.Data configMap !! _) as [data|]; [|reflexivity]);
    (destruct (ConfigMapSourceHandler.unmarshalRegistryData enc parseRFC3339 data)
       as [registryData|e]; [|reflexivity]);
    intros res;
    (destruct (negb _);
     [destruct (RegistryFormatConverter.Convert enc timestamp data _ _)|]);
    intros Hres; inversion Hres; reflexivity.
Qed.

Lemma Sync_missing_configmap :
  getConfigMap = Err ErrNotFound -> failsWith Sync ErrSourceNotFound.
Proof.
  intros H. pose proof Sync_after_validate as E. rewrite H in E.
  eexists. split; [exact E | reflexivity].
Qed.

Lemma Sync_missing_key configMap :
  getConfigMap = Ok configMap ->
  corev1.Data configMap !! lookupKey cmSource = None ->
  failsWith Sync ErrSourceNotFound.
Proof.
  intros H K. pose proof Sync_after_validate as E. rewrite H, K in E.
  eexists. split; [exact E | reflexivity].
Qed.

Lemma Sync_invalid_json configMap data :
  getConfigMap = Ok configMap ->
  corev1.Data configMap !! lookupKey cmSource = Some data ->
  json.Valid enc data = false ->
  failsWith Sync ErrInvalidData.
Proof.
  intros H K V. pose proof Sync_after_validate as E. rewrite H, K in E.
  unfold ConfigMapSourceHandler.unmarshalRegistryData in E.
  unfold json.Valid in V. destruct (json.parse enc data); [discriminate|].
  eexists. split; [exact E | reflexivity].
Qed.

Lemma Sync_hash res :
  Sync = Ok res ->
  exists configMap data,
    getConfigMap = Ok configMap /\
    corev1.Data configMap !! lookupKey cmSource = Some data /\
    ConfigMapSourceHandler.SyncResult.Hash res
      = hex.EncodeToString (sha256.Sum256 data).
Proof.
  intros H. pose proof Sync_after_validate as E.
  destruct getConfigMap as [configMap|err].
  - destruct (corev1.Data configMap !! lookupKey cmSource) as [data|] eqn:K.
    + exists configMap, data. split; [reflexivity|]. split; [exact K|].
      destruct (ConfigMapSourceHandler.unmarshalRegistryData enc parseRFC3339 data).
      * apply E. exact H.
      * rewrite H in E. discriminate E.
    + rewrite H in E. discriminate E.
  - rewrite H in E. destruct err; discriminate E.
Qed.

End ConfigMapSync.

(** C9. For every declaration with a ConfigMap source (type configmap, a
    named ConfigMap), Sync fails with a SourceNotFound error when the
    referenced ConfigMap is absent, fails with a SourceNotFound error when the
    ConfigMap exists but lacks the configured key (registry.json when none is
    configured), fails with an InvalidData error when the bytes at the key are
    not valid JSON, and every result it returns carries the hex-encoded
    SHA-256 of the raw bytes found at the key. *)
Theorem ConfigMapSourceHandler_Sync_errors_and_hash
  (enc : json.Encoding) (parseRFC3339 : string -> option Time) (order : nat)
  (timestamp : string) (reader : kube.Reader)
  (registry : MCPRegistry) (cmSource : ConfigMapRegistrySource.t) :
  MCPRegistrySource.Type_ (Source (Spec registry)) = "configmap" ->
  MCPRegistrySource.ConfigMap (Source (Spec registry)) = Some cmSource ->
  ConfigMapRegistrySource.Name cmSource <> "" ->
  (kube.GetConfigMap reader (ConfigMapRegistrySource.Name cmSource)
     (Observe.lookupNamespace registry cmSource) = Err ErrNotFound ->
   Observe.failsWith
     (ConfigMapSourceHandler.Sync enc parseRFC3339 order timestamp reader registry)
     ErrSourceNotFound) /\
  (forall configMap,
     kube.GetConfigMap reader (ConfigMapRegistrySource.Name cmSource)
       (Observe.lookupNamespace registry cmSource) = Ok configMap ->
     corev1.Data configMap !! Observe.lookupKey cmSource = None ->
     Observe.failsWith
       (ConfigMapSourceHandler.Sync enc parseRFC3339 order timestamp reader registry)
       ErrSourceNotFound) /\
  (forall configMap data,
     kube.GetConfigMap reader (ConfigMapRegistrySource.Name cmSource)
       (Observe.lookupNamespace registry cmSource) = Ok configMap ->
     corev1.Data configMap !! Observe.lookupKey cmSource = Some data ->
     json.Valid enc data = false ->
     Observe.failsWith
       (ConfigMapSourceHandler.Sync enc parseRFC3339 order timestamp reader registry)
       ErrInvalidData) /\
  (forall res,
     ConfigMapSourceHandler.Sync enc parseRFC3339 order timestamp reader registry
       = Ok res ->
     exists configMap data,
       kube.GetConfigMap reader (ConfigMapRegistrySource.Name cmSource)
         (Observe.lookupNamespace registry cmSource) = Ok configMap /\
       corev1.Data configMap !! Observe.lookupKey cmSource = Some data /\
       ConfigMapSourceHandler.SyncResult.Hash res
         = hex.EncodeToString (sha256.Sum256 data)).
Proof.
  intros Ht Hc Hn. split; [|split; [|split]].
  - apply Sync_missing_configmap; assumption.
  - intros configMap. apply Sync_missing_key; assumption.
  - intros configMap data. apply Sync_invalid_json; assumption.
  - intros res. apply Sync_hash; assumption.
Qed.

Lemma ConfigMapSourceHandler_Sync_errors_and_hash_witness :
  Observe.failsWith (Fixtures.syncFrom (Err ErrNotFound)) ErrSourceNotFound /\
  Observe.failsWith
    (Fixtures.syncFrom (Ok (Fixtures.sourceConfigMap "other.json" Fixtures.notJSON)))
    ErrSourceNotFound /\
  Observe.failsWith
    (Fixtures.syncFrom (Ok (Fixtures.sourceConfigMap "registry.json" Fixtures.notJSON)))
    ErrInvalidData /\
  exists res,
    Fixtures.syncFrom
      (Ok (Fixtures.sourceConfigMap "registry.json" Fixtures.canonicalFilesystem))
      = Ok res /\
    ConfigMapSourceHandler.SyncResult.Hash res
      = hex.EncodeToString (sha256.Sum256 Fixtures.canonicalFilesystem).
Proof.
  split; [|split; [|split]].
  - apply (proj1 (ConfigMapSourceHandler_Sync_errors_and_hash json.std
                    Fixtures.sampleRFC3339 0 "2025-09-02T00:17:21Z"
                    (Fixtures.readerOf (Err ErrNotFound) (Err ErrNotFound))
                    (Fixtures.declaration Fixtures.emptyStatus)
                    Fixtures.registryDataSource eq_refl eq_refl ltac:(discriminate))).
    reflexivity.
  - apply (proj1 (proj2 (ConfigMapSourceHandler_Sync_errors_and_hash json.std
                    Fixtures.sampleRFC3339 0 "2025-09-02T00:17:21Z"
                    (Fixtures.readerOf (Err ErrNotFound)
                       (Ok (Fixtures.sourceConfigMap "other.json" Fixtures.notJSON)))
                    (Fixtures.declaration Fixtures.emptyStatus)
                    Fixtures.registryDataSource eq_refl eq_refl ltac:(discriminate)))
             (Fixtures.sourceConfigMap "other.json" Fixtures.notJSON)).
    + vm_compute. reflexivity.
    + vm_compute. reflexivity.
  - apply (proj1 (proj2 (proj2 (ConfigMapSourceHandler_Sync_errors_and_hash json.std
                    Fixtures.sampleRFC3339 0 "2025-09-02T00:17:21Z"
                    (Fixtures.readerOf (Err ErrNotFound)
                       (Ok (Fixtures.sourceConfigMap "registry.json" Fixtures.notJSON)))
                    (Fixtures.declaration Fixtures.emptyStatus)
                    Fixtures.registryDataSource eq_refl eq_refl ltac:(discriminate))))
             (Fixtures.sourceConfigMap "registry.json" Fixtures.notJSON)
             Fixtures.notJSON).
    + vm_compute. reflexivity.
    + vm_compute. reflexivity.
    + vm_compute. reflexivity.
  - destruct (Fixtures.syncFrom
                (Ok (Fixtures.sourceConfigMap "registry.json"
                       Fixtures.canonicalFilesystem))) as [res|e] eqn:E;
      [|vm_compute in E; discriminate E].
    exists res. split; [reflexivity|].
    destruct (proj2 (proj2 (proj2 (ConfigMapSourceHandler_Sync_errors_and_hash json.std
                    Fixtures.sampleRFC3339 0 "2025-09-02T00:17:21Z"
                    (Fixtures.readerOf (Err ErrNotFound)
                       (Ok (Fixtures.sourceConfigMap "registry.json"
                              Fixtures.canonicalFilesystem)))
                    (Fixtures.declaration Fixtures.emptyStatus)
                    Fixtures.registryDataSource eq_refl eq_refl ltac:(discriminate))))
                res E) as (configMap & data & Hg & Hd & Hh).
    vm_compute in Hg. inversion Hg; subst configMap.
    vm_compute in Hd. inversion Hd; subst data.
    exact Hh.
Defined.

(* --------------------------------------------------------------------- *)
(** ** ShouldSync: the shape of every answer *)
(* --------------------------------------------------------------------- *)

(** X1. Whatever the declaration and the checkers, an answer of ShouldSync
    that asks for a sync names no next check time and carries one of the
    seven sync reasons; an answer that asks for none carries no error and one
    of the four skip reasons. So an error is only ever returned together with
    syncNeeded = true, and a next check time only with syncNeeded = false. *)
Theorem ShouldSync_answer_shape (s : sync.Checkers) (now : Time) (r : MCPRegistry) :
  let '(syncNeeded, reason, nextSyncTime, err) := sync.ShouldSync s now r in
  if syncNeeded
  then nextSyncTime = None /\
       In reason [sync.ReasonRegistryNotReady; sync.ReasonSourceDataChanged;
                  sync.ReasonErrorCheckingChanges; sync.ReasonManualWithChanges;
                  sync.ReasonManualNoChanges; sync.ReasonErrorParsingInterval]
  else err = None /\
       In reason [sync.ReasonAlreadyInProgress; sync.ReasonRetryBackoffActive;
                  sync.ReasonUpToDateWithPolicy; sync.ReasonUpToDateNoPolicy].
Proof.
  unfold sync.ShouldSync.
  destruct (String.eqb (Phase (Status r)) MCPRegistryPhaseSyncing);
    [cbn; tauto|].
  destruct (String.eqb (Phase (Status r)) MCPRegistryPhaseReady); cbn.
  - destruct (sync.IsDataChanged s r) as [changed [e|]]; [cbn; tauto|].
    destruct (sync.IsManualSyncRequested s r) as [manual why].
    destruct manual, changed; try (cbn; tauto).
    destruct (SyncPolicy (Spec r)); [|cbn; tauto].
    destruct (sync.IsIntervalSyncNeeded s r) as [[needed next] [e|]]; cbn; tauto.
  - destruct (String.eqb (Phase (Status r)) MCPRegistryPhaseFailed);
      [|cbn; tauto].
    destruct (NextRetryTime (Status r)) as [t|]; [|cbn; tauto].
    destruct (Before now t); cbn; tauto.
Qed.

(* --------------------------------------------------------------------- *)
(** ** calculateRetryInterval: bounds and monotonicity *)
(* --------------------------------------------------------------------- *)

Section BackoffOrder.

Lemma calculateRetryInterval_values a :
  is_int64 a ->
  (a <= 1 /\ sync.calculateRetryInterval a = 300000000000) \/
  (a = 2 /\ sync.calculateRetryInterval a = 600000000000) \/
  (a = 3 /\ sync.calculateRetryInterval a = 1200000000000) \/
  (a = 4 /\ sync.calculateRetryInterval a = 2400000000000) \/
  (5 <= a /\ sync.calculateRetryInterval a = 3600000000000).
Proof.
  intros Ha.
  destruct (Z_le_gt_dec a 0) as [H0|H0].
  { left. split; [lia|]. rewrite calculateRetryInterval_nonpos by lia. reflexivity. }
  destruct (Z_lt_le_dec a 5) as [H5|H5].
  - assert (E : a = 1 \/ a = 2 \/ a = 3 \/ a = 4) by lia.
    destruct E as [-> | [-> | [-> | ->]]].
    + left. split; [lia | reflexivity].
    + right; left. split; reflexivity.
    + right; right; left. split; reflexivity.
    + right; right; right; left. split; reflexivity.
  - right; right; right; right. split; [lia|].
    rewrite calculateRetryInterval_capped by assumption. reflexivity.
Qed.

Lemma calculateRetryInterval_range a :
  is_int64 a -> 5 * Minute <= sync.calculateRetryInterval a <= Hour.
Proof.
  intros Ha. change (5 * Minute) with 300000000000.
  change Hour with 3600000000000.
  destruct (calculateRetryInterval_values a Ha)
    as [[_ E] | [[_ E] | [[_ E] | [[_ E] | [_ E]]]]]; rewrite E; lia.
Qed.

End BackoffOrder.

(** X2. For 64-bit attempt counts the retry interval never falls below five
    minutes, never exceeds one hour, and never decreases when the number of
    attempts grows. *)
Theorem calculateRetryInterval_bounded_monotone (a b : Z) :
  is_int64 a -> is_int64 b -> a <= b ->
  5 * Minute <= sync.calculateRetryInterval a /\
  sync.calculateRetryInterval a <= sync.calculateRetryInterval b /\
  sync.calculateRetryInterval b <= Hour.
Proof.
  intros Ha Hb Hab.
  pose proof (calculateRetryInterval_range a Ha) as Ra.
  pose proof (calculateRetryInterval_range b Hb) as Rb.
  split; [lia | split; [|lia]].
  destruct (calculateRetryInterval_values a Ha)
    as [[Ca Ea] | [[Ca Ea] | [[Ca Ea] | [[Ca Ea] | [Ca Ea]]]]];
  destruct (calculateRetryInterval_values b Hb)
    as [[Cb Eb] | [[Cb Eb] | [[Cb Eb] | [[Cb Eb] | [Cb Eb]]]]];
  rewrite Ea, Eb; lia.
Qed.

Lemma calculateRetryInterval_bounded_monotone_witness :
  5 * Minute <= sync.calculateRetryInterval 2 /\
  sync.calculateRetryInterval 2 <= sync.calculateRetryInterval 7 /\
  sync.calculateRetryInterval 7 <= Hour.
Proof.
  apply (calculateRetryInterval_bounded_monotone 2 7); [int64_lia | int64_lia | lia].
Defined.

(* --------------------------------------------------------------------- *)
(** ** PerformSync: what a run writes *)
(* --------------------------------------------------------------------- *)

Section ConditionLookup.

Import Watch.

Lemma SetStatusCondition_conditionStatus now conds c t :
  conditionStatus (meta.SetStatusCondition now conds c) t
  = if String.eqb (metav1.Type_ c) t then Some (metav1.Status c)
    else conditionStatus conds t.
Proof.
  induction conds as [|x rest IH]; cbn.
  - reflexivity.
  - destruct (String.eqb_spec (metav1.Type_ x) (metav1.Type_ c)) as [E|E]; cbn.
    + rewrite E. destruct (String.eqb (metav1.Type_ c) t); reflexivity.
    + rewrite IH.
      destruct (String.eqb_spec (metav1.Type_ x) t) as [F|F];
        destruct (String.eqb_spec (metav1.Type_ c) t) as [G|G];
        congruence.
Qed.

End ConditionLookup.

Section PerformSyncRun.

Import Observe Watch.

Variable s : sync.DefaultSyncManager.
Variable now : Time.

Lemma applyFilteringIfConfigured_ok c obj fr c1 obj1 fr1 :
  sync.applyFilteringIfConfigured s now c obj fr = (None, c1, obj1, fr1) ->
  client.object c1 = client.object c /\ client.artifact c1 = client.artifact c /\
  client.faults c1 = client.faults c /\ obj1 = obj.
Proof.
  unfold sync.applyFilteringIfConfigured. intros E.
  destruct (Filter (Spec obj)) as [f|]; [|inversion E; subst; auto].
  destruct (sync.ApplyFilters s _ f) as [reg|err].
  - inversion E; subst. auto.
  - destruct (sync.updatePhaseFailedWithCondition now _ obj _ _ _ _)
      as [[ue cu] ou]. inversion E.
Qed.

Lemma fetchAndProcessRegistryData_ok c obj x c1 obj1 :
  sync.fetchAndProcessRegistryData s now c obj = (Ok x, c1, obj1) ->
  client.object c1 = client.object c /\ client.artifact c1 = client.artifact c /\
  client.faults c1 = client.faults c /\
  exists src, obj1 = with_Source obj src.
Proof.
  unfold sync.fetchAndProcessRegistryData. intros E.
  destruct (sync.CreateHandler s _) as [h|err].
  - destruct (sync.Validate h _ _) as [verr src].
    destruct verr as [verr|].
    + destruct (sync.updatePhaseFailedWithCondition now _ _ _ _ _ _)
        as [[ue cu] ou]. inversion E.
    + destruct (sync.FetchRegistry h _ _) as [fr|ferr].
      * destruct (sync.applyFilteringIfConfigured s now _ _ fr)
          as [[[fe cf] ob] fr1] eqn:F.
        destruct fe as [fe|]; [inversion E|].
        apply applyFilteringIfConfigured_ok in F.
        destruct F as (Fo & Fa & Ff & ->).
        inversion E; subst. cbn in *. eauto.
      * destruct (sync.updatePhaseFailedWithCondition now _ _ _ _ _ _)
          as [[ue cu] ou]. inversion E.
  - destruct (sync.updatePhaseFailedWithCondition now _ _ _ _ _ _)
      as [[ue cu] ou]. inversion E.
Qed.

Lemma Store_failed_artifact c reg e c1 :
  client.Store c reg = (Some e, c1) -> client.artifact c1 = client.artifact c.
Proof.
  unfold client.Store. destruct (client.nextFault c client.CallStore) as [f c'] eqn:F.
  apply nextFault_artifact in F.
  destruct f; intros E; inversion E; subst. exact F.
Qed.

(** The decisions of a run: a failed step, which leaves the artifact alone and
    retries after one hour or after the backoff interval of the attempts made
    so far; or the success update, after the fetched registry was stored. *)
Lemma composeStatusUpdate_decisions c obj u c1 obj1 :
  sync.composeStatusUpdate s now c obj = (u, c1, obj1) ->
  (exists limit what ct rs err interval,
      u = sync.failedStep now obj1 limit what ct rs err interval /\
      client.artifact c1 = client.artifact c /\
      (interval = Hour * 1 \/
       interval = sync.calculateRetryInterval (SyncAttempts (Status obj)))) \/
  (exists fr src,
      u = sync.successUpdate s now obj1 fr /\
      obj1 = with_Source obj src /\
      client.object c1 = client.object c /\
      client.artifact c1 = Some (sync.FetchResult.Registry fr)).
Proof.
  unfold sync.composeStatusUpdate. intros E.
  destruct (sync.fetchAndProcessRegistryData s now c obj) as [[res cf] ob] eqn:F.
  destruct res as [[fr0 h]|err].
  - apply fetchAndProcessRegistryData_ok in F.
    destruct F as (Fo & Fa & Ff & src0 & ->).
    destruct (sync.Validate h _ _) as [verr src].
    destruct verr as [verr|].
    + inversion E; subst. left. do 6 eexists.
      split; [reflexivity|]. split; [exact Fa|]. left. reflexivity.
    + destruct (sync.FetchRegistry h _ _) as [fr|ferr].
      * destruct (client.Store _ _) as [serr cs] eqn:S.
        pose proof (Store_object _ _ _ _ S) as So.
        destruct serr as [serr|].
        -- apply Store_failed_artifact in S.
           inversion E; subst. left. do 6 eexists.
           split; [reflexivity|]. split; [cbn in *; congruence|].
           right. reflexivity.
        -- inversion E; subst. right. exists fr, src.
           split; [reflexivity|]. split; [reflexivity|].
           split; [cbn in *; congruence|].
           unfold client.Store in S.
           destruct (client.nextFault _ _) as [f c'] in S.
           destruct f; inversion S. reflexivity.
      * inversion E; subst. left. do 6 eexists.
        split; [reflexivity|]. split; [exact Fa|]. right. reflexivity.
  - apply fetchAndProcessRegistryData_frame in F. destruct F as [_ Fa].
    inversion E; subst. left. do 6 eexists.
    split; [reflexivity|]. split; [exact Fa|]. left. reflexivity.
Qed.

(** A final update that is written stores the composed status and answers
    with the retry result of the update. *)
Lemma applyFinalStatusUpdate_written c obj u r c1 obj1 o :
  sync.applyFinalStatusUpdate now c obj u = (r, None, c1, obj1) ->
  client.object c = Some o ->
  client.object c1 = Some (with_Status o (sync.finalStatus now (Status o) u)) /\
  client.artifact c1 = client.artifact c /\
  r = match sync.statusUpdate.RetryResult u with
      | Some r => r
      | None => ctrl.empty
      end.
Proof.
  unfold sync.applyFinalStatusUpdate. intros E Ho.
  destruct (client.Get c obj) as [[ge cg] og] eqn:G.
  apply Get_object in G. destruct G as (Go & Ga & Gs).
  destruct ge as [ge|]; [inversion E|].
  specialize (Gs eq_refl). assert (og = o) by congruence. subst og.
  destruct (client.StatusUpdate cg _) as [ue cu] eqn:U.
  pose proof (StatusUpdate_object _ _ _ _ U) as [Ua _].
  eapply StatusUpdate_cases in U; [|rewrite Go; exact Ho].
  destruct ue as [ue|]; [inversion E|].
  destruct U as [[_ Uo] | [Ue _]]; [|congruence].
  assert (c1 = cu) by (destruct (sync.statusUpdate.RetryResult u); inversion E; auto).
  subst c1. split; [exact Uo|]. split; [congruence|].
  destruct (sync.statusUpdate.RetryResult u); inversion E; reflexivity.
Qed.

Lemma finalStatus_successUpdate st obj fr :
  let st' := sync.finalStatus now st (sync.successUpdate s now obj fr) in
  Phase st' = MCPRegistryPhaseReady /\
  Message st' = "Registry is ready and synchronized" /\
  SyncAttempts st' = 0 /\
  NextRetryTime st' = None /\
  LastSyncTime st' = Some now /\
  (sync.FetchResult.Hash fr <> "" -> LastSyncHash st' = sync.FetchResult.Hash fr) /\
  conditionStatus (Conditions st') ConditionSourceAvailable = Some metav1.ConditionTrue /\
  conditionStatus (Conditions st') ConditionDataValid = Some metav1.ConditionTrue /\
  conditionStatus (Conditions st') ConditionSyncSuccessful = Some metav1.ConditionTrue.
Proof.
  cbv zeta. unfold sync.finalStatus, sync.successUpdate, sync.applySyncData. cbn.
  repeat rewrite SetStatusCondition_conditionStatus. cbn.
  destruct (String.eqb_spec (sync.FetchResult.Hash fr) "") as [Eh|Eh];
  destruct (sync.FetchResult.ServerCount fr >? 0);
  destruct (sync.GetStorageReference s obj);
  destruct (Annotations obj !! sync.SyncTriggerAnnotation) as [v|];
  cbn; try destruct (String.eqb v ""); cbn;
  repeat split; try reflexivity; intros; congruence.
Qed.

End PerformSyncRun.
Section PerformSyncSuccess.

Variable s : sync.DefaultSyncManager.
Variable now : Time.

(** The handler a successful first phase returns is the one the factory
    created for the source type of the declaration. *)
Lemma fetchAndProcessRegistryData_handler c obj fr0 h c1 obj1 :
  sync.fetchAndProcessRegistryData s now c obj = (Ok (fr0, h), c1, obj1) ->
  sync.CreateHandler s (MCPRegistrySource.Type_ (Source (Spec obj))) = Ok h.
Proof.
  unfold sync.fetchAndProcessRegistryData.
  destruct (sync.CreateHandler s _) as [h0|err].
  - destruct (sync.Validate h0 _ _) as [verr src].
    destruct verr as [verr|].
    + destruct (sync.updatePhaseFailedWithCondition now _ _ _ _ _ _)
        as [[ue cu] ou]. intros E; inversion E.
    + destruct (sync.FetchRegistry h0 _ _) as [fr|ferr].
      * destruct (sync.applyFilteringIfConfigured s now _ _ fr)
          as [[[fe cf] ob] fr1].
        destruct fe as [fe|]; intros E; inversion E. reflexivity.
      * destruct (sync.updatePhaseFailedWithCondition now _ _ _ _ _ _)
          as [[ue cu] ou]. intros E; inversion E.
  - destruct (sync.updatePhaseFailedWithCondition now _ _ _ _ _ _)
      as [[ue cu] ou]. intros E; inversion E.
Qed.

(** A run that decides on success: the update is the success update of the
    result of the run's own fetch, made with the handler of the factory, and
    the registry of that result is what was stored. *)
Lemma composeStatusUpdate_success c obj u c1 obj1 :
  sync.composeStatusUpdate s now c obj = (u, c1, obj1) ->
  sync.statusUpdate.Phase u = MCPRegistryPhaseReady ->
  exists h fr src,
    sync.CreateHandler s (MCPRegistrySource.Type_ (Source (Spec obj))) = Ok h /\
    sync.FetchRegistry h 1%nat (with_Source obj src) = Ok fr /\
    u = sync.successUpdate s now obj1 fr /\
    obj1 = with_Source obj src /\
    client.object c1 = client.object c /\
    client.artifact c1 = Some (sync.FetchResult.Registry fr).
Proof.
  unfold sync.composeStatusUpdate. intros E.
  destruct (sync.fetchAndProcessRegistryData s now c obj) as [[res cf] ob] eqn:F.
  destruct res as [[fr0 h]|err].
  - pose proof (fetchAndProcessRegistryData_handler _ _ _ _ _ _ F) as Hh.
    apply fetchAndProcessRegistryData_ok in F.
    destruct F as (Fo & Fa & Ff & src0 & ->).
    destruct (sync.Validate h _ _) as [verr src].
    destruct verr as [verr|].
    + inversion E; subst.
      rewrite (proj2 (failedStep_carriesNoSyncRecord _ _ _ _ _ _ _ _)).
      discriminate.
    + destruct (sync.FetchRegistry h _ _) as [fr|ferr] eqn:R.
      * destruct (client.Store _ _) as [serr cs] eqn:S.
        pose proof (Store_object _ _ _ _ S) as So.
        destruct serr as [serr|].
        -- inversion E; subst.
           rewrite (proj2 (failedStep_carriesNoSyncRecord _ _ _ _ _ _ _ _)).
           discriminate.
        -- inversion E; subst. intros _. exists h, fr, src.
           split; [exact Hh|]. split; [exact R|].
           split; [reflexivity|]. split; [reflexivity|].
           split; [cbn in *; congruence|].
           unfold client.Store in S.
           destruct (client.nextFault _ _) as [f c'] in S.
           destruct f; inversion S. reflexivity.
      * inversion E; subst.
        rewrite (proj2 (failedStep_carriesNoSyncRecord _ _ _ _ _ _ _ _)).
        discriminate.
  - inversion E; subst.
    rewrite (proj2 (failedStep_carriesNoSyncRecord _ _ _ _ _ _ _ _)).
    discriminate.
Qed.

End PerformSyncSuccess.

(** X3. A run of PerformSync that decides on success and whose final status
    write succeeds asks for no requeue and leaves the cluster as follows: a
    storage artifact is stored; the stored declaration is in phase Ready with
    syncAttempts 0, no nextRetryTime, lastSyncTime = now and the conditions
    SourceAvailable, DataValid and SyncSuccessful all True; its spec and
    annotations are the stored ones (defaults filled in by Validate are not
    persisted). When no filter is configured and the handler the factory
    creates for the declaration answers every fetch with the same result, the
    artifact is the registry of that result and lastSyncHash is its hash
    (when that is not empty). *)
Theorem PerformSync_success_record (s : sync.DefaultSyncManager) (now : Time)
  (c : client.Cluster) (obj o : MCPRegistry) :
  client.object c = Some o ->
  sync.statusUpdate.Phase (Observe.decision s now c obj) = MCPRegistryPhaseReady ->
  snd (Observe.resultOfPerformSync s now c obj) = None ->
  fst (Observe.resultOfPerformSync s now c obj) = ctrl.empty /\
  exists o' reg,
    client.object (Observe.afterPerformSync s now c obj) = Some o' /\
    client.artifact (Observe.afterPerformSync s now c obj) = Some reg /\
    Spec o' = Spec o /\ Annotations o' = Annotations o /\
    Phase (Status o') = MCPRegistryPhaseReady /\
    SyncAttempts (Status o') = 0 /\
    NextRetryTime (Status o') = None /\
    LastSyncTime (Status o') = Some now /\
    Forall (fun t => Watch.conditionStatus (Conditions (Status o')) t
                     = Some metav1.ConditionTrue)
      [ConditionSourceAvailable; ConditionDataValid; ConditionSyncSuccessful] /\
    (forall h fr,
       Filter (Spec obj) = None ->
       sync.CreateHandler s (MCPRegistrySource.Type_ (Source (Spec obj))) = Ok h ->
       (forall call registry, sync.FetchRegistry h call registry = Ok fr) ->
       reg = sync.FetchResult.Registry fr /\
       (sync.FetchResult.Hash fr <> "" ->
        LastSyncHash (Status o') = sync.FetchResult.Hash fr)).
Proof.
  intros Ho. unfold Observe.decision, Observe.resultOfPerformSync,
    Observe.afterPerformSync, sync.PerformSync.
  destruct (sync.composeStatusUpdate s now c obj) as [[u c1] obj1] eqn:E.
  cbn [fst snd]. intros Hp.
  destruct (composeStatusUpdate_success s now _ _ _ _ _ E Hp)
    as (h & fr & src & Hh & Hf & -> & -> & Eo & Ea).
  destruct (sync.applyFinalStatusUpdate now c1 _ _) as [[[r e] c2] obj2] eqn:A.
  cbn [fst snd]. intros ->.
  eapply applyFinalStatusUpdate_written in A; [|rewrite Eo; exact Ho].
  destruct A as (Ao & Aa & ->). split; [reflexivity|].
  eexists; exists (sync.FetchResult.Registry fr).
  split; [exact Ao|]. split; [congruence|].
  split; [reflexivity|]. split; [reflexivity|].
  pose proof (finalStatus_successUpdate s now (Status o) (with_Source obj src) fr) as F.
  cbv zeta in F. destruct F as (F1 & _ & F3 & F4 & F5 & F6 & F7 & F8 & F9).
  cbn [Status with_Status].
  split; [exact F1|]. split; [exact F3|]. split; [exact F4|]. split; [exact F5|].
  split.
  { constructor; [exact F7|]. constructor; [exact F8|]. constructor; [exact F9|].
    constructor. }
  intros h' fr' _ Hh' Hall.
  assert (fr = fr').
  { rewrite Hh in Hh'. injection Hh' as <-. rewrite Hall in Hf. congruence. }
  subst fr'. split; [reflexivity | exact F6].
Qed.

Lemma PerformSync_success_record_witness :
  exists o',
    client.object
      (Observe.afterPerformSync Fixtures.emptySource 700
         (Fixtures.clusterOf (Fixtures.declaration (Fixtures.failedStatus 2)))
         (Fixtures.declaration (Fixtures.failedStatus 2))) = Some o' /\
    client.artifact
      (Observe.afterPerformSync Fixtures.emptySource 700
         (Fixtures.clusterOf (Fixtures.declaration (Fixtures.failedStatus 2)))
         (Fixtures.declaration (Fixtures.failedStatus 2)))
      = Some Fixtures.emptyRegistry /\
    Phase (Status o') = MCPRegistryPhaseReady /\
    SyncAttempts (Status o') = 0 /\
    LastSyncTime (Status o') = Some 700 /\
    LastSyncHash (Status o') = "e3b0c442".
Proof.
  destruct (PerformSync_success_record Fixtures.emptySource 700
              (Fixtures.clusterOf (Fixtures.declaration (Fixtures.failedStatus 2)))
              (Fixtures.declaration (Fixtures.failedStatus 2))
              (Fixtures.declaration (Fixtures.failedStatus 2)))
    as (_ & o' & reg & H1 & H2 & _ & _ & H3 & H4 & _ & H5 & _ & H6).
  - reflexivity.
  - reflexivity.
  - reflexivity.
  - destruct (H6 (Fixtures.handlerFetching (Ok Fixtures.emptyFetch)) Fixtures.emptyFetch)
      as [H7 H8].
    + reflexivity.
    + reflexivity.
    + intros call registry. reflexivity.
    + exists o'. rewrite H7 in H2.
      split; [exact H1|]. split; [exact H2|]. split; [exact H3|].
      split; [exact H4|]. split; [exact H5|].
      apply H8. discriminate.
Defined.
(** X4. A run of PerformSync that decides on a failed step and whose final
    status write succeeds leaves the declaration in phase Failed and either
    gives up (no requeue, nextRetryTime cleared) or schedules one retry: the
    requeue delay lies between five minutes and one hour and the stored
    nextRetryTime is now plus that delay. *)
Theorem PerformSync_failure_schedule (s : sync.DefaultSyncManager) (now : Time)
  (c : client.Cluster) (obj o : MCPRegistry) :
  client.object c = Some o ->
  is_int64 (SyncAttempts (Status obj)) ->
  sync.statusUpdate.Phase (Observe.decision s now c obj) = MCPRegistryPhaseFailed ->
  snd (Observe.resultOfPerformSync s now c obj) = None ->
  exists o' delay,
    client.object (Observe.afterPerformSync s now c obj) = Some o' /\
    fst (Observe.resultOfPerformSync s now c obj) = ctrl.after delay /\
    Phase (Status o') = MCPRegistryPhaseFailed /\
    ((delay = 0 /\ NextRetryTime (Status o') = None) \/
     (5 * Minute <= delay <= Hour /\
      NextRetryTime (Status o') = Some (Add now delay))).
Proof.
  intros Ho Hi. unfold Observe.decision, Observe.resultOfPerformSync,
    Observe.afterPerformSync, sync.PerformSync.
  destruct (sync.composeStatusUpdate s now c obj) as [[u c1] obj1] eqn:E.
  pose proof (composeStatusUpdate_cases _ _ _ _ _ _ _ E) as [Hs _].
  apply composeStatusUpdate_decisions in E. cbn [fst snd].
  destruct E as [(limit & what & ct & rs & err & interval & -> & _ & Hint)
                | (fr & src & -> & _)]; [|cbn; discriminate].
  intros _.
  destruct (storedLastSync_fields _ _ _ Ho Hs) as (o1 & Ho1 & _).
  destruct (sync.applyFinalStatusUpdate now c1 _ _) as [[[r e] c2] obj2] eqn:A.
  cbn [fst snd]. intros ->.
  eapply applyFinalStatusUpdate_written in A; [|exact Ho1].
  destruct A as (Ao & _ & ->).
  assert (Hr : 5 * Minute <= interval <= Hour).
  { destruct Hint as [-> | ->].
    - vm_compute. split; discriminate.
    - apply calculateRetryInterval_range. exact Hi. }
  revert Ao. unfold sync.failedStep.
  destruct (SyncAttempts (Status obj1) >=? limit);
    rewrite finalStatus_failureUpdate; intros Ao.
  - eexists; exists 0. split; [exact Ao|]. split; [reflexivity|].
    split; [reflexivity|]. left. split; reflexivity.
  - eexists; exists interval. split; [exact Ao|]. split; [reflexivity|].
    split; [reflexivity|]. right. split; [exact Hr | reflexivity].
Qed.

Lemma PerformSync_failure_schedule_witness :
  exists o' delay,
    client.object
      (Observe.afterPerformSync Fixtures.flakySource 700
         (Fixtures.clusterOf (Fixtures.declaration (Fixtures.failedStatus 2)))
         (Fixtures.declaration (Fixtures.failedStatus 2))) = Some o' /\
    fst (Observe.resultOfPerformSync Fixtures.flakySource 700
           (Fixtures.clusterOf (Fixtures.declaration (Fixtures.failedStatus 2)))
           (Fixtures.declaration (Fixtures.failedStatus 2))) = ctrl.after delay /\
    ((delay = 0 /\ NextRetryTime (Status o') = None) \/
     (5 * Minute <= delay <= Hour /\
      NextRetryTime (Status o') = Some (Add 700 delay))).
Proof.
  destruct (PerformSync_failure_schedule Fixtures.flakySource 700
              (Fixtures.clusterOf (Fixtures.declaration (Fixtures.failedStatus 2)))
              (Fixtures.declaration (Fixtures.failedStatus 2))
              (Fixtures.declaration (Fixtures.failedStatus 2)))
    as (o' & delay & H1 & H2 & _ & H3).
  - reflexivity.
  - vm_compute. split; discriminate.
  - reflexivity.
  - reflexivity.
  - exists o', delay. auto.
Defined.

(** X5. A run of PerformSync that decides on a failed step never touches the
    storage artifact: whatever was stored before the attempt is still stored
    after it, whether or not the status could be written. *)
Theorem PerformSync_failure_keeps_artifact (s : sync.DefaultSyncManager) (now : Time)
  (c : client.Cluster) (obj : MCPRegistry) :
  sync.statusUpdate.Phase (Observe.decision s now c obj) = MCPRegistryPhaseFailed ->
  client.artifact (Observe.afterPerformSync s now c obj) = client.artifact c.
Proof.
  unfold Observe.decision, Observe.afterPerformSync, sync.PerformSync.
  destruct (sync.composeStatusUpdate s now c obj) as [[u c1] obj1] eqn:E.
  apply composeStatusUpdate_decisions in E. cbn [fst snd].
  destruct E as [(limit & what & ct & rs & err & interval & -> & Ha & _)
                | (fr & src & -> & _)]; [|cbn; discriminate].
  intros _.
  destruct (sync.applyFinalStatusUpdate now c1 _ _) as [[[r e] c2] obj2] eqn:A.
  apply applyFinalStatusUpdate_frame in A;
    [|apply failedStep_carriesNoSyncRecord].
  cbn. destruct A as [_ A]. congruence.
Qed.

Lemma PerformSync_failure_keeps_artifact_witness :
  client.artifact
    (Observe.afterPerformSync Fixtures.unreachableSource 700
       (Fixtures.deleting []) Fixtures.deleted)
  = Some Fixtures.emptyRegistry.
Proof.
  apply (PerformSync_failure_keeps_artifact Fixtures.unreachableSource 700
           (Fixtures.deleting []) Fixtures.deleted).
  reflexivity.
Defined.
Section QuietCluster.

Import Observe Watch.

Variable s : sync.DefaultSyncManager.
Variable now : Time.

Lemma Get_quiet c obj o :
  client.faults c = [] -> client.object c = Some o ->
  exists c1, client.Get c obj = (None, c1, o) /\
             client.faults c1 = [] /\ client.object c1 = Some o.
Proof.
  intros Hf Ho. unfold client.Get, client.nextFault. rewrite Hf. cbn. rewrite Ho.
  eexists. split; [reflexivity|]. cbn. auto.
Qed.

Lemma StatusUpdate_quiet c obj o :
  client.faults c = [] -> client.object c = Some o ->
  exists c1, client.StatusUpdate c obj = (None, c1) /\
             client.faults c1 = [] /\
             client.object c1 = Some (with_Status o (Status obj)).
Proof.
  intros Hf Ho. unfold client.StatusUpdate, client.nextFault. rewrite Hf. cbn.
  rewrite Ho. eexists. split; [reflexivity|]. cbn. auto.
Qed.

(** With every API call succeeding, the immediate failure record stores the
    declaration it returns, with the stored attempt counter raised by one. *)
Lemma updatePhaseFailedWithCondition_quiet c obj o m ct rs cm :
  client.faults c = [] -> client.object c = Some o ->
  exists c1 obj1,
    sync.updatePhaseFailedWithCondition now c obj m ct rs cm = (None, c1, obj1) /\
    client.faults c1 = [] /\ client.object c1 = Some obj1 /\
    SyncAttempts (Status obj1) = wrap64 (SyncAttempts (Status o) + 1).
Proof.
  intros Hf Ho. unfold sync.updatePhaseFailedWithCondition.
  destruct (Get_quiet c obj o Hf Ho) as (cg & -> & Gf & Go).
  match goal with
  | |- context [client.StatusUpdate cg ?x] =>
      destruct (StatusUpdate_quiet cg x o Gf Go) as (cu & -> & Uf & Uo)
  end.
  do 2 eexists. split; [reflexivity|]. split; [exact Uf|].
  split; [exact Uo | reflexivity].
Qed.

Lemma fetchAndProcessRegistryData_failed_quiet c obj o e c1 obj1 :
  client.faults c = [] -> client.object c = Some o ->
  sync.fetchAndProcessRegistryData s now c obj = (Err e, c1, obj1) ->
  client.faults c1 = [] /\ client.object c1 = Some obj1 /\
  SyncAttempts (Status obj1) = wrap64 (SyncAttempts (Status o) + 1).
Proof.
  intros Hf Ho. unfold sync.fetchAndProcessRegistryData.
  destruct (sync.CreateHandler s _) as [h|err].
  - destruct (sync.Validate h _ _) as [verr src].
    destruct verr as [verr|].
    + match goal with
      | |- context [sync.updatePhaseFailedWithCondition now ?cc ?ob ?m ?ct ?rs ?cm] =>
          destruct (updatePhaseFailedWithCondition_quiet cc ob o m ct rs cm Hf Ho)
            as (cu & ou & -> & Uf & Uo & Ua)
      end.
      intros E; inversion E; subst. auto.
    + destruct (sync.FetchRegistry h _ _) as [fr|ferr].
      * unfold sync.applyFilteringIfConfigured. cbn [Spec with_Source Filter].
        destruct (Filter (Spec obj)) as [f|]; [|intros E; inversion E].
        destruct (sync.ApplyFilters s _ f) as [reg|ferr]; [intros E; inversion E|].
        match goal with
        | |- context [sync.updatePhaseFailedWithCondition now ?cc ?ob ?m ?ct ?rs ?cm] =>
            destruct (updatePhaseFailedWithCondition_quiet cc ob o m ct rs cm Hf Ho)
              as (cu & ou & -> & Uf & Uo & Ua)
        end.
        intros E; inversion E; subst. auto.
      * match goal with
        | |- context [sync.updatePhaseFailedWithCondition now ?cc ?ob ?m ?ct ?rs ?cm] =>
            destruct (updatePhaseFailedWithCondition_quiet cc ob o m ct rs cm Hf Ho)
              as (cu & ou & -> & Uf & Uo & Ua)
        end.
        intros E; inversion E; subst. auto.
  - match goal with
    | |- context [sync.updatePhaseFailedWithCondition now ?cc ?ob ?m ?ct ?rs ?cm] =>
        destruct (updatePhaseFailedWithCondition_quiet cc ob o m ct rs cm Hf Ho)
          as (cu & ou & -> & Uf & Uo & Ua)
    end.
    intros E; inversion E; subst. auto.
Qed.

End QuietCluster.

(** X6. When the first phase of PerformSync fails (handler creation, source
    validation, fetch or filtering) and every API call succeeds, the failure
    is counted twice: once by the immediate failure record and once more by
    the final status update, so the stored syncAttempts ends two above its
    value before the run. *)
Theorem PerformSync_first_phase_failure_counts_twice
  (s : sync.DefaultSyncManager) (now : Time)
  (c : client.Cluster) (obj o : MCPRegistry) :
  client.faults c = [] ->
  client.object c = Some o ->
  Watch.fetchFailed s now c obj ->
  exists o',
    client.object (Observe.afterPerformSync s now c obj) = Some o' /\
    Phase (Status o') = MCPRegistryPhaseFailed /\
    SyncAttempts (Status o') = wrap64 (wrap64 (SyncAttempts (Status o) + 1) + 1).
Proof.
  intros Hf Ho [e He].
  unfold Observe.afterPerformSync, sync.PerformSync, sync.composeStatusUpdate.
  destruct (sync.fetchAndProcessRegistryData s now c obj) as [[res c1] obj1] eqn:F.
  cbn in He. subst res.
  apply (fetchAndProcessRegistryData_failed_quiet s now c obj o) in F;
    [|assumption|assumption].
  destruct F as (Ff & Fo & Fa).
  unfold sync.applyFinalStatusUpdate.
  destruct (Get_quiet c1 obj1 obj1 Ff Fo) as (cg & -> & Gf & Go).
  match goal with
  | |- context [client.StatusUpdate cg ?x] =>
      destruct (StatusUpdate_quiet cg x obj1 Gf Go) as (cu & -> & Uf & Uo)
  end.
  cbn [Status with_Status] in Uo.
  unfold sync.failedStep in *.
  destruct (SyncAttempts (Status obj1) >=? sync.MaxHandlerCreationRetries);
    rewrite finalStatus_failureUpdate in Uo; cbn;
    (eexists; split; [exact Uo|]); cbn; rewrite Fa; auto.
Qed.

Lemma PerformSync_first_phase_failure_counts_twice_witness :
  exists o',
    client.object
      (Observe.afterPerformSync Fixtures.unreachableSource 700
         (Fixtures.clusterOf (Fixtures.declaration (Fixtures.failedStatus 1)))
         (Fixtures.declaration (Fixtures.failedStatus 1))) = Some o' /\
    Phase (Status o') = MCPRegistryPhaseFailed /\
    SyncAttempts (Status o') = 3.
Proof.
  apply (PerformSync_first_phase_failure_counts_twice Fixtures.unreachableSource 700
           (Fixtures.clusterOf (Fixtures.declaration (Fixtures.failedStatus 1)))
           (Fixtures.declaration (Fixtures.failedStatus 1))
           (Fixtures.declaration (Fixtures.failedStatus 1))).
  - reflexivity.
  - reflexivity.
  - exists Fixtures.connectionRefused. reflexivity.
Defined.

(* --------------------------------------------------------------------- *)
(** ** The controller: what a reconcile does before and instead of a sync *)
(* --------------------------------------------------------------------- *)

Section ReconcileEdges.

Import Observe.

Variable r : controllers.MCPRegistryReconciler.
Variable now : Time.

Lemma ShouldSync_skip_no_error (s : sync.Checkers) o reason next err :
  sync.ShouldSync s now o = (false, reason, next, err) -> err = None.
Proof.
  unfold sync.ShouldSync.
  destruct (String.eqb (Phase (Status o)) MCPRegistryPhaseSyncing);
    [intros E; inversion E; reflexivity|].
  destruct (String.eqb (Phase (Status o)) MCPRegistryPhaseReady); cbn.
  - destruct (sync.IsDataChanged s o) as [changed [e|]]; [intros E; inversion E|].
    destruct (sync.IsManualSyncRequested s o) as [manual why].
    destruct manual, changed; try (intros E; inversion E; fail).
    destruct (SyncPolicy (Spec o)); [|intros E; inversion E; reflexivity].
    destruct (sync.IsIntervalSyncNeeded s o) as [[needed nx] [e|]];
      intros E; inversion E; reflexivity.
  - destruct (String.eqb (Phase (Status o)) MCPRegistryPhaseFailed);
      [|intros E; inversion E].
    destruct (NextRetryTime (Status o)) as [t|]; [|intros E; inversion E].
    destruct (Before now t); intros E; inversion E; reflexivity.
Qed.

End ReconcileEdges.

(** X7. The first reconcile of a declaration that does not yet hold the
    finalizer only attaches it: with every API call succeeding, Reconcile
    appends the finalizer to the stored declaration, leaves its status, spec
    and the storage artifact untouched, makes no sync call (one read, one
    update) and returns no error and no requeue. *)
Theorem Reconcile_attaches_finalizer_first (r : controllers.MCPRegistryReconciler)
  (now : Time) (c : client.Cluster) (o : MCPRegistry) :
  client.faults c = [] ->
  client.object c = Some o ->
  DeletionTimestamp o = None ->
  controllerutil.ContainsFinalizer o controllers.MCPRegistryFinalizer = false ->
  controllers.Reconcile r now c
  = (ctrl.empty, None,
     {| client.object :=
          Some (with_Finalizers o
                  (Finalizers o ++ [controllers.MCPRegistryFinalizer])%list);
        client.artifact := client.artifact c;
        client.faults := [];
        client.trace :=
          (client.trace c ++ [client.CallGet; client.CallUpdate])%list |}).
Proof.
  intros Hf Ho Hd Hc.
  unfold controllers.Reconcile, client.Get, client.nextFault. rewrite Hf. cbn.
  rewrite Ho. cbn. rewrite Hd, Hc. cbn.
  unfold controllerutil.AddFinalizer. rewrite Hc.
  unfold client.Update, client.nextFault. cbn. rewrite Hf. cbn.
  rewrite Ho. rewrite Hd.
  unfold client.with_object, client.called. cbn. rewrite Hf.
  rewrite <- List.app_assoc. reflexivity.
Qed.

Lemma Reconcile_attaches_finalizer_first_witness :
  Observe.finalizerAttached
    (Observe.afterReconcile Fixtures.reconciler 700
       (Fixtures.clusterOf
          (with_Finalizers (Fixtures.declaration Fixtures.emptyStatus) ["other"]))).
Proof.
  unfold Observe.afterReconcile.
  rewrite (Reconcile_attaches_finalizer_first Fixtures.reconciler 700
             (Fixtures.clusterOf
                (with_Finalizers (Fixtures.declaration Fixtures.emptyStatus) ["other"]))
             (with_Finalizers (Fixtures.declaration Fixtures.emptyStatus) ["other"])
             eq_refl eq_refl eq_refl eq_refl).
  eexists. split; reflexivity.
Defined.
(** X8. When ShouldSync answers that no sync is needed, reconcileSync only
    reads: after the refresh it makes no further call, leaves the stored
    declaration and the storage artifact as they are, returns no error, and
    asks to be requeued at the next check time when ShouldSync named one
    (after nextSyncTime - now), and not at all otherwise. *)
Theorem reconcileSync_skip_only_reads (r : controllers.MCPRegistryReconciler)
  (now : Time) (c : client.Cluster) (obj o : MCPRegistry)
  (reason : string) (next : option Time) (err : option error) :
  client.object c = Some o ->
  fst (fst (client.Get c obj)) = None ->
  sync.ShouldSync (sync.checkers (controllers.syncManager r)) now o
    = (false, reason, next, err) ->
  Observe.resultOfReconcileSync r now c obj
    = match next with
      | Some t => ctrl.after (t - now)
      | None => ctrl.empty
      end /\
  Observe.errorOfReconcileSync r now c obj = None /\
  client.object (Observe.afterReconcileSync r now c obj) = Some o /\
  client.artifact (Observe.afterReconcileSync r now c obj) = client.artifact c /\
  client.trace (Observe.afterReconcileSync r now c obj)
    = (client.trace c ++ [client.CallGet])%list.
Proof.
  intros Ho Hg Hs.
  unfold Observe.resultOfReconcileSync, Observe.errorOfReconcileSync,
    Observe.afterReconcileSync, controllers.reconcileSync.
  destruct (client.Get c obj) as [[ge cg] og] eqn:G.
  cbn in Hg. subst ge.
  pose proof (Get_trace _ _ _ _ _ G) as Gt.
  apply Get_object in G. destruct G as (Go & Ga & Gs).
  specialize (Gs eq_refl). assert (og = o) by congruence. subst og.
  rewrite Hs. rewrite (ShouldSync_skip_no_error now _ _ _ _ _ Hs). cbn.
  destruct next; cbn; repeat split; congruence.
Qed.

Lemma reconcileSync_skip_only_reads_witness :
  Observe.resultOfReconcileSync Fixtures.reconciler 100
    (Fixtures.clusterOf (Fixtures.inPhase "Failed" (Some 400)))
    (Fixtures.inPhase "Failed" (Some 400))
  = ctrl.after (400 - 100) /\
  client.trace
    (Observe.afterReconcileSync Fixtures.reconciler 100
       (Fixtures.clusterOf (Fixtures.inPhase "Failed" (Some 400)))
       (Fixtures.inPhase "Failed" (Some 400)))
  = [client.CallGet].
Proof.
  destruct (reconcileSync_skip_only_reads Fixtures.reconciler 100
              (Fixtures.clusterOf (Fixtures.inPhase "Failed" (Some 400)))
              (Fixtures.inPhase "Failed" (Some 400))
              (Fixtures.inPhase "Failed" (Some 400))
              "retry-backoff-active" (Some 400) None)
    as (H1 & _ & _ & _ & H5).
  - reflexivity.
  - reflexivity.
  - reflexivity.
  - split; [exact H1 | exact H5].
Defined.

Section QuietReconcile.

Import Observe.

Variable r : controllers.MCPRegistryReconciler.
Variable now : Time.

Lemma Store_quiet c reg :
  client.faults c = [] ->
  exists c1, client.Store c reg = (None, c1) /\
    client.faults c1 = [] /\ client.object c1 = client.object c.
Proof.
  intros Hf. unfold client.Store, client.nextFault. rewrite Hf.
  eexists. split; [reflexivity|]. cbn. auto.
Qed.

Lemma composeStatusUpdate_quiet s c obj o u c1 obj1 :
  client.faults c = [] -> client.object c = Some o ->
  sync.composeStatusUpdate s now c obj = (u, c1, obj1) ->
  client.faults c1 = [] /\ exists o1, client.object c1 = Some o1.
Proof.
  intros Hf Ho. unfold sync.composeStatusUpdate.
  destruct (sync.fetchAndProcessRegistryData s now c obj) as [[res cf] ob] eqn:F.
  destruct res as [[fr0 h]|err].
  - apply fetchAndProcessRegistryData_ok in F.
    destruct F as (Fo & _ & Ff & _).
    destruct (sync.Validate h _ _) as [verr src].
    destruct verr as [verr|].
    + intros E; inversion E; subst. cbn. split; [congruence|].
      exists o. congruence.
    + destruct (sync.FetchRegistry h _ _) as [fr|ferr].
      * match goal with
        | |- context [client.Store ?cc ?reg] =>
            destruct (Store_quiet cc reg) as (cs & -> & Sf & So);
              [cbn; congruence|]
        end.
        intros E; inversion E; subst. split; [exact Sf|].
        exists o. rewrite So. cbn. congruence.
      * intros E; inversion E; subst. cbn. split; [congruence|].
        exists o. congruence.
  - apply (fetchAndProcessRegistryData_failed_quiet s now c obj o) in F;
      [|assumption|assumption].
    destruct F as (Ff & Fo & _).
    intros E; inversion E; subst. eauto.
Qed.

Lemma applyFinalStatusUpdate_quiet c obj o u :
  client.faults c = [] -> client.object c = Some o ->
  exists c1,
    sync.applyFinalStatusUpdate now c obj u
    = (match sync.statusUpdate.RetryResult u with
       | Some res => res
       | None => ctrl.empty
       end, None, c1,
       with_Status o (sync.finalStatus now (Status o) u)) /\
    client.faults c1 = [] /\
    client.object c1 = Some (with_Status o (sync.finalStatus now (Status o) u)).
Proof.
  intros Hf Ho. unfold sync.applyFinalStatusUpdate.
  destruct (Get_quiet c obj o Hf Ho) as (cg & -> & Gf & Go).
  match goal with
  | |- context [client.StatusUpdate cg ?x] =>
      destruct (StatusUpdate_quiet cg x o Gf Go) as (cu & -> & Uf & Uo)
  end.
  exists cu. split; [|split; [exact Uf | exact Uo]].
  destruct (sync.statusUpdate.RetryResult u); reflexivity.
Qed.

(** With every read succeeding, the loop after a sync ends with the stored
    declaration. *)
Lemma refreshAfterSync_quiet n i c m m0 o :
  client.faults c = [] -> client.object c = Some o ->
  exists c1,
    controllers.refreshAfterSync n i c m m0
    = (Ok match n with O => m0 | S _ => o end, c1).
Proof.
  revert i c m0. induction n as [|n IH]; intros i c m0 Hf Ho; cbn.
  - eauto.
  - destruct (Get_quiet c controllers.zeroMCPRegistry o Hf Ho) as (cg & -> & Gf & Go).
    destruct ((i >? 0) && (SyncAttempts (Status o) >? SyncAttempts (Status m))).
    + eauto.
    + destruct (IH (i + 1) cg o Gf Go) as (c1 & ->).
      exists c1. destruct n; reflexivity.
Qed.

End QuietReconcile.
(** X9. A recorded failure is always retried. When reconcileSync runs a sync
    (any reason but manual-sync-no-data-changes), the run decides on a failed
    step and every API call succeeds, reconcileSync returns no error and a
    requeue delay between five minutes and one hour: the delay of the sync
    manager when it scheduled a retry, and five minutes when the sync manager
    gave up and asked for no requeue. *)
Theorem reconcileSync_recorded_failure_is_retried
  (r : controllers.MCPRegistryReconciler) (now : Time)
  (c : client.Cluster) (obj o : MCPRegistry)
  (needed : bool) (reason : string) (next : option Time) (err : option error) :
  client.faults c = [] ->
  client.object c = Some o ->
  is_int64 (SyncAttempts (Status o)) ->
  sync.ShouldSync (sync.checkers (controllers.syncManager r)) now o
    = (needed, reason, next, err) ->
  err <> None \/ (needed = true /\ reason <> sync.ReasonManualNoChanges) ->
  sync.statusUpdate.Phase
    (Observe.decision (controllers.syncManager r) now
       (client.called c client.CallGet) o) = MCPRegistryPhaseFailed ->
  exists delay,
    Observe.resultOfReconcileSync r now c obj = ctrl.after delay /\
    5 * Minute <= delay <= Hour /\
    Observe.errorOfReconcileSync r now c obj = None.
Proof.
  intros Hf Ho Hi Hs Hwhy Hd.
  unfold Observe.resultOfReconcileSync, Observe.errorOfReconcileSync,
    controllers.reconcileSync.
  unfold client.Get at 1 2, client.nextFault. rewrite Hf. cbn [client.object client.called].
  rewrite Ho. rewrite Hs.
  assert (Hgo :
    (let '(syncNeeded, syncReason) :=
       match err with
       | Some _ => (true, sync.ReasonErrorCheckingSyncNeed)
       | None => (needed, reason)
       end in
     (negb syncNeeded, String.eqb syncReason sync.ReasonManualNoChanges))
    = (false, false)).
  { destruct err as [e|]; [reflexivity|].
    destruct Hwhy as [H | [-> Hr]]; [congruence|]. cbn.
    destruct (String.eqb_spec reason sync.ReasonManualNoChanges); congruence. }
  destruct (match err with
            | Some _ => (true, sync.ReasonErrorCheckingSyncNeed)
            | None => (needed, reason)
            end) as [syncNeeded syncReason].
  injection Hgo as Hn Hm. rewrite Hn, Hm.
  unfold Observe.decision in Hd. unfold sync.PerformSync.
  set (cg := client.called c client.CallGet) in *.
  assert (Hfg : client.faults cg = []) by exact Hf.
  assert (Hog : client.object cg = Some o) by exact Ho.
  destruct (sync.composeStatusUpdate (controllers.syncManager r) now cg o)
    as [[u c1] obj1] eqn:E.
  cbn [fst snd] in Hd.
  destruct (composeStatusUpdate_quiet now _ _ _ _ _ _ _ Hfg Hog E) as (Hf1 & o1 & Ho1).
  apply composeStatusUpdate_decisions in E.
  destruct E as [(limit & what & ct & rs & e & interval & -> & _ & Hint)
                | (fr & src & -> & _)]; [|cbn in Hd; discriminate].
  destruct (applyFinalStatusUpdate_quiet now c1 obj1 o1
              (sync.failedStep now obj1 limit what ct rs e interval) Hf1 Ho1)
    as (c2 & -> & Hf2 & Ho2).
  destruct (refreshAfterSync_quiet 3 0 c2
              (with_Status o1 (sync.finalStatus now (Status o1)
                 (sync.failedStep now obj1 limit what ct rs e interval)))
              (with_Status o1 (sync.finalStatus now (Status o1)
                 (sync.failedStep now obj1 limit what ct rs e interval)))
              _ Hf2 Ho2) as (c3 & ->).
  assert (Hr : 5 * Minute <= interval <= Hour).
  { destruct Hint as [-> | ->].
    - vm_compute. split; discriminate.
    - apply calculateRetryInterval_range. exact Hi. }
  unfold sync.failedStep.
  destruct (SyncAttempts (Status obj1) >=? limit);
    rewrite finalStatus_failureUpdate; cbn.
  - exists (Minute * 5). split; [reflexivity|]. split; [|reflexivity].
    vm_compute. split; discriminate.
  - exists interval. split; [|split; [exact Hr | reflexivity]].
    destruct (Z.gtb_spec interval 0) as [G|G]; [reflexivity|].
    change (5 * Minute) with 300000000000 in Hr. lia.
Qed.

Lemma reconcileSync_recorded_failure_is_retried_witness :
  exists delay,
    Observe.resultOfReconcileSync
      {| controllers.syncManager := Fixtures.unreachableSource;
         controllers.ParseDuration := fun _ => Err (ErrOther "time: invalid duration") |}
      700 (Fixtures.clusterOf (Fixtures.declaration (Fixtures.failedStatus 9)))
      (Fixtures.declaration (Fixtures.failedStatus 9)) = ctrl.after delay /\
    5 * Minute <= delay <= Hour.
Proof.
  destruct (reconcileSync_recorded_failure_is_retried
              {| controllers.syncManager := Fixtures.unreachableSource;
                 controllers.ParseDuration :=
                   fun _ => Err (ErrOther "time: invalid duration") |}
              700 (Fixtures.clusterOf (Fixtures.declaration (Fixtures.failedStatus 9)))
              (Fixtures.declaration (Fixtures.failedStatus 9))
              (Fixtures.declaration (Fixtures.failedStatus 9))
              true "registry-not-ready" None None)
    as (delay & H1 & H2 & _).
  - reflexivity.
  - reflexivity.
  - vm_compute. split; discriminate.
  - reflexivity.
  - right. split; [reflexivity | discriminate].
  - reflexivity.
  - exists delay. split; assumption.
Defined.

(* --------------------------------------------------------------------- *)
(** ** PerformSync: the backoff as the runs apply it *)
(* --------------------------------------------------------------------- *)

Section BackoffInPerformSync.

Import Observe.

Variable s : sync.DefaultSyncManager.
Variable now : Time.






End BackoffInPerformSync.

Section ConsecutiveRuns.

Variable s : sync.DefaultSyncManager.


End ConsecutiveRuns.





(* --------------------------------------------------------------------- *)
(** ** The format converter: conversion, validation and detection together *)
(* --------------------------------------------------------------------- *)

Section ConverterLaws.

Import registry.

Variable enc : json.Encoding.

Lemma length_zero_empty (data : string) :
  Nat.eqb (String.length data) 0 = true <-> data = "".
Proof.
  destruct data; cbn; split; intros H; try reflexivity; discriminate.
Qed.

Lemma length_nonzero (data : string) :
  data <> "" -> Nat.eqb (String.length data) 0 = false.
Proof.
  intros H. destruct (Nat.eqb (String.length data) 0) eqn:E; [|reflexivity].
  apply length_zero_empty in E. contradiction.
Qed.

(** A map whose entries all pass the loop of [Validate] holds only named
    servers. *)
Lemma validateServers_named servers k v :
  RegistryFormatConverter.validateServers servers = None ->
  In (k, v) servers -> FormatSpec.hasName v = true.
Proof.
  induction servers as [|[k' v'] rest IH]; cbn; [intros _ []|].
  destruct (String.eqb k' ""); [discriminate|].
  destruct v' as [d|]; [|discriminate].
  destruct (String.eqb (UpstreamServer.Name (UpstreamServerDetail.Server d)) "") eqn:E;
    [discriminate|].
  intros Hv [Hin|Hin].
  - inversion Hin; subst. cbn. rewrite E. reflexivity.
  - apply IH; assumption.
Qed.

Lemma Validate_upstream_named data :
  RegistryFormatConverter.Validate enc data RegistryFormatUpstream = None ->
  data <> "" /\
  exists m, unmarshalUpstream enc data = Ok (Some m) /\ (0 < size m)%nat /\
    forall k v, m !! k = Some v -> FormatSpec.hasName v = true.
Proof.
  unfold RegistryFormatConverter.Validate.
  destruct (Nat.eqb (String.length data) 0) eqn:L; [discriminate|].
  cbn. destruct (unmarshalUpstream enc data) as [[m|]|e]; try discriminate.
  destruct (map_to_list m) as [|kv rest] eqn:M; [discriminate|].
  intros Hv. split.
  { intros ->. discriminate. }
  exists m. split; [reflexivity|]. split.
  - rewrite <- length_map_to_list, M. cbn. lia.
  - intros k v Hk. apply (validateServers_named (kv :: rest) k v Hv).
    rewrite <- M. apply list_elem_of_In. apply elem_of_map_to_list. exact Hk.
Qed.

End ConverterLaws.

(** X10. Convert refuses empty data whatever the formats. For data that is
    not empty, a conversion between equal format names (the empty name
    standing for toolhive) returns the bytes unchanged, without parsing them
    and even when the name is not a supported format; a conversion between
    different names of which one is unsupported fails. *)
Theorem Convert_same_format_identity (enc : json.Encoding) (timestamp : string)
  (data fromFormat toFormat : string) :
  RegistryFormatConverter.Convert enc timestamp "" fromFormat toFormat
    = Err (fmtErrorf "data cannot be empty") /\
  (data <> "" ->
   RegistryFormatConverter.normalizeFormat fromFormat
     = RegistryFormatConverter.normalizeFormat toFormat ->
   RegistryFormatConverter.Convert enc timestamp data fromFormat toFormat = Ok data) /\
  (data <> "" ->
   RegistryFormatConverter.normalizeFormat fromFormat
     <> RegistryFormatConverter.normalizeFormat toFormat ->
   ~ In (RegistryFormatConverter.normalizeFormat fromFormat)
        RegistryFormatConverter.SupportedFormats \/
   ~ In (RegistryFormatConverter.normalizeFormat toFormat)
        RegistryFormatConverter.SupportedFormats ->
   exists e,
     RegistryFormatConverter.Convert enc timestamp data fromFormat toFormat = Err e).
Proof.
  split; [reflexivity|]. split.
  - intros Hd Hn. unfold RegistryFormatConverter.Convert.
    rewrite (length_nonzero data Hd). cbv zeta. rewrite Hn.
    rewrite String.eqb_refl. reflexivity.
  - intros Hd Hn Hu. unfold RegistryFormatConverter.Convert.
    rewrite (length_nonzero data Hd). cbv zeta.
    destruct (String.eqb_spec (RegistryFormatConverter.normalizeFormat fromFormat)
                (RegistryFormatConverter.normalizeFormat toFormat)) as [E|_];
      [contradiction|].
    unfold RegistryFormatConverter.isFormatSupported,
      RegistryFormatConverter.SupportedFormats in *.
    cbn [existsb In] in *.
    destruct (String.eqb_spec RegistryFormatToolHive
                (RegistryFormatConverter.normalizeFormat fromFormat)) as [F1|F1];
    destruct (String.eqb_spec RegistryFormatUpstream
                (RegistryFormatConverter.normalizeFormat fromFormat)) as [F2|F2];
    destruct (String.eqb_spec RegistryFormatToolHive
                (RegistryFormatConverter.normalizeFormat toFormat)) as [T1|T1];
    destruct (String.eqb_spec RegistryFormatUpstream
                (RegistryFormatConverter.normalizeFormat toFormat)) as [T2|T2];
    cbn; eauto; exfalso; destruct Hu as [Hu|Hu]; apply Hu; tauto.
Qed.

Lemma Convert_same_format_identity_witness :
  RegistryFormatConverter.Convert json.std "2025-09-02T00:17:21Z"
    Fixtures.notJSON "" "toolhive" = Ok Fixtures.notJSON /\
  exists e,
    RegistryFormatConverter.Convert json.std "2025-09-02T00:17:21Z"
      Fixtures.canonicalFilesystem "toolhive" "yaml" = Err e.
Proof.
  split.
  - apply (proj1 (proj2 (Convert_same_format_identity json.std "2025-09-02T00:17:21Z"
                           Fixtures.notJSON "" "toolhive"))).
    + discriminate.
    + reflexivity.
  - apply (proj2 (proj2 (Convert_same_format_identity json.std "2025-09-02T00:17:21Z"
                           Fixtures.canonicalFilesystem "toolhive" "yaml"))).
    + vm_compute. discriminate.
    + discriminate.
    + right. cbn. intros [H|[H|[]]]; discriminate.
Defined.

(** X11. Data that passes Validate is always detected, for every iteration
    order of the upstream map: data valid as toolhive is detected as
    toolhive, and data valid as upstream is detected as upstream unless it
    also has the canonical shape (version and servers), in which case it is
    detected as toolhive. *)
Theorem Validate_implies_DetectFormat (enc : json.Encoding) (order : nat)
  (data : string) :
  (RegistryFormatConverter.Validate enc data RegistryFormatToolHive = None ->
   RegistryFormatConverter.DetectFormat enc order data = Ok RegistryFormatToolHive) /\
  (RegistryFormatConverter.Validate enc data RegistryFormatUpstream = None ->
   RegistryFormatConverter.DetectFormat enc order data
   = Ok (if FormatSpec.isCanonical enc data
         then RegistryFormatToolHive else RegistryFormatUpstream)).
Proof.
  split.
  - unfold RegistryFormatConverter.Validate, RegistryFormatConverter.DetectFormat.
    destruct (Nat.eqb (String.length data) 0); [discriminate|]. cbn.
    destruct (registry.unmarshalRegistry enc data) as [reg|e]; [|discriminate].
    destruct (String.eqb (registry.Version reg) ""); [discriminate|].
    destruct (registry.Servers reg); [reflexivity | discriminate].
  - intros Hv. apply Validate_upstream_named in Hv.
    destruct Hv as (Hd & m & Hm & Hs & Hall).
    unfold RegistryFormatConverter.DetectFormat, FormatSpec.isCanonical.
    rewrite (length_nonzero data Hd). cbv zeta.
    destruct (match registry.unmarshalRegistry enc data with
              | Ok r => _
              | Err _ => false
              end); [reflexivity|].
    rewrite Hm.
    destruct (Nat.ltb_spec 0 (size m)) as [_|Hn]; [|lia].
    destruct (rangeFirst_lookup order m Hs) as (k & v & -> & Hk).
    specialize (Hall k v Hk). destruct v as [d|]; [|discriminate].
    cbn in Hall. rewrite Hall. reflexivity.
Qed.

Lemma Validate_implies_DetectFormat_witness :
  RegistryFormatConverter.DetectFormat json.std 1 Fixtures.canonicalFilesystem
    = Ok "toolhive" /\
  RegistryFormatConverter.DetectFormat json.std 1 Fixtures.namedUpstream
    = Ok "upstream".
Proof.
  split.
  - apply (proj1 (Validate_implies_DetectFormat json.std 1 Fixtures.canonicalFilesystem)).
    vm_compute. reflexivity.
  - apply (proj2 (Validate_implies_DetectFormat json.std 1 Fixtures.namedUpstream)).
    vm_compute. reflexivity.
Defined.
Section ConversionLoops.

Import registry.

Lemma upstreamOf_lookup servers upstream :
  NoDup servers.*1 ->
  RegistryFormatConverter.upstreamOf servers = Ok upstream ->
  forall k,
    (forall v, (k, v) ∈ servers ->
       exists u, ConvertToolhiveToUpstream v = Ok u /\ upstream !! k = Some (Some u)) /\
    (k ∉ servers.*1 -> upstream !! k = None).
Proof.
  revert upstream. induction servers as [|[k0 v0] rest IH]; intros upstream Hnd; cbn.
  - intros E; inversion E; subst. intros k. split.
    + intros v Hin. inversion Hin.
    + intros _. apply lookup_empty.
  - destruct (ConvertToolhiveToUpstream v0) as [u0|e] eqn:C; [|discriminate].
    destruct (RegistryFormatConverter.upstreamOf rest) as [mr|e] eqn:R; [|discriminate].
    intros E; inversion E; subst. clear E.
    apply NoDup_cons in Hnd. destruct Hnd as [Hk0 Hnd].
    specialize (IH mr Hnd eq_refl). intros k. split.
    + intros v Hin. apply elem_of_cons in Hin. destruct Hin as [Hin|Hin].
      * inversion Hin; subst. exists u0. split; [exact C|].
        apply lookup_insert_eq.
      * assert (k <> k0).
        { intros ->. apply Hk0. apply list_elem_of_fmap. exists (k0, v). auto. }
        destruct (proj1 (IH k) v Hin) as (u & Hu & Hl).
        exists u. split; [exact Hu|]. rewrite lookup_insert_ne by congruence. exact Hl.
    + intros Hn. cbn in Hn. apply not_elem_of_cons in Hn. destruct Hn as [Hne Hn].
      rewrite lookup_insert_ne by congruence. apply (proj2 (IH k) Hn).
Qed.

Lemma toolhiveOf_lookup servers toolhive :
  NoDup servers.*1 ->
  RegistryFormatConverter.toolhiveOf servers = Ok toolhive ->
  forall k,
    (forall v, (k, v) ∈ servers ->
       exists t, ConvertUpstreamToToolhive v = Ok t /\
                 toolhive !! k = option_map Some t) /\
    (k ∉ servers.*1 -> toolhive !! k = None).
Proof.
  revert toolhive. induction servers as [|[k0 v0] rest IH]; intros toolhive Hnd; cbn.
  - intros E; inversion E; subst. intros k. split.
    + intros v Hin. inversion Hin.
    + intros _. apply lookup_empty.
  - destruct (ConvertUpstreamToToolhive v0) as [t0|e] eqn:C; [|discriminate].
    destruct (RegistryFormatConverter.toolhiveOf rest) as [mr|e] eqn:R; [|discriminate].
    apply NoDup_cons in Hnd. destruct Hnd as [Hk0 Hnd].
    specialize (IH mr Hnd eq_refl).
    assert (Hmr : mr !! k0 = None) by (apply (proj2 (IH k0) Hk0)).
    intros E k. split.
    + intros v Hin. apply elem_of_cons in Hin. destruct Hin as [Hin|Hin].
      * inversion Hin; subst. exists t0. split; [exact C|].
        destruct t0 as [img|]; inversion E; subst; cbn.
        -- apply lookup_insert_eq.
        -- exact Hmr.
      * assert (k <> k0).
        { intros ->. apply Hk0. apply list_elem_of_fmap. exists (k0, v). auto. }
        destruct (proj1 (IH k) v Hin) as (t & Ht & Hl).
        exists t. split; [exact Ht|].
        destruct t0 as [img|]; inversion E; subst;
          [rewrite lookup_insert_ne by congruence|]; exact Hl.
    + intros Hn. cbn in Hn. apply not_elem_of_cons in Hn. destruct Hn as [Hne Hn].
      destruct t0 as [img|]; inversion E; subst;
        [rewrite lookup_insert_ne by congruence|]; apply (proj2 (IH k) Hn).
Qed.

End ConversionLoops.

(** X12. The conversion loops keep the server names. Converting a toolhive
    servers map to upstream yields, when it succeeds, a map with exactly the
    same names, each entry being the conversion of the entry of that name.
    Converting an upstream map to toolhive keeps under its name every entry
    that converts to an image server and drops the others (remote servers);
    it adds no name. *)
Theorem conversion_loops_keep_names
  (servers : gmap string (option registry.ImageMetadata))
  (details : gmap string (option registry.UpstreamServerDetail.t))
  (upstream : gmap string (option registry.UpstreamServerDetail.t))
  (toolhive : gmap string (option registry.ImageMetadata)) (k : string) :
  (RegistryFormatConverter.upstreamOf (map_to_list servers) = Ok upstream ->
   match servers !! k with
   | Some v => exists u, registry.ConvertToolhiveToUpstream v = Ok u /\
                         upstream !! k = Some (Some u)
   | None => upstream !! k = None
   end) /\
  (RegistryFormatConverter.toolhiveOf (map_to_list details) = Ok toolhive ->
   match details !! k with
   | Some v => exists t, registry.ConvertUpstreamToToolhive v = Ok t /\
                         toolhive !! k = option_map Some t
   | None => toolhive !! k = None
   end).
Proof.
  split; intros E.
  - pose proof (upstreamOf_lookup _ _ (NoDup_fst_map_to_list servers) E k) as [H1 H2].
    destruct (servers !! k) as [v|] eqn:Hk.
    + apply H1. apply elem_of_map_to_list. exact Hk.
    + apply H2. intros Hin. apply list_elem_of_fmap in Hin.
      destruct Hin as [[k' v'] [-> Hin]]. apply elem_of_map_to_list in Hin.
      cbn in Hk. congruence.
  - pose proof (toolhiveOf_lookup _ _ (NoDup_fst_map_to_list details) E k) as [H1 H2].
    destruct (details !! k) as [v|] eqn:Hk.
    + apply H1. apply elem_of_map_to_list. exact Hk.
    + apply H2. intros Hin. apply list_elem_of_fmap in Hin.
      destruct Hin as [[k' v'] [-> Hin]]. apply elem_of_map_to_list in Hin.
      cbn in Hk. congruence.
Qed.

Lemma conversion_loops_keep_names_witness :
  (exists u,
     registry.ConvertToolhiveToUpstream (Some Samples.filesystemImage) = Ok u /\
     Samples.converted
       (RegistryFormatConverter.upstreamOf (map_to_list Samples.filesystemServers))
       !! "filesystem" = Some (Some u)) /\
  Samples.converted
    (RegistryFormatConverter.toolhiveOf
       (map_to_list (Fixtures.decodedUpstream Fixtures.namedUpstream)))
    !! "filesystem" = None.
Proof.
  destruct (conversion_loops_keep_names Samples.filesystemServers
              (Fixtures.decodedUpstream Fixtures.namedUpstream)
              (Samples.converted
                 (RegistryFormatConverter.upstreamOf
                    (map_to_list Samples.filesystemServers)))
              (Samples.converted
                 (RegistryFormatConverter.toolhiveOf
                    (map_to_list (Fixtures.decodedUpstream Fixtures.namedUpstream))))
              "filesystem") as [H1 H2].
  split.
  - apply H1. vm_compute. reflexivity.
  - apply H2. vm_compute. reflexivity.
Defined.

(* --------------------------------------------------------------------- *)
(** ** The registry API: the two server handlers *)
(* --------------------------------------------------------------------- *)



(** X14. Stored data whose format cannot be detected is served as it is,
    under whatever supported format was asked for: when detection fails,
    handleListServers answers with the servers found under the key servers of
    the stored document itself and labels them with the requested format (a
    500 when the document is no JSON object). A stored document whose
    detected format is the requested one is served unconverted as well. *)
Theorem handleListServers_serves_stored_document (enc : json.Encoding)
  (s : registryapi.Server) (format data : string) :
  let requested := if String.eqb format "" then RegistryFormatToolHive else format in
  registryapi.contains
    (FormatConverter.SupportedFormats (registryapi.formatConverter s)) requested
    = true ->
  registryapi.getRegistryData s = Ok data ->
  (forall detected,
     FormatConverter.DetectFormat (registryapi.formatConverter s) data = Ok detected ->
     detected = requested) ->
  registryapi.handleListServers enc s format
  = match registryapi.unmarshalObject enc data with
    | Ok members =>
        {| registryapi.StatusCode := 200;
           registryapi.Payload := registryapi.ServerList
             {| registryapi.ServerListResponse.Servers :=
                  registryapi.extractServers members;
                registryapi.ServerListResponse.Count :=
                  Z.of_nat (size (registryapi.extractServers members));
                registryapi.ServerListResponse.Format := requested |} |}
    | Err _ =>
        registryapi.writeErrorResponse "Failed to parse registry data" 500
    end.
Proof.
  cbv zeta. intros C G D.
  unfold registryapi.handleListServers.
  cbv zeta. rewrite C, G. cbn.
  unfold registryapi.convertRegistryFormat.
  destruct (FormatConverter.DetectFormat (registryapi.formatConverter s) data)
    as [detected|e] eqn:Det.
  - rewrite (D detected eq_refl). rewrite String.eqb_refl. cbn.
    destruct (registryapi.unmarshalObject enc data); reflexivity.
  - rewrite String.eqb_refl. cbn.
    destruct (registryapi.unmarshalObject enc data); reflexivity.
Qed.

Lemma handleListServers_serves_stored_document_witness :
  registryapi.handleListServers json.std
    (Fixtures.servingStored Samples.versionless) "upstream"
  = {| registryapi.StatusCode := 200;
       registryapi.Payload := registryapi.ServerList
         {| registryapi.ServerListResponse.Servers :=
              {[ "filesystem" :=
                   json.Object
                     [("name", json.Str "filesystem");
                      ("image", json.Str "mcp/filesystem:latest")] ]};
            registryapi.ServerListResponse.Count := 1;
            registryapi.ServerListResponse.Format := "upstream" |} |}.
Proof.
  rewrite (handleListServers_serves_stored_document json.std
             (Fixtures.servingStored Samples.versionless) "upstream"
             Samples.versionless).
  - vm_compute. reflexivity.
  - reflexivity.
  - reflexivity.
  - intros detected H. vm_compute in H. discriminate.
Defined.

(* --------------------------------------------------------------------- *)
(** ** The ConfigMap source handler: validation, hash, times, reference *)
(* --------------------------------------------------------------------- *)

(** X15. Validate of the ConfigMap source handler. When it accepts a source,
    the source it leaves behind is of type configmap, names the same
    ConfigMap and namespace, has a key that is not empty (registry.json when
    none was given) and is accepted unchanged by a second call. When it
    rejects a source it leaves it untouched; the error is an
    ErrValidationFailed for a missing ConfigMap section or name, but not for
    a source of another type. *)
Theorem Validate_defaults_the_key (source : MCPRegistrySource.t) :
  match ConfigMapSourceHandler.Validate source with
  | (None, source') =>
      ConfigMapSourceHandler.Validate source' = (None, source') /\
      MCPRegistrySource.Type_ source' = ConfigMapSourceHandler.ConfigMapSourceType /\
      MCPRegistrySource.Format source' = MCPRegistrySource.Format source /\
      exists cm cm',
        MCPRegistrySource.ConfigMap source = Some cm /\
        MCPRegistrySource.ConfigMap source' = Some cm' /\
        ConfigMapRegistrySource.Name cm' = ConfigMapRegistrySource.Name cm /\
        ConfigMapRegistrySource.Name cm <> "" /\
        ConfigMapRegistrySource.Namespace cm' = ConfigMapRegistrySource.Namespace cm /\
        ConfigMapRegistrySource.Key cm' = Observe.lookupKey cm /\
        ConfigMapRegistrySource.Key cm' <> ""
  | (Some err, source') =>
      source' = source /\
      errors_Is err ErrValidationFailed
      = String.eqb (MCPRegistrySource.Type_ source)
          ConfigMapSourceHandler.ConfigMapSourceType
  end.
Proof.
  unfold ConfigMapSourceHandler.Validate, Observe.lookupKey.
  destruct (String.eqb_spec (MCPRegistrySource.Type_ source)
              ConfigMapSourceHandler.ConfigMapSourceType) as [Et|Et]; cbn.
  - destruct (MCPRegistrySource.ConfigMap source) as [cm|] eqn:Ec;
      [|split; reflexivity].
    destruct (String.eqb_spec (ConfigMapRegistrySource.Name cm) "") as [En|En];
      [split; reflexivity|].
    destruct (String.eqb_spec (ConfigMapRegistrySource.Key cm) "") as [Ek|Ek]; cbn.
    + rewrite Et. cbn.
      destruct (String.eqb_spec (ConfigMapRegistrySource.Name cm) "") as [|_];
        [contradiction|].
      split; [reflexivity|]. split; [reflexivity|]. split; [reflexivity|].
      exists cm. eexists. split; [reflexivity|]. split; [reflexivity|]. cbn.
      rewrite Ek. cbn.
      split; [reflexivity|]. split; [assumption|]. split; [reflexivity|].
      split; [reflexivity | discriminate].
    + rewrite Et, Ec. cbn.
      destruct (String.eqb_spec (ConfigMapRegistrySource.Name cm) "") as [|_];
        [contradiction|].
      destruct (String.eqb_spec (ConfigMapRegistrySource.Key cm) "") as [|_];
        [contradiction|].
      split; [reflexivity|]. split; [reflexivity|]. split; [reflexivity|].
      exists cm, cm. split; [reflexivity|]. split; [first [exact Ec | reflexivity]|].
      destruct (String.eqb_spec (ConfigMapRegistrySource.Key cm) "") as [|_];
        [contradiction|].
      repeat split; try reflexivity; assumption.
  - split; reflexivity.
Qed.

Section HashShape.

Lemma round_length st kw :
  List.length st = 8%nat -> List.length (sha256.round st kw) = 8%nat.
Proof.
  intros H. do 9 (destruct st as [|? st]; try discriminate). reflexivity.
Qed.

Lemma rounds_length kws st :
  List.length st = 8%nat -> List.length (List.fold_left sha256.round kws st) = 8%nat.
Proof.
  revert st. induction kws as [|kw kws IH]; intros st H; cbn; [exact H|].
  apply IH, round_length, H.
Qed.

Lemma compress_length h block :
  List.length h = 8%nat -> List.length (sha256.compress h block) = 8%nat.
Proof.
  intros H. unfold sha256.compress.
  rewrite List.length_map, List.length_combine, rounds_length by exact H.
  rewrite H. reflexivity.
Qed.

Lemma blocks_length fuel bytes h :
  List.length h = 8%nat -> List.length (sha256.blocks fuel bytes h) = 8%nat.
Proof.
  revert bytes h. induction fuel as [|fuel IH]; intros bytes h H; cbn; [exact H|].
  destruct bytes; [exact H|]. apply IH, compress_length, H.
Qed.

Lemma wordBytes_shape ws :
  List.length (List.flat_map sha256.wordBytes ws) = (4 * List.length ws)%nat /\
  Forall (fun b => 0 <= b < 256) (List.flat_map sha256.wordBytes ws).
Proof.
  induction ws as [|w ws [IHl IHf]]; cbn; [split; [reflexivity | constructor]|].
  split; [rewrite IHl; lia|].
  assert (B : forall x, 0 <= Z.land x 255 < 256).
  { intros x. change 255 with (Z.ones 8). rewrite Z.land_ones by lia.
    apply Z.mod_pos_bound. lia. }
  repeat (constructor; [apply B|]). exact IHf.
Qed.

Lemma Sum256_shape data :
  List.length (sha256.Sum256 data) = 32%nat /\
  Forall (fun b => 0 <= b < 256) (sha256.Sum256 data).
Proof.
  unfold sha256.Sum256. cbv zeta.
  match goal with
  | |- context [List.flat_map sha256.wordBytes ?ws] =>
      destruct (wordBytes_shape ws) as [L F];
      assert (H8 : List.length ws = 8%nat) by (apply blocks_length; reflexivity)
  end.
  split; [rewrite L, H8; reflexivity | exact F].
Qed.

Lemma digit_hex n :
  0 <= n < 16 -> In (hex.digit n) (list_ascii_of_string "0123456789abcdef").
Proof.
  intros H. rewrite <- (Z2Nat.id n) by lia.
  assert (K : (Z.to_nat n < 16)%nat) by lia.
  revert K. generalize (Z.to_nat n) as k. intros k K.
  do 16 (destruct k as [|k]; [vm_compute; tauto|]).
  lia.
Qed.

Lemma EncodeToString_shape src :
  Forall (fun b => 0 <= b < 256) src ->
  String.length (hex.EncodeToString src) = (2 * List.length src)%nat /\
  forall c, In c (list_ascii_of_string (hex.EncodeToString src)) ->
            In c (list_ascii_of_string "0123456789abcdef").
Proof.
  induction src as [|b src IH]; intros F; cbn [hex.EncodeToString].
  - split; [reflexivity | intros c []].
  - inversion F as [|? ? Hb F']; subst. destruct (IH F') as [IHl IHc].
    split; [cbn [String.length List.length]; rewrite IHl; lia|].
    intros c Hc. cbn [list_ascii_of_string In] in Hc.
    destruct Hc as [<- | [<- | Hc]].
    + apply digit_hex. rewrite Z.shiftr_div_pow2 by lia.
      change (2 ^ 4) with 16. split.
      * apply Z.div_pos; lia.
      * apply Z.div_lt_upper_bound; lia.
    + apply digit_hex. change 15 with (Z.ones 4). rewrite Z.land_ones by lia.
      apply Z.mod_pos_bound. lia.
    + apply IHc. exact Hc.
Qed.

End HashShape.

(** X16. The hash of any data is a string of exactly 64 characters, each a
    lowercase hexadecimal digit; so the prefix of eight characters that the
    handlers log is always within range. *)
Theorem calculateHash_is_64_hex_digits (data : string) :
  String.length (ConfigMapSourceHandler.calculateHash data) = 64%nat /\
  forall c,
    In c (list_ascii_of_string (ConfigMapSourceHandler.calculateHash data)) ->
    In c (list_ascii_of_string "0123456789abcdef").
Proof.
  unfold ConfigMapSourceHandler.calculateHash.
  destruct (Sum256_shape data) as [L F].
  destruct (EncodeToString_shape _ F) as [EL EC].
  split; [rewrite EL, L; reflexivity | exact EC].
Qed.
Section LastModified.

Lemma latest_fold (fields : list (option Time)) (start : Time) :
  let latest :=
    fold_left
      (fun lastModified managedField =>
         match managedField with
         | Some t => if lastModified <? t then t else lastModified
         | None => lastModified
         end) fields start in
  start <= latest /\
  (forall t, In (Some t) fields -> t <= latest) /\
  (latest = start \/ In (Some latest) fields).
Proof.
  cbv zeta. revert start. induction fields as [|f fields IH]; intros start; cbn.
  - split; [lia|]. split; [intros t []|]. left. reflexivity.
  - destruct f as [t|].
    + destruct (Z.ltb_spec start t) as [Hlt|Hge].
      * destruct (IH t) as (I1 & I2 & I3). split; [lia|]. split.
        -- intros u [Hu|Hu]; [inversion Hu; subst; lia | apply I2, Hu].
        -- right. destruct I3 as [-> | I3]; [left; reflexivity | right; exact I3].
      * destruct (IH start) as (I1 & I2 & I3). split; [lia|]. split.
        -- intros u [Hu|Hu]; [inversion Hu; subst; lia | apply I2, Hu].
        -- destruct I3 as [I3 | I3]; [left; exact I3 | right; right; exact I3].
    + destruct (IH start) as (I1 & I2 & I3). split; [exact I1|]. split.
      * intros u [Hu|Hu]; [discriminate | apply I2, Hu].
      * destruct I3 as [I3 | I3]; [left; exact I3 | right; right; exact I3].
Qed.

End LastModified.

(** X17. The last-modified time the handler reports is the latest of the zero
    time, the creation time of the ConfigMap and the times of its managed
    fields: it is not before any of them, and it is one of them. A managed
    field without a time is skipped. *)
Theorem lastModifiedOf_is_the_latest (configMap : corev1.ConfigMap) :
  let lastModified := ConfigMapSourceHandler.lastModifiedOf configMap in
  ConfigMapSourceHandler.zeroTime <= lastModified /\
  corev1.CreationTimestamp configMap <= lastModified /\
  Forall (fun managedField =>
            match managedField with
            | Some t => t <= lastModified
            | None => True
            end) (corev1.ManagedFields configMap) /\
  (lastModified = ConfigMapSourceHandler.zeroTime \/
   lastModified = corev1.CreationTimestamp configMap \/
   In (Some lastModified) (corev1.ManagedFields configMap)).
Proof.
  cbv zeta. unfold ConfigMapSourceHandler.lastModifiedOf. cbv zeta.
  set (start := if ConfigMapSourceHandler.zeroTime <? corev1.CreationTimestamp configMap
                then corev1.CreationTimestamp configMap
                else ConfigMapSourceHandler.zeroTime).
  destruct (latest_fold (corev1.ManagedFields configMap) start) as (L1 & L2 & L3).
  assert (S1 : ConfigMapSourceHandler.zeroTime <= start /\
               corev1.CreationTimestamp configMap <= start /\
               (start = ConfigMapSourceHandler.zeroTime \/
                start = corev1.CreationTimestamp configMap)).
  { unfold start.
    destruct (Z.ltb_spec ConfigMapSourceHandler.zeroTime
                (corev1.CreationTimestamp configMap)); lia. }
  destruct S1 as (S1 & S2 & S3).
  split; [lia|]. split; [lia|]. split.
  - apply Forall_forall. intros [t|] Hin; [|exact I].
    apply L2. apply list_elem_of_In. exact Hin.
  - destruct L3 as [-> | L3]; [|right; right; exact L3].
    destruct S3 as [-> | ->]; [left | right; left]; reflexivity.
Qed.

Section ValidatedSource.

(** An accepted source names a ConfigMap and a key. *)
Lemma Validate_source_shape source :
  match ConfigMapSourceHandler.Validate source with
  | (None, source') =>
      exists cm', MCPRegistrySource.ConfigMap source' = Some cm' /\
        ConfigMapRegistrySource.Name cm' <> "" /\
        ConfigMapRegistrySource.Key cm' <> ""
  | (Some _, _) => True
  end.
Proof.
  unfold ConfigMapSourceHandler.Validate.
  destruct (negb _); [exact I|].
  destruct (MCPRegistrySource.ConfigMap source) as [cm|] eqn:Ec; [|exact I].
  destruct (String.eqb_spec (ConfigMapRegistrySource.Name cm) "") as [En|En];
    [exact I|].
  destruct (String.eqb_spec (ConfigMapRegistrySource.Key cm) "") as [Ek|Ek].
  - eexists. split; [reflexivity|]. cbn. split; [exact En | discriminate].
  - exists cm. auto.
Qed.

End ValidatedSource.

(** X18. GetConfigMapReference names what Sync reads. When it fails, Sync
    fails with the same error whatever the cluster holds. When it succeeds,
    the name and the key it returns are not empty, Sync depends on the
    cluster only through the ConfigMap of that name and namespace, and Sync
    fails with an error of kind ErrSourceNotFound when that ConfigMap has no
    entry under the returned key. *)
Theorem GetConfigMapReference_names_what_Sync_reads
  (enc : json.Encoding) (parseRFC3339 : string -> option Time) (order : nat)
  (timestamp : string) (client client' : kube.Reader) (registry : MCPRegistry) :
  match ConfigMapSource.GetConfigMapReference registry with
  | (_, _, Some err) =>
      ConfigMapSourceHandler.Sync enc parseRFC3339 order timestamp client registry
      = Err err
  | (configMapKey, key, None) =>
      NamespacedName.Name configMapKey <> "" /\ key <> "" /\
      (kube.GetConfigMap client' (NamespacedName.Name configMapKey)
         (NamespacedName.Namespace configMapKey)
       = kube.GetConfigMap client (NamespacedName.Name configMapKey)
           (NamespacedName.Namespace configMapKey) ->
       ConfigMapSourceHandler.Sync enc parseRFC3339 order timestamp client' registry
       = ConfigMapSourceHandler.Sync enc parseRFC3339 order timestamp client registry) /\
      (forall configMap,
         kube.GetConfigMap client (NamespacedName.Name configMapKey)
           (NamespacedName.Namespace configMapKey) = Ok configMap ->
         corev1.Data configMap !! key = None ->
         Observe.failsWith
           (ConfigMapSourceHandler.Sync enc parseRFC3339 order timestamp client registry)
           ErrSourceNotFound)
  end.
Proof.
  unfold ConfigMapSource.GetConfigMapReference, ConfigMapSourceHandler.Sync.
  pose proof (Validate_source_shape (Source (Spec registry))) as V.
  destruct (ConfigMapSourceHandler.Validate (Source (Spec registry)))
    as [[err|] source'].
  - reflexivity.
  - destruct V as (cm' & -> & Hn & Hk). cbn.
    split; [exact Hn|]. split; [exact Hk|]. split.
    + intros ->. reflexivity.
    + intros configMap -> Hd. rewrite Hd.
      eexists. split; [reflexivity | reflexivity].
Qed.

Lemma GetConfigMapReference_names_what_Sync_reads_witness :
  Observe.failsWith
    (Fixtures.syncFrom (Ok (Fixtures.sourceConfigMap "other.json" Fixtures.notJSON)))
    ErrSourceNotFound.
Proof.
  pose proof (GetConfigMapReference_names_what_Sync_reads json.std
                Fixtures.sampleRFC3339 0 "2025-09-02T00:17:21Z"
                (Fixtures.readerOf (Err ErrNotFound)
                   (Ok (Fixtures.sourceConfigMap "other.json" Fixtures.notJSON)))
                (Fixtures.readerOf (Err ErrNotFound)
                   (Ok (Fixtures.sourceConfigMap "other.json" Fixtures.notJSON)))
                (Fixtures.declaration Fixtures.emptyStatus)) as H.
  assert (E : ConfigMapSource.GetConfigMapReference
                (Fixtures.declaration Fixtures.emptyStatus)
              = ({| NamespacedName.Name := "registry-data";
                    NamespacedName.Namespace := "toolhive-system" |},
                 "registry.json", None)) by reflexivity.
  rewrite E in H. destruct H as (_ & _ & _ & H).
  apply (H (Fixtures.sourceConfigMap "other.json" Fixtures.notJSON)).
  - reflexivity.
  - reflexivity.
Defined.

Section RegistryDataChecks.

Import ConfigMapSourceHandler.

Lemma validateServer_accepts name server :
  ConfigMapSource.validateServer name server = None <->
  Server.Description server <> "" /\ Server.Image server <> "" /\
  In (Server.Transport server) ConfigMapSource.validTransports.
Proof.
  unfold ConfigMapSource.validateServer, ConfigMapSource.validTransports.
  cbn [existsb In].
  destruct (String.eqb_spec (Server.Description server) "") as [Ed|Ed];
    [split; [discriminate | intros (H & _); contradiction]|].
  destruct (String.eqb_spec (Server.Image server) "") as [Ei|Ei];
    [split; [discriminate | intros (_ & H & _); contradiction]|].
  destruct (String.eqb_spec (Server.Transport server) "") as [Et|Et].
  { split; [discriminate|]. intros (_ & _ & H). rewrite Et in H.
    destruct H as [H|[H|[H|[H|[]]]]]; discriminate. }
  destruct (String.eqb_spec (Server.Transport server) "stdio") as [T1|T1];
  destruct (String.eqb_spec (Server.Transport server) "http") as [T2|T2];
  destruct (String.eqb_spec (Server.Transport server) "sse") as [T3|T3];
  destruct (String.eqb_spec (Server.Transport server) "streamable-http") as [T4|T4];
  cbn; split; intros H; try discriminate; try reflexivity;
  try (split; [assumption|]; split; [assumption|]; auto; fail);
  destruct H as (_ & _ & [H|[H|[H|[H|[]]]]]); congruence.
Qed.

Lemma validateServers_accepts servers :
  ConfigMapSource.validateServers servers = None <->
  forall name server, In (name, server) servers ->
    ConfigMapSource.validateServer name server = None.
Proof.
  induction servers as [|[n sv] rest IH]; cbn.
  - split; [intros _ ? ? [] | reflexivity].
  - destruct (ConfigMapSource.validateServer n sv) eqn:V.
    + split; [discriminate|]. intros H. specialize (H n sv (or_introl eq_refl)).
      congruence.
    + rewrite IH. split.
      * intros H name server [E|Hin]; [inversion E; subst; exact V | apply H, Hin].
      * intros H name server Hin. apply H. right. exact Hin.
Qed.

End RegistryDataChecks.

(** X19. validateRegistryData accepts a document exactly when it decodes as
    registry data, its version is not empty, its servers map is present, and
    every server has a description, an image and one of the transports stdio,
    http, sse, streamable-http. A servers map without entries is accepted; a
    missing one is not. *)
Theorem validateRegistryData_accepts (enc : json.Encoding)
  (parseRFC3339 : string -> option Time) (data : string) :
  ConfigMapSource.validateRegistryData enc parseRFC3339 data = None <->
  exists registryData servers,
    ConfigMapSourceHandler.unmarshalRegistryData enc parseRFC3339 data
      = Ok registryData /\
    ConfigMapSourceHandler.RegistryData.Version registryData <> "" /\
    ConfigMapSourceHandler.RegistryData.Servers registryData = Some servers /\
    forall name server, servers !! name = Some server ->
      ConfigMapSourceHandler.Server.Description server <> "" /\
      ConfigMapSourceHandler.Server.Image server <> "" /\
      In (ConfigMapSourceHandler.Server.Transport server)
         ["stdio"; "http"; "sse"; "streamable-http"].
Proof.
  unfold ConfigMapSource.validateRegistryData.
  destruct (ConfigMapSourceHandler.unmarshalRegistryData enc parseRFC3339 data)
    as [rd|e]; [|split; [discriminate | intros (? & ? & H & _); discriminate]].
  destruct (String.eqb_spec (ConfigMapSourceHandler.RegistryData.Version rd) "")
    as [Ev|Ev].
  { split; [discriminate|]. intros (rd' & ? & H & Hv & _).
    inversion H; subst. contradiction. }
  destruct (ConfigMapSourceHandler.RegistryData.Servers rd) as [servers|] eqn:Es.
  - rewrite validateServers_accepts. split.
    + intros H. exists rd, servers. split; [reflexivity|]. split; [exact Ev|].
      split; [exact Es|]. intros name server Hl.
      apply (validateServer_accepts name). apply H.
      apply list_elem_of_In. apply elem_of_map_to_list. exact Hl.
    + intros (rd' & servers' & H & _ & Hs & Hall) name server Hin.
      inversion H; subst rd'. rewrite Es in Hs. inversion Hs; subst servers'.
      apply validateServer_accepts. apply (Hall name).
      apply elem_of_map_to_list. apply list_elem_of_In. exact Hin.
  - split; [discriminate|]. intros (rd' & servers' & H & _ & Hs & _).
    inversion H; subst rd'. rewrite Es in Hs. discriminate.
Qed.

Lemma validateRegistryData_accepts_witness :
  exists registryData servers,
    ConfigMapSourceHandler.unmarshalRegistryData json.std Fixtures.sampleRFC3339
      Fixtures.canonicalFilesystem = Ok registryData /\
    ConfigMapSourceHandler.RegistryData.Version registryData <> "" /\
    ConfigMapSourceHandler.RegistryData.Servers registryData = Some servers.
Proof.
  destruct (proj1 (validateRegistryData_accepts json.std Fixtures.sampleRFC3339
                     Fixtures.canonicalFilesystem))
    as (rd & servers & H1 & H2 & H3 & _).
  - vm_compute. reflexivity.
  - exists rd, servers. auto.
Defined.

(* --------------------------------------------------------------------- *)
(** ** The status manager: conditions and status updates *)
(* --------------------------------------------------------------------- *)

Section ConditionLaws.

Import StatusManager.

Local Abbreviation lookup conditions conditionType :=
  (List.find (fun c => String.eqb (metav1.Type_ c) conditionType) conditions).

Lemma sameStatus_eq a b : sameStatus a b = true <-> a = b.
Proof. destruct a, b; cbn; split; intros H; congruence. Qed.

Lemma setConditionIn_lookup_same now cs t st rs msg :
  exists c,
    lookup (setConditionIn now cs t st rs msg) t = Some c /\
    metav1.Type_ c = t /\ metav1.Status c = st /\
    metav1.Reason c = rs /\ metav1.Message c = msg /\
    (metav1.LastTransitionTime c = Some now \/ lookup cs t = Some c).
Proof.
  induction cs as [|x rest IH]; cbn.
  - rewrite String.eqb_refl. eexists. split; [reflexivity|]. cbn. auto 10.
  - destruct (String.eqb_spec (metav1.Type_ x) t) as [Et|Et].
    + destruct (sameStatus (metav1.Status x) st) eqn:Es;
      destruct (String.eqb_spec (metav1.Reason x) rs) as [Er|Er];
      destruct (String.eqb_spec (metav1.Message x) msg) as [Em|Em]; cbn;
        rewrite ?Et, ?String.eqb_refl;
        try (eexists; split; [reflexivity|]; cbn; auto 10; fail).
      destruct (String.eqb_spec (metav1.Type_ x) t) as [_|N]; [|contradiction].
      exists x. apply sameStatus_eq in Es. auto 10.
    + cbn. destruct (String.eqb_spec (metav1.Type_ x) t) as [E|_]; [contradiction|].
      exact IH.
Qed.

Lemma setConditionIn_lookup_other now cs t st rs msg t' :
  t' <> t ->
  lookup (setConditionIn now cs t st rs msg) t' = lookup cs t'.
Proof.
  intros Hne. induction cs as [|x rest IH]; cbn.
  - destruct (String.eqb_spec t t'); [congruence | reflexivity].
  - destruct (String.eqb_spec (metav1.Type_ x) t) as [Et|Et].
    + destruct (negb _ || negb _ || negb _); cbn; [|reflexivity].
      destruct (String.eqb_spec (metav1.Type_ x) t'); [congruence | reflexivity].
    + cbn. rewrite IH. reflexivity.
Qed.

Lemma setConditionIn_idempotent now now' cs t st rs msg :
  setConditionIn now' (setConditionIn now cs t st rs msg) t st rs msg
  = setConditionIn now cs t st rs msg.
Proof.
  assert (Hs : sameStatus st st = true) by (apply sameStatus_eq; reflexivity).
  induction cs as [|x rest IH]; cbn.
  - rewrite !String.eqb_refl, Hs. reflexivity.
  - destruct (String.eqb (metav1.Type_ x) t) eqn:Et.
    + destruct (negb _ || negb _ || negb _) eqn:D; cbn.
      * rewrite Et, !String.eqb_refl, Hs. reflexivity.
      * rewrite Et, D. reflexivity.
    + cbn. rewrite Et, IH. reflexivity.
Qed.

Lemma setConditionIn_length now cs t st rs msg :
  List.length (setConditionIn now cs t st rs msg)
  = match lookup cs t with
    | Some _ => List.length cs
    | None => S (List.length cs)
    end.
Proof.
  induction cs as [|x rest IH]; cbn; [reflexivity|].
  destruct (String.eqb (metav1.Type_ x) t).
  - destruct (negb _ || negb _ || negb _); reflexivity.
  - cbn. rewrite IH. destruct (lookup rest t); reflexivity.
Qed.

End ConditionLaws.

(** X20. setCondition of the status manager. Afterwards the condition found
    for the type carries the given status, reason and message, and its
    transition time is now unless it is the very condition found before (the
    time changes only when status, reason or message change). Conditions of
    other types are found as before, no second condition of the type is
    added, setting the same values again changes nothing whatever the time,
    and nothing but the conditions of the declaration is touched. *)
Theorem setCondition_laws (now now' : Time) (registry : MCPRegistry)
  (conditionType other : string) (status : metav1.ConditionStatus)
  (reason message : string) :
  let updated :=
    StatusManager.setCondition now registry conditionType status reason message in
  (exists c,
     StatusManager.GetCondition updated conditionType = Some c /\
     metav1.Type_ c = conditionType /\ metav1.Status c = status /\
     metav1.Reason c = reason /\ metav1.Message c = message /\
     (metav1.LastTransitionTime c = Some now \/
      StatusManager.GetCondition registry conditionType = Some c)) /\
  (other <> conditionType ->
   StatusManager.GetCondition updated other
   = StatusManager.GetCondition registry other) /\
  StatusManager.IsConditionTrue updated conditionType
    = StatusManager.sameStatus status metav1.ConditionTrue /\
  StatusManager.setCondition now' updated conditionType status reason message
    = updated /\
  List.length (Conditions (Status updated))
    = match StatusManager.GetCondition registry conditionType with
      | Some _ => List.length (Conditions (Status registry))
      | None => S (List.length (Conditions (Status registry)))
      end /\
  with_Conditions (Status updated) (Conditions (Status registry)) = Status registry /\
  with_Status updated (Status registry) = registry.
Proof.
  cbv zeta. unfold StatusManager.GetCondition, StatusManager.IsConditionTrue,
    StatusManager.setCondition. cbn [Status with_Status Conditions with_Conditions].
  destruct (setConditionIn_lookup_same now (Conditions (Status registry))
              conditionType status reason message)
    as (c & Hc & H1 & H2 & H3 & H4 & H5).
  split; [exists c; auto 10|].
  split; [apply setConditionIn_lookup_other|].
  split; [rewrite Hc, H2; reflexivity|].
  split; [rewrite setConditionIn_idempotent; reflexivity|].
  split; [apply setConditionIn_length|].
  destruct registry as [n ns an dt fs sp st]. destruct st. split; reflexivity.
Qed.

Lemma setCondition_laws_witness :
  StatusManager.GetCondition
    (StatusManager.setCondition 700
       (StatusManager.setCondition 500
          (Fixtures.declaration Fixtures.emptyStatus)
          "SyncSuccessful" metav1.ConditionFalse "SyncFailed" "connection refused")
       "DataValid" metav1.ConditionTrue "DataValid" "Registry data is valid")
    "SyncSuccessful"
  = Some {| metav1.Type_ := "SyncSuccessful"; metav1.Status := metav1.ConditionFalse;
            metav1.Reason := "SyncFailed"; metav1.Message := "connection refused";
            metav1.LastTransitionTime := Some 500 |}.
Proof.
  rewrite (proj1 (proj2 (setCondition_laws 700 700
                           (StatusManager.setCondition 500
                              (Fixtures.declaration Fixtures.emptyStatus)
                              "SyncSuccessful" metav1.ConditionFalse "SyncFailed"
                              "connection refused")
                           "DataValid" "SyncSuccessful" metav1.ConditionTrue
                           "DataValid" "Registry data is valid"))).
  - reflexivity.
  - discriminate.
Defined.
Section StatusUpdates.

Import StatusManager.

Variable clock : nat -> Time.

Lemma setCondition_rest now registry t st rs msg :
  with_Conditions (Status (setCondition now registry t st rs msg)) []
    = with_Conditions (Status registry) [] /\
  forall status,
    with_Status (setCondition now registry t st rs msg) status
    = with_Status registry status.
Proof. split; reflexivity. Qed.

Lemma setCondition_IsConditionTrue now registry t st rs msg :
  IsConditionTrue (setCondition now registry t st rs msg) t
  = sameStatus st metav1.ConditionTrue.
Proof.
  unfold IsConditionTrue, setCondition. cbn [Status with_Status Conditions with_Conditions].
  destruct (setConditionIn_lookup_same now (Conditions (Status registry)) t st rs msg)
    as (c & -> & _ & -> & _). reflexivity.
Qed.

Lemma setCondition_IsConditionTrue_other now registry t st rs msg t' :
  t' <> t ->
  IsConditionTrue (setCondition now registry t st rs msg) t'
  = IsConditionTrue registry t'.
Proof.
  intros H. unfold IsConditionTrue, setCondition.
  cbn [Status with_Status Conditions with_Conditions].
  rewrite setConditionIn_lookup_other by exact H. reflexivity.
Qed.

(** Whatever the error, the conditions are the only part of the declaration
    that changes, and SyncSuccessful ends up false. *)
Lemma updateConditionsForError_spec k registry err :
  with_Conditions (Status (updateConditionsForError clock k registry err)) []
    = with_Conditions (Status registry) [] /\
  (forall status,
     with_Status (updateConditionsForError clock k registry err) status
     = with_Status registry status) /\
  IsConditionTrue (updateConditionsForError clock k registry err)
    ConditionTypeSyncSuccessful = false.
Proof.
  unfold updateConditionsForError.
  destruct err; try (split; [reflexivity | split; [reflexivity|]];
                     apply setCondition_IsConditionTrue).
  repeat match goal with
         | |- context [if ?b then _ else _] => destruct b
         end;
    (split; [reflexivity | split; [reflexivity|]];
     apply setCondition_IsConditionTrue).
Qed.

Lemma StatusUpdate_failed c obj e c1 :
  client.StatusUpdate c obj = (Some e, c1) -> client.object c1 = client.object c.
Proof.
  unfold client.StatusUpdate.
  destruct (client.nextFault c client.CallStatusUpdate) as [f c'] eqn:F.
  apply nextFault_object in F.
  destruct f; [intros E; inversion E; subst; exact F|].
  destruct (client.object c') eqn:O; intros E; inversion E; subst. congruence.
Qed.

Lemma StatusUpdate_written c obj c1 o :
  client.StatusUpdate c obj = (None, c1) -> client.object c = Some o ->
  client.object c1 = Some (with_Status o (Status obj)).
Proof.
  intros E Ho. destruct (StatusUpdate_cases _ _ _ _ _ E Ho) as [[_ H] | [H _]];
    [exact H | congruence].
Qed.

End StatusUpdates.

(** X21. UpdateSyncStatus with a sync error never panics. When the status
    write fails it returns the error wrapped as "failed to update registry
    status" and leaves both the declaration in memory and the stored one as
    they were. When the write succeeds the declaration in memory carries the
    status that was stored: phase Failed, the message "Sync failed: ..." with
    the error, syncAttempts raised by one (32 bits), the condition
    SyncSuccessful not true, and the last sync time, hash, server count and
    storage reference it had. *)
Theorem UpdateSyncStatus_records_failure (clock : nat -> Time) (c : client.Cluster)
  (registry : MCPRegistry) (result : option ConfigMapSourceHandler.SyncResult.t)
  (syncErr : error) :
  match StatusManager.UpdateSyncStatus clock c registry result (Some syncErr) with
  | StatusManager.Panicked _ => False
  | StatusManager.Returned (Some err, c1, registry1) =>
      registry1 = registry /\ client.object c1 = client.object c /\
      exists cause, err = fmtErrorfW "failed to update registry status" cause
  | StatusManager.Returned (None, c1, registry1) =>
      Phase (Status registry1) = MCPRegistryPhaseFailed /\
      Message (Status registry1) = "Sync failed: " +:+ Error syncErr /\
      SyncAttempts (Status registry1)
        = ConfigMapSourceHandler.wrap32 (SyncAttempts (Status registry) + 1) /\
      StatusManager.IsConditionTrue registry1
        StatusManager.ConditionTypeSyncSuccessful = false /\
      LastSyncTime (Status registry1) = LastSyncTime (Status registry) /\
      LastSyncHash (Status registry1) = LastSyncHash (Status registry) /\
      ServerCount (Status registry1) = ServerCount (Status registry) /\
      StorageRef (Status registry1) = StorageRef (Status registry) /\
      Spec registry1 = Spec registry /\
      match client.object c with
      | Some o => client.object c1 = Some (with_Status o (Status registry1))
      | None => False
      end
  end.
Proof.
  unfold StatusManager.UpdateSyncStatus. cbv zeta.
  set (failed := with_Status registry _).
  destruct (updateConditionsForError_spec clock 1 failed syncErr) as (U1 & U2 & U3).
  set (updated := StatusManager.updateConditionsForError clock 1 failed syncErr) in *.
  destruct (client.StatusUpdate c updated) as [[e|] c1] eqn:W.
  - split; [reflexivity|]. split; [eapply StatusUpdate_failed; exact W | eauto].
  - cbn [Status with_Status].
    assert (P : Phase (Status updated) = Phase (Status failed) /\
                Message (Status updated) = Message (Status failed) /\
                SyncAttempts (Status updated) = SyncAttempts (Status failed) /\
                LastSyncTime (Status updated) = LastSyncTime (Status failed) /\
                LastSyncHash (Status updated) = LastSyncHash (Status failed) /\
                ServerCount (Status updated) = ServerCount (Status failed) /\
                StorageRef (Status updated) = StorageRef (Status failed)).
    { clear - U1. destruct (Status updated), (Status failed).
      cbn in U1. inversion U1; subst. cbn. auto 10. }
    destruct P as (P1 & P2 & P3 & P4 & P5 & P6 & P7).
    split; [rewrite P1; reflexivity|]. split; [rewrite P2; reflexivity|].
    split; [rewrite P3; reflexivity|].
    split.
    { unfold StatusManager.IsConditionTrue in *. cbn [Status with_Status]. exact U3. }
    split; [rewrite P4; reflexivity|]. split; [rewrite P5; reflexivity|].
    split; [rewrite P6; reflexivity|]. split; [rewrite P7; reflexivity|].
    split; [reflexivity|].
    destruct (client.object c) as [o|] eqn:Ho.
    + apply (StatusUpdate_written _ _ _ _ W Ho).
    + unfold client.StatusUpdate in W.
      destruct (client.nextFault c client.CallStatusUpdate) as [f c'] eqn:N.
      apply nextFault_object in N. rewrite Ho in N.
      destruct f; [discriminate|]. rewrite N in W. discriminate.
Qed.
Section SyncResults.

Lemma calculateHash_length data :
  String.length (ConfigMapSourceHandler.calculateHash data) = 64%nat.
Proof.
  unfold ConfigMapSourceHandler.calculateHash.
  destruct (Sum256_shape data) as [L F].
  destruct (EncodeToString_shape _ F) as [EL _].
  rewrite EL, L. reflexivity.
Qed.

(** The hash of a result of [Sync] is the hash of some data. *)
Lemma Sync_result_hash enc parseRFC3339 order timestamp client registry res :
  ConfigMapSourceHandler.Sync enc parseRFC3339 order timestamp client registry = Ok res ->
  exists data,
    ConfigMapSourceHandler.SyncResult.Hash res
    = ConfigMapSourceHandler.calculateHash data.
Proof.
  unfold ConfigMapSourceHandler.Sync.
  destruct (ConfigMapSourceHandler.Validate _) as [[e|] source]; [discriminate|].
  destruct (MCPRegistrySource.ConfigMap source) as [cm|]; [|discriminate].
  destruct (kube.GetConfigMap client _ _) as [configMap|e].
  - destruct (corev1.Data configMap !! _) as [data|]; [|discriminate].
    destruct (ConfigMapSourceHandler.unmarshalRegistryData _ _ data); [|discriminate].
    cbv zeta.
    destruct (negb _).
    + destruct (RegistryFormatConverter.Convert _ _ _ _ _); [|discriminate].
      intros E; inversion E; subst. cbn. eauto.
    + intros E; inversion E; subst. cbn. eauto.
  - destruct (match e with ErrNotFound => true | _ => false end); discriminate.
Qed.

End SyncResults.

(** X22. UpdateSyncStatus with a sync result. It panics, before any write,
    when the hash of the result has fewer than eight characters; it never
    panics on a result of the ConfigMap handler's Sync. For such a result a
    failed write leaves the declaration in memory untouched, and a successful
    one leaves it in phase Ready with the server count of the result (zero
    included), its hash, lastSyncTime at the first clock reading, syncAttempts
    0 and the conditions SourceAvailable, DataValid and SyncSuccessful true. *)
Theorem UpdateSyncStatus_records_success (clock : nat -> Time) (c : client.Cluster)
  (synced registry : MCPRegistry) (result : ConfigMapSourceHandler.SyncResult.t)
  (enc : json.Encoding) (parseRFC3339 : string -> option Time) (order : nat)
  (timestamp : string) (reader : kube.Reader) :
  ((String.length (ConfigMapSourceHandler.SyncResult.Hash result) < 8)%nat ->
   exists message,
     StatusManager.UpdateSyncStatus clock c registry (Some result) None
     = StatusManager.Panicked message) /\
  (ConfigMapSourceHandler.Sync enc parseRFC3339 order timestamp reader synced
     = Ok result ->
   match StatusManager.UpdateSyncStatus clock c registry (Some result) None with
   | StatusManager.Panicked _ => False
   | StatusManager.Returned (Some err, c1, registry1) =>
       registry1 = registry /\ client.object c1 = client.object c
   | StatusManager.Returned (None, c1, registry1) =>
       Phase (Status registry1) = MCPRegistryPhaseReady /\
       ServerCount (Status registry1)
         = ConfigMapSourceHandler.SyncResult.ServerCount result /\
       LastSyncHash (Status registry1) = ConfigMapSourceHandler.SyncResult.Hash result /\
       LastSyncTime (Status registry1) = Some (clock 0%nat) /\
       SyncAttempts (Status registry1) = 0 /\
       StorageRef (Status registry1) = StorageRef (Status registry) /\
       Forall (fun t => StatusManager.IsConditionTrue registry1 t = true)
         [StatusManager.ConditionTypeSourceAvailable;
          StatusManager.ConditionTypeDataValid;
          StatusManager.ConditionTypeSyncSuccessful]
   end).
Proof.
  split.
  - intros H. unfold StatusManager.UpdateSyncStatus. cbv zeta.
    destruct (Nat.ltb_spec (String.length (ConfigMapSourceHandler.SyncResult.Hash result)) 8)
      as [_|G]; [eauto | lia].
  - intros HS. apply Sync_result_hash in HS. destruct HS as [data Hh].
    unfold StatusManager.UpdateSyncStatus. cbv zeta.
    destruct (Nat.ltb_spec (String.length (ConfigMapSourceHandler.SyncResult.Hash result)) 8)
      as [G|_].
    { rewrite Hh, calculateHash_length in G. lia. }
    match goal with
    | |- context [client.StatusUpdate c ?u] =>
        set (updated := u); destruct (client.StatusUpdate c updated) as [[e|] c1] eqn:W
    end.
    + split; [reflexivity | eapply StatusUpdate_failed; exact W].
    + cbn [Status with_Status].
      split; [reflexivity|]. split; [reflexivity|]. split; [reflexivity|].
      split; [reflexivity|]. split; [reflexivity|]. split; [reflexivity|].
      unfold StatusManager.IsConditionTrue. cbn [Status with_Status].
      change (Forall (fun t => StatusManager.IsConditionTrue updated t = true)
                [StatusManager.ConditionTypeSourceAvailable;
                 StatusManager.ConditionTypeDataValid;
                 StatusManager.ConditionTypeSyncSuccessful]).
      unfold updated.
      constructor; [|constructor; [|constructor; [|constructor]]].
      * rewrite setCondition_IsConditionTrue_other by discriminate.
        rewrite setCondition_IsConditionTrue_other by discriminate.
        apply setCondition_IsConditionTrue.
      * rewrite setCondition_IsConditionTrue_other by discriminate.
        apply setCondition_IsConditionTrue.
      * apply setCondition_IsConditionTrue.
Qed.

Lemma UpdateSyncStatus_records_success_witness :
  exists c1 registry1,
    StatusManager.UpdateSyncStatus (fun k => 700 + Z.of_nat k)
      (Fixtures.clusterOf (Fixtures.declaration (Fixtures.failedStatus 2)))
      (Fixtures.declaration (Fixtures.failedStatus 2))
      (Some Samples.syncedResult) None
    = StatusManager.Returned (None, c1, registry1) /\
    Phase (Status registry1) = MCPRegistryPhaseReady /\
    ServerCount (Status registry1) = 1 /\
    SyncAttempts (Status registry1) = 0.
Proof.
  pose proof (proj2 (UpdateSyncStatus_records_success (fun k => 700 + Z.of_nat k)
                (Fixtures.clusterOf (Fixtures.declaration (Fixtures.failedStatus 2)))
                (Fixtures.declaration Fixtures.emptyStatus)
                (Fixtures.declaration (Fixtures.failedStatus 2))
                Samples.syncedResult json.std Fixtures.sampleRFC3339 0
                "2025-09-02T00:17:21Z"
                (Fixtures.readerOf (Err ErrNotFound)
                   (Ok (Fixtures.sourceConfigMap "registry.json"
                          Fixtures.canonicalFilesystem))))) as H.
  assert (E : ConfigMapSourceHandler.Sync json.std Fixtures.sampleRFC3339 0
                "2025-09-02T00:17:21Z"
                (Fixtures.readerOf (Err ErrNotFound)
                   (Ok (Fixtures.sourceConfigMap "registry.json"
                          Fixtures.canonicalFilesystem)))
                (Fixtures.declaration Fixtures.emptyStatus)
              = Ok Samples.syncedResult) by (vm_compute; reflexivity).
  specialize (H E). clear E.
  set (u := StatusManager.UpdateSyncStatus _ _ _ _ _) in *.
  assert (U : exists c1 registry1, u = StatusManager.Returned (None, c1, registry1))
    by (vm_compute; do 2 eexists; reflexivity).
  destruct U as (c1 & r1 & U). rewrite U in H.
  exists c1, r1. destruct H as (H1 & H2 & _ & _ & H5 & _).
  split; [exact U|]. split; [exact H1|]. split; [|exact H5].
  rewrite H2. vm_compute. reflexivity.
Defined.
(** X23. UpdatePhase writes only on a change and is idempotent. A call that
    succeeds leaves the declaration in memory with the given phase and
    message and every other status field as it was, and a second call with
    the same phase and message returns at once: no API call, nothing changed.
    A call whose write fails returns the error wrapped as "failed to update
    registry phase" and leaves the declaration in memory and the stored one
    untouched. *)
Theorem UpdatePhase_idempotent (c : client.Cluster) (registry : MCPRegistry)
  (phase : MCPRegistryPhase) (message : string) :
  match StatusManager.UpdatePhase c registry phase message with
  | (None, c1, registry1) =>
      registry1
      = with_Status registry
          (with_Message (with_Phase (Status registry) phase) message) /\
      StatusManager.UpdatePhase c1 registry1 phase message = (None, c1, registry1)
  | (Some err, c1, registry1) =>
      registry1 = registry /\ client.object c1 = client.object c /\
      exists cause, err = fmtErrorfW "failed to update registry phase" cause
  end.
Proof.
  unfold StatusManager.UpdatePhase.
  destruct (String.eqb_spec (Phase (Status registry)) phase) as [Ep|Ep];
    [destruct (String.eqb_spec (Message (Status registry)) message) as [Em|Em]|];
    cbn [andb].
  - split.
    + subst. destruct registry as [n ns an dt fs sp st]. destruct st. reflexivity.
    + destruct (String.eqb_spec (Phase (Status registry)) phase); [|contradiction].
      destruct (String.eqb_spec (Message (Status registry)) message); [|contradiction].
      reflexivity.
  - destruct (client.StatusUpdate c _) as [[e|] c1] eqn:W.
    + split; [reflexivity|]. split; [eapply StatusUpdate_failed; exact W | eauto].
    + split; [reflexivity|]. cbn. rewrite !String.eqb_refl. reflexivity.
  - destruct (client.StatusUpdate c _) as [[e|] c1] eqn:W.
    + split; [reflexivity|]. split; [eapply StatusUpdate_failed; exact W | eauto].
    + split; [reflexivity|]. cbn. rewrite !String.eqb_refl. reflexivity.
Qed.

(* --------------------------------------------------------------------- *)
(** ** The storage manager: store, get, delete *)
(* --------------------------------------------------------------------- *)

Section StorageCalls.

Import storage StorageView.

Lemma nextFault_configMaps c call f c1 :
  nextFault c call = (f, c1) ->
  configMaps c1 = configMaps c /\ registered c1 = registered c /\
  (faults c = [] -> f = None /\ faults c1 = []).
Proof.
  unfold nextFault. destruct (faults c) as [|x xs]; intros E; inversion E; subst; cbn.
  - auto.
  - split; [reflexivity|]. split; [reflexivity|]. discriminate.
Qed.

Lemma nextFault_nextSucceeds c call f c1 :
  nextFault c call = (f, c1) -> nextSucceeds c -> f = None.
Proof.
  unfold nextFault, nextSucceeds.
  destruct (faults c) as [|[e|] xs]; intros E; inversion E; subst; tauto.
Qed.

Lemma clientGet_spec c name namespace res c1 :
  clientGet c name namespace = (res, c1) ->
  configMaps c1 = configMaps c /\ registered c1 = registered c /\
  (faults c = [] -> faults c1 = []) /\
  (forall cm, res = Ok cm -> configMaps c !! (namespace, name) = Some cm) /\
  (nextSucceeds c ->
   res = match configMaps c !! (namespace, name) with
         | Some cm => Ok cm
         | None => Err ErrNotFound
         end).
Proof.
  unfold clientGet. destruct (nextFault c CallGet) as [f c'] eqn:F.
  pose proof (nextFault_nextSucceeds _ _ _ _ F) as Hn.
  apply nextFault_configMaps in F. destruct F as (Fm & Fr & Ff).
  destruct f as [e|].
  - intros E; inversion E; subst. split; [exact Fm|]. split; [exact Fr|].
    split; [intros H; apply Ff, H|]. split; [discriminate|].
    intros H. specialize (Hn H). discriminate.
  - rewrite Fm. destruct (configMaps c !! (namespace, name)) as [cm|] eqn:L;
      intros E; inversion E; subst;
      (split; [exact Fm|]; split; [exact Fr|]; split; [intros H; apply Ff, H|]);
      (split; [intros cm' H'; inversion H'; subst; reflexivity || discriminate
              | reflexivity]).
Qed.

Lemma clientCreate_spec c cm err c1 :
  clientCreate c cm = (err, c1) ->
  (faults c = [] -> faults c1 = []) /\
  match err with
  | Some _ => configMaps c1 = configMaps c
  | None =>
      configMaps c !! (ConfigMap.Namespace cm, ConfigMap.Name cm) = None /\
      configMaps c1 = <[(ConfigMap.Namespace cm, ConfigMap.Name cm) := cm]> (configMaps c)
  end /\
  (nextSucceeds c ->
   configMaps c !! (ConfigMap.Namespace cm, ConfigMap.Name cm) = None -> err = None).
Proof.
  unfold clientCreate. destruct (nextFault c CallCreate) as [f c'] eqn:F.
  pose proof (nextFault_nextSucceeds _ _ _ _ F) as Hn.
  apply nextFault_configMaps in F. destruct F as (Fm & Fr & Ff).
  destruct f as [e|].
  - intros E; inversion E; subst. split; [intros H; apply Ff, H|].
    split; [exact Fm|]. intros H. specialize (Hn H). discriminate.
  - rewrite Fm.
    destruct (configMaps c !! (ConfigMap.Namespace cm, ConfigMap.Name cm)) eqn:L;
      intros E; inversion E; subst; cbn.
    + split; [intros H; apply Ff, H|]. split; [exact Fm|]. intros _ H. discriminate.
    + split; [intros H; apply Ff, H|]. split; [auto | reflexivity].
Qed.

Lemma clientUpdate_spec c cm err c1 :
  clientUpdate c cm = (err, c1) ->
  (faults c = [] -> faults c1 = []) /\
  match err with
  | Some _ => configMaps c1 = configMaps c
  | None =>
      configMaps c1 = <[(ConfigMap.Namespace cm, ConfigMap.Name cm) := cm]> (configMaps c)
  end /\
  (nextSucceeds c ->
   is_Some (configMaps c !! (ConfigMap.Namespace cm, ConfigMap.Name cm)) -> err = None).
Proof.
  unfold clientUpdate. destruct (nextFault c CallUpdate) as [f c'] eqn:F.
  pose proof (nextFault_nextSucceeds _ _ _ _ F) as Hn.
  apply nextFault_configMaps in F. destruct F as (Fm & Fr & Ff).
  destruct f as [e|].
  - intros E; inversion E; subst. split; [intros H; apply Ff, H|].
    split; [exact Fm|]. intros H. specialize (Hn H). discriminate.
  - rewrite Fm.
    destruct (configMaps c !! (ConfigMap.Namespace cm, ConfigMap.Name cm)) eqn:L;
      intros E; inversion E; subst; cbn.
    + split; [intros H; apply Ff, H|]. split; [reflexivity | reflexivity].
    + split; [intros H; apply Ff, H|]. split; [exact Fm|].
      intros _ [x Hx]. discriminate.
Qed.

Lemma clientDelete_spec c name namespace err c1 :
  clientDelete c name namespace = (err, c1) ->
  (faults c = [] -> faults c1 = []) /\
  match err with
  | Some _ => configMaps c1 = configMaps c
  | None => configMaps c1 = delete (namespace, name) (configMaps c)
  end /\
  (nextSucceeds c ->
   err = match configMaps c !! (namespace, name) with
         | Some _ => None
         | None => Some ErrNotFound
         end).
Proof.
  unfold clientDelete. destruct (nextFault c CallDelete) as [f c'] eqn:F.
  pose proof (nextFault_nextSucceeds _ _ _ _ F) as Hn.
  apply nextFault_configMaps in F. destruct F as (Fm & Fr & Ff).
  destruct f as [e|].
  - intros E; inversion E; subst. split; [intros H; apply Ff, H|].
    split; [exact Fm|]. intros H. specialize (Hn H). discriminate.
  - rewrite Fm. destruct (configMaps c !! (namespace, name)) eqn:L;
      intros E; inversion E; subst; cbn.
    + split; [intros H; apply Ff, H|]. split; reflexivity.
    + split; [intros H; apply Ff, H|]. split; [exact Fm | reflexivity].
Qed.

End StorageCalls.
Section StoreLaws.

Import storage StorageView.

(** The ConfigMap [Store] composes before it looks at the cluster. *)
Local Abbreviation composed registry data :=
  {| ConfigMap.Name := getStorageConfigMapName registry;
     ConfigMap.Namespace := Namespace registry;
     ConfigMap.Labels := getStorageLabels registry;
     ConfigMap.Annotations :=
       {[ "toolhive.stacklok.dev/registry-name" := Name registry;
          "toolhive.stacklok.dev/registry-format" := Format (Spec registry);
          "toolhive.stacklok.dev/storage-type" := "registry-data" ]};
     ConfigMap.OwnerReferences := [controllerRef registry];
     ConfigMap.Data := {[ StorageConfigMapKeyData := data ]} |}.

Lemma SetControllerReference_fresh c registry data :
  SetControllerReference c registry
    {| ConfigMap.Name := getStorageConfigMapName registry;
       ConfigMap.Namespace := Namespace registry;
       ConfigMap.Labels := getStorageLabels registry;
       ConfigMap.Annotations :=
         {[ "toolhive.stacklok.dev/registry-name" := Name registry;
            "toolhive.stacklok.dev/registry-format" := Format (Spec registry);
            "toolhive.stacklok.dev/storage-type" := "registry-data" ]};
       ConfigMap.OwnerReferences := [];
       ConfigMap.Data := {[ StorageConfigMapKeyData := data ]} |}
  = if registered c then Ok (composed registry data)
    else Err (ErrOther "no kind is registered for the type v1alpha1.MCPRegistry").
Proof.
  unfold SetControllerReference. destruct (registered c); [|reflexivity].
  cbn. destruct (String.eqb_spec (Namespace registry) "") as [E|E]; cbn.
  - reflexivity.
  - rewrite String.eqb_refl. cbn.
    destruct (String.eqb_spec (Namespace registry) ""); [contradiction | reflexivity].
Qed.

(** What a successful [Store] leaves: the composed ConfigMap when it created
    one, the existing one with data, labels and annotations replaced when it
    updated. *)
Lemma Store_written c registry data c1 :
  Store c registry data = (None, c1) ->
  wellKeyed c ->
  registered c = true /\
  (faults c = [] -> faults c1 = []) /\
  exists cm,
    configMaps c1 = <[storageKey registry := cm]> (configMaps c) /\
    ConfigMap.Name cm = getStorageConfigMapName registry /\
    ConfigMap.Namespace cm = Namespace registry /\
    ConfigMap.Data cm = {[ StorageConfigMapKeyData := data ]} /\
    ConfigMap.Labels cm = getStorageLabels registry /\
    ConfigMap.OwnerReferences cm
    = match configMaps c !! storageKey registry with
      | Some old => ConfigMap.OwnerReferences old
      | None => [controllerRef registry]
      end.
Proof.
  unfold Store. cbv zeta. rewrite SetControllerReference_fresh.
  destruct (registered c); [|discriminate].
  destruct (clientGet c _ _) as [res cg] eqn:G.
  apply clientGet_spec in G. destruct G as (Gm & _ & Gf & Gok & _).
  intros E W. split; [reflexivity|].
  destruct res as [existing|e].
  - specialize (Gok existing eq_refl).
    destruct (W _ _ _ Gok) as [Wn Wm].
    destruct (clientUpdate cg _) as [[ue|] cu] eqn:U; [discriminate|].
    inversion E; subst cu. apply clientUpdate_spec in U.
    destruct U as (Uf & Um & _). cbn in Um.
    split; [auto|]. eexists. split.
    + rewrite Um, Gm, Wn, Wm. reflexivity.
    + cbn. unfold storageKey. rewrite Gok. auto 10.
  - destruct (controllers.IsNotFound e); [|discriminate].
    destruct (clientCreate cg _) as [[ce|] cc] eqn:C; [discriminate|].
    inversion E; subst cc. apply clientCreate_spec in C.
    destruct C as (Cf & [Cn Cm] & _). cbn in Cn, Cm.
    split; [auto|]. eexists. split.
    + rewrite Cm, Gm. reflexivity.
    + cbn. unfold storageKey. rewrite <- Gm, Cn. auto 10.
Qed.

Lemma wellKeyed_insert c c1 registry cm :
  wellKeyed c ->
  configMaps c1 = <[storageKey registry := cm]> (configMaps c) ->
  ConfigMap.Name cm = getStorageConfigMapName registry ->
  ConfigMap.Namespace cm = Namespace registry ->
  wellKeyed c1.
Proof.
  intros W E Hn Hs namespace name x. rewrite E.
  destruct (decide (storageKey registry = (namespace, name))) as [K|K].
  - rewrite K, lookup_insert_eq. intros H; inversion H; subst x.
    unfold storageKey in K. inversion K; subst. auto.
  - rewrite lookup_insert_ne by exact K. apply W.
Qed.

Lemma storage_Store_quiet c registry data :
  faults c = [] -> registered c = true -> wellKeyed c ->
  exists c1, Store c registry data = (None, c1).
Proof.
  intros Hf Hr W. unfold Store. cbv zeta. rewrite SetControllerReference_fresh, Hr.
  destruct (clientGet c _ _) as [res cg] eqn:G.
  apply clientGet_spec in G. destruct G as (Gm & _ & Gf & Gok & Gn).
  assert (N : nextSucceeds c) by (unfold nextSucceeds; rewrite Hf; exact I).
  specialize (Gn N). specialize (Gf Hf).
  assert (Ng : nextSucceeds cg) by (unfold nextSucceeds; rewrite Gf; exact I).
  destruct (configMaps c !! (Namespace registry, getStorageConfigMapName registry))
    as [old|] eqn:L; subst res.
  - destruct (clientUpdate cg _) as [ue cu] eqn:U.
    apply clientUpdate_spec in U. destruct U as (_ & _ & Un).
    rewrite Un; [eauto | exact Ng |].
    cbn. rewrite Gm.
    destruct (W _ _ _ L) as [-> ->]. rewrite L. eauto.
  - cbn. destruct (clientCreate cg _) as [ce cc] eqn:C.
    apply clientCreate_spec in C. destruct C as (_ & _ & Cn).
    rewrite Cn; [eauto | exact Ng |]. cbn. rewrite Gm. exact L.
Qed.

End StoreLaws.
(** X24. A Store that fails changes nothing: whatever the outcome of the API
    calls, when Store returns an error the ConfigMaps of the cluster are the
    ones it found. When the scheme does not know the kind of the declaration
    it fails on the controller reference, before any API call. *)
Theorem Store_failure_changes_nothing (c c1 : storage.Cluster)
  (registry : MCPRegistry) (data : string) (err : error) :
  storage.Store c registry data = (Some err, c1) ->
  storage.configMaps c1 = storage.configMaps c /\
  (storage.registered c = false ->
   c1 = c /\
   exists cause, err = fmtErrorfW "failed to set controller reference" cause).
Proof.
  unfold storage.Store. cbv zeta. rewrite SetControllerReference_fresh.
  destruct (storage.registered c).
  - destruct (storage.clientGet c _ _) as [res cg] eqn:G.
    apply clientGet_spec in G. destruct G as (Gm & _).
    destruct res as [existing|e].
    + destruct (storage.clientUpdate cg _) as [[ue|] cu] eqn:U; [|discriminate].
      apply clientUpdate_spec in U. destruct U as (_ & Um & _).
      intros E; inversion E; subst. split; [congruence | discriminate].
    + destruct (controllers.IsNotFound e).
      * destruct (storage.clientCreate cg _) as [[ce|] cc] eqn:C; [|discriminate].
        apply clientCreate_spec in C. destruct C as (_ & Cm & _).
        intros E; inversion E; subst. split; [congruence | discriminate].
      * intros E; inversion E; subst. split; [exact Gm | discriminate].
  - intros E; inversion E; subst. split; [reflexivity|]. intros _. eauto.
Qed.

Lemma Store_failure_changes_nothing_witness :
  storage.configMaps
    (snd (storage.Store
            {| storage.configMaps := ∅; storage.registered := true;
               storage.faults := [None; Some Fixtures.conflict];
               storage.trace := [] |}
            (Fixtures.declaration Fixtures.emptyStatus) Fixtures.canonicalFilesystem))
  = ∅.
Proof.
  apply (Store_failure_changes_nothing
           {| storage.configMaps := ∅; storage.registered := true;
              storage.faults := [None; Some Fixtures.conflict];
              storage.trace := [] |}
           _ (Fixtures.declaration Fixtures.emptyStatus)
           Fixtures.canonicalFilesystem
           (fmtErrorfW "failed to create storage ConfigMap" Fixtures.conflict)).
  vm_compute. reflexivity.
Defined.

(** X25. Store and Get round trip. In a cluster whose ConfigMaps are stored
    under their own names, with the kind registered and no failing API call,
    Store succeeds. Whenever Store returns no error, the storage ConfigMap of
    the declaration holds exactly the data under the key registry.json (other
    keys it had are gone) with the storage labels; it carries the controller
    reference to the declaration when Store created it and keeps the owner
    references it had when Store updated it; every other ConfigMap is
    untouched; and a Get that reaches the API server returns the data. *)
Theorem Store_Get_round_trip (c c1 : storage.Cluster) (registry : MCPRegistry)
  (data : string) :
  StorageView.wellKeyed c ->
  (storage.faults c = [] -> storage.registered c = true ->
   fst (storage.Store c registry data) = None) /\
  (storage.Store c registry data = (None, c1) ->
   StorageView.wellKeyed c1 /\
   (forall key, key <> StorageView.storageKey registry ->
      storage.configMaps c1 !! key = storage.configMaps c !! key) /\
   (exists cm,
      storage.configMaps c1 !! StorageView.storageKey registry = Some cm /\
      storage.ConfigMap.Data cm = {[ storage.StorageConfigMapKeyData := data ]} /\
      storage.ConfigMap.Labels cm = storage.getStorageLabels registry /\
      storage.ConfigMap.OwnerReferences cm
      = match storage.configMaps c !! StorageView.storageKey registry with
        | Some old => storage.ConfigMap.OwnerReferences old
        | None => [StorageView.controllerRef registry]
        end) /\
   (StorageView.nextSucceeds c1 -> fst (storage.Get c1 registry) = Ok data)).
Proof.
  intros W. split.
  - intros Hf Hr. destruct (storage_Store_quiet c registry data Hf Hr W) as [c' ->].
    reflexivity.
  - intros E. destruct (Store_written _ _ _ _ E W)
      as (_ & _ & cm & Em & Hn & Hs & Hd & Hl & Ho).
    split; [eapply wellKeyed_insert; eassumption|].
    split; [intros key Hk; rewrite Em; apply lookup_insert_ne; congruence|].
    assert (L : storage.configMaps c1 !! StorageView.storageKey registry = Some cm)
      by (rewrite Em; apply lookup_insert_eq).
    split; [exists cm; auto|].
    intros N. unfold storage.Get. cbv zeta.
    destruct (storage.clientGet c1 _ _) as [res cg] eqn:G.
    apply clientGet_spec in G. destruct G as (_ & _ & _ & _ & Gn).
    rewrite (Gn N). unfold StorageView.storageKey in L. rewrite L.
    rewrite Hd. unfold storage.StorageConfigMapKeyData.
    rewrite lookup_singleton_eq. reflexivity.
Qed.

Lemma Store_Get_round_trip_witness :
  fst (storage.Get
         (snd (storage.Store
                 {| storage.configMaps := ∅; storage.registered := true;
                    storage.faults := []; storage.trace := [] |}
                 (Fixtures.declaration Fixtures.emptyStatus)
                 Fixtures.canonicalFilesystem))
         (Fixtures.declaration Fixtures.emptyStatus))
  = Ok Fixtures.canonicalFilesystem.
Proof.
  assert (W : StorageView.wellKeyed
                {| storage.configMaps := ∅; storage.registered := true;
                   storage.faults := []; storage.trace := [] |}).
  { intros namespace name cm H. cbn in H. rewrite lookup_empty in H. discriminate. }
  destruct (Store_Get_round_trip
              {| storage.configMaps := ∅; storage.registered := true;
                 storage.faults := []; storage.trace := [] |}
              (snd (storage.Store
                      {| storage.configMaps := ∅; storage.registered := true;
                         storage.faults := []; storage.trace := [] |}
                      (Fixtures.declaration Fixtures.emptyStatus)
                      Fixtures.canonicalFilesystem))
              (Fixtures.declaration Fixtures.emptyStatus)
              Fixtures.canonicalFilesystem W) as [H1 H2].
  specialize (H1 eq_refl eq_refl).
  destruct (storage.Store _ _ _) as [e c1] eqn:E. cbn in H1. subst e.
  destruct (H2 eq_refl) as (_ & _ & _ & H). apply H.
  unfold storage.Store in E. cbn in E. inversion E. exact I.
Defined.
(** X26. Delete of the storage manager. Whatever the outcome of the API call
    it touches no ConfigMap but the storage ConfigMap of the declaration, and
    none at all when it returns an error. When the call reaches the API
    server, Delete returns no error whether or not the ConfigMap exists (a
    missing one is no error), the ConfigMap is gone afterwards, a Get then
    fails with "storage ConfigMap not found", and a second Delete succeeds
    again. *)
Theorem Delete_is_idempotent (c : storage.Cluster) (registry : MCPRegistry) :
  let err := fst (storage.Delete c registry) in
  let c1 := snd (storage.Delete c registry) in
  (forall key, key <> StorageView.storageKey registry ->
     storage.configMaps c1 !! key = storage.configMaps c !! key) /\
  (err <> None -> storage.configMaps c1 = storage.configMaps c) /\
  (storage.faults c = [] ->
   err = None /\
   storage.configMaps c1 !! StorageView.storageKey registry = None /\
   fst (storage.Get c1 registry)
     = Err (fmtErrorfW "storage ConfigMap not found" ErrNotFound) /\
   fst (storage.Delete c1 registry) = None).
Proof.
  cbv zeta. destruct (storage.Delete c registry) as [err c1] eqn:E. cbn [fst snd].
  unfold storage.Delete in E. cbv zeta in E.
  destruct (storage.clientDelete c _ _) as [de cd] eqn:D.
  apply clientDelete_spec in D. destruct D as (Df & Dm & Dn).
  assert (Hc : c1 = cd).
  { destruct de as [e|]; [destruct (controllers.IsNotFound e)|]; inversion E; reflexivity. }
  subst cd.
  assert (Hm : forall key, key <> StorageView.storageKey registry ->
                 storage.configMaps c1 !! key = storage.configMaps c !! key).
  { intros key Hk. destruct de as [e|]; rewrite Dm; [reflexivity|].
    apply lookup_delete_ne. unfold StorageView.storageKey in Hk. congruence. }
  split; [exact Hm|]. split.
  - destruct de as [e|]; [exact (fun _ => Dm)|].
    inversion E; subst. intros H; contradiction.
  - intros Hf. specialize (Df Hf).
    assert (N : StorageView.nextSucceeds c)
      by (unfold StorageView.nextSucceeds; rewrite Hf; exact I).
    specialize (Dn N).
    assert (Gone : storage.configMaps c1 !! StorageView.storageKey registry = None).
    { unfold StorageView.storageKey.
      destruct (storage.configMaps c
                  !! (Namespace registry, storage.getStorageConfigMapName registry))
        eqn:L; subst de; rewrite Dm; [apply lookup_delete_eq | exact L]. }
    assert (He : err = None).
    { destruct (storage.configMaps c
                  !! (Namespace registry, storage.getStorageConfigMapName registry));
        subst de; inversion E; reflexivity. }
    assert (Nd : StorageView.nextSucceeds c1)
      by (unfold StorageView.nextSucceeds; rewrite Df; exact I).
    unfold StorageView.storageKey in Gone.
    split; [exact He|]. split; [exact Gone|]. split.
    + unfold storage.Get. cbv zeta.
      destruct (storage.clientGet c1 _ _) as [res cg] eqn:G.
      apply clientGet_spec in G. destruct G as (_ & _ & _ & _ & Gn).
      rewrite (Gn Nd), Gone. reflexivity.
    + unfold storage.Delete. cbv zeta.
      destruct (storage.clientDelete c1 _ _) as [de2 cd2] eqn:D2.
      apply clientDelete_spec in D2. destruct D2 as (_ & _ & Dn2).
      rewrite (Dn2 Nd), Gone. reflexivity.
Qed.

Lemma Delete_is_idempotent_witness :
  fst (storage.Delete
         {| storage.configMaps := ∅; storage.registered := true;
            storage.faults := []; storage.trace := [] |}
         (Fixtures.declaration Fixtures.emptyStatus)) = None.
Proof.
  apply (proj2 (proj2 (Delete_is_idempotent
                         {| storage.configMaps := ∅; storage.registered := true;
                            storage.faults := []; storage.trace := [] |}
                         (Fixtures.declaration Fixtures.emptyStatus)))).
  reflexivity.
Defined.

(** X27. What Store writes is what the registry API reads. After a Store that
    returned no error, an API server serving the declaration, whose status
    holds the reference GetStorageReference returns, gets from
    getRegistryData exactly the data that was stored. *)
Theorem Store_is_read_by_the_API (c c1 : storage.Cluster)
  (registry served : MCPRegistry) (data : string) :
  StorageView.wellKeyed c ->
  storage.Store c registry data = (None, c1) ->
  Name served = Name registry ->
  Namespace served = Namespace registry ->
  StorageRef (Status served) = storage.GetStorageReference registry ->
  registryapi.getRegistryData (StorageView.serverOf c1 served) = Ok data.
Proof.
  intros W E Hn Hs Hr.
  destruct (Store_written _ _ _ _ E W) as (_ & _ & cm & Em & _ & _ & Hd & _).
  unfold registryapi.getRegistryData, StorageView.serverOf. cbn.
  rewrite !String.eqb_refl. cbn. rewrite Hr. cbn.
  rewrite Em. unfold StorageView.storageKey. rewrite lookup_insert_eq. cbn.
  rewrite Hd. unfold registryapi.StorageConfigMapKeyData, storage.StorageConfigMapKeyData.
  rewrite lookup_singleton_eq. reflexivity.
Qed.

Lemma Store_is_read_by_the_API_witness :
  registryapi.getRegistryData
    (StorageView.serverOf
       (snd (storage.Store
               {| storage.configMaps := ∅; storage.registered := true;
                  storage.faults := []; storage.trace := [] |}
               (Fixtures.declaration Fixtures.emptyStatus)
               Fixtures.canonicalFilesystem))
       (Fixtures.declaration Fixtures.syncedStatus))
  = Ok Fixtures.canonicalFilesystem.
Proof.
  apply (Store_is_read_by_the_API
           {| storage.configMaps := ∅; storage.registered := true;
              storage.faults := []; storage.trace := [] |}
           _ (Fixtures.declaration Fixtures.emptyStatus)).
  - intros namespace name cm H. cbn in H. rewrite lookup_empty in H. discriminate.
  - vm_compute. reflexivity.
  - reflexivity.
  - reflexivity.
  - reflexivity.
Defined.

(* --------------------------------------------------------------------- *)
(** ** The reconciler over the managers: watching, scheduling, deletion *)
(* --------------------------------------------------------------------- *)

Section WatchedConfigMaps.

Lemma reads_condition registry name namespace :
  name <> "" ->
  Watching.reads registry name namespace
  = if String.eqb (MCPRegistrySource.Type_ (Source (Spec registry)))
         RegistrySourceTypeConfigMap then
      match MCPRegistrySource.ConfigMap (Source (Spec registry)) with
      | Some cmSource =>
          String.eqb (ConfigMapRegistrySource.Name cmSource) name
          && String.eqb
               (if String.eqb (ConfigMapRegistrySource.Namespace cmSource) ""
                then Namespace registry
                else ConfigMapRegistrySource.Namespace cmSource) namespace
      | None => false
      end
    else false.
Proof.
  intros Hn.
  unfold Watching.reads, ConfigMapSource.GetConfigMapReference,
    ConfigMapSourceHandler.Validate, RegistrySourceTypeConfigMap,
    ConfigMapSourceHandler.ConfigMapSourceType.
  destruct (String.eqb (MCPRegistrySource.Type_ (Source (Spec registry))) "configmap");
    cbn [negb]; [|reflexivity].
  destruct (MCPRegistrySource.ConfigMap (Source (Spec registry))) as [cm|] eqn:Ec;
    [|reflexivity].
  destruct (String.eqb_spec (ConfigMapRegistrySource.Name cm) "") as [E0|E0].
  - rewrite E0. destruct (String.eqb_spec "" name) as [E|_]; [congruence|].
    reflexivity.
  - destruct (String.eqb (ConfigMapRegistrySource.Key cm) "").
    + reflexivity.
    + rewrite Ec. reflexivity.
Qed.

Lemma requestsFor_reads items name namespace :
  name <> "" ->
  reconciler.requestsFor items name namespace
  = List.map Watching.requestOf
      (List.filter (fun registry => Watching.reads registry name namespace) items).
Proof.
  intros Hn. induction items as [|registry rest IH]; [reflexivity|].
  cbn [reconciler.requestsFor List.filter]. rewrite IH. clear IH.
  rewrite (reads_condition registry name namespace Hn).
  destruct (String.eqb (MCPRegistrySource.Type_ (Source (Spec registry)))
              RegistrySourceTypeConfigMap); [|reflexivity].
  destruct (MCPRegistrySource.ConfigMap (Source (Spec registry))) as [cm|];
    [|reflexivity].
  cbv zeta.
  destruct (String.eqb (ConfigMapRegistrySource.Name cm) name
            && String.eqb
                 (if String.eqb (ConfigMapRegistrySource.Namespace cm) ""
                  then Namespace registry
                  else ConfigMapRegistrySource.Namespace cm) namespace);
    reflexivity.
Qed.

End WatchedConfigMaps.

(** X28. The watch on ConfigMaps enqueues exactly the declarations that read
    the ConfigMap. For a ConfigMap with a name, findMCPRegistriesForConfigMap
    returns, in the order of the list, one request (name and namespace of the
    declaration) for each listed declaration for which GetConfigMapReference
    succeeds and names that ConfigMap, and no other; when the list call fails
    it returns none. *)
Theorem findMCPRegistriesForConfigMap_enqueues_readers
  (items : list MCPRegistry) (err : error) (name namespace : string) :
  name <> "" ->
  reconciler.findMCPRegistriesForConfigMap (Ok items) name namespace
  = List.map Watching.requestOf
      (List.filter (fun registry => Watching.reads registry name namespace) items) /\
  reconciler.findMCPRegistriesForConfigMap (Err err) name namespace = [].
Proof.
  intros Hn. split; [apply requestsFor_reads, Hn | reflexivity].
Qed.

Lemma findMCPRegistriesForConfigMap_enqueues_readers_witness :
  reconciler.findMCPRegistriesForConfigMap
    (Ok [Fixtures.declaration Fixtures.emptyStatus; controllers.zeroMCPRegistry])
    "registry-data" "toolhive-system"
  = [ {| NamespacedName.Name := "community";
         NamespacedName.Namespace := "toolhive-system" |} ].
Proof.
  rewrite (proj1 (findMCPRegistriesForConfigMap_enqueues_readers
                    [Fixtures.declaration Fixtures.emptyStatus;
                     controllers.zeroMCPRegistry]
                    ErrNotFound "registry-data" "toolhive-system"
                    ltac:(discriminate))).
  reflexivity.
Defined.

Section Deletion.

Lemma storage_Delete_gone s registry s1 :
  storage.Delete s registry = (None, s1) ->
  storage.faults s = [] ->
  storage.configMaps s1 !! StorageView.storageKey registry = None.
Proof.
  unfold storage.Delete. cbv zeta.
  destruct (storage.clientDelete s _ _) as [de sd] eqn:D.
  apply clientDelete_spec in D. destruct D as (_ & Dm & Dn).
  intros E Hf.
  assert (N : StorageView.nextSucceeds s)
    by (unfold StorageView.nextSucceeds; rewrite Hf; exact I).
  specialize (Dn N). unfold StorageView.storageKey.
  destruct (storage.configMaps s
              !! (Namespace registry, storage.getStorageConfigMapName registry))
    eqn:L; subst de.
  - inversion E; subst. rewrite Dm. apply lookup_delete_eq.
  - cbn in E. inversion E; subst. rewrite Dm. exact L.
Qed.

End Deletion.

(** X29. handleDeletion releases the declaration only after its storage is
    cleaned up. For a declaration that holds the finalizer: when the storage
    cleanup fails, the error is returned and the declaration is not touched
    (no API call on it), so the finalizer stays; when handleDeletion returns
    no error, the declaration no longer holds the finalizer (or is gone) and,
    if the delete call reached the API server, its storage ConfigMap is
    gone. No requeue is asked for in either case. *)
Theorem handleDeletion_cleans_up_before_releasing (s : storage.Cluster)
  (c : client.Cluster) (registry : MCPRegistry) :
  controllerutil.ContainsFinalizer registry controllers.MCPRegistryFinalizer = true ->
  let '(result, err, s1, c1) := reconciler.handleDeletion s c registry in
  result = ctrl.empty /\
  (fst (storage.Delete s registry) <> None ->
   err = fst (storage.Delete s registry) /\ c1 = c) /\
  (err = None ->
   Observe.finalizerRemoved c1 /\
   (storage.faults s = [] ->
    storage.configMaps s1 !! StorageView.storageKey registry = None)).
Proof.
  intros Hc. unfold reconciler.handleDeletion. rewrite Hc.
  destruct (storage.Delete s registry) as [[de|] sd] eqn:D; cbn [fst].
  - split; [reflexivity|]. split; [auto | discriminate].
  - destruct (client.Update c _) as [[ue|] cu] eqn:U.
    + split; [reflexivity|]. split; [intros H; contradiction | discriminate].
    + split; [reflexivity|]. split; [intros H; contradiction|]. intros _. split.
      * intros o Ho. eapply Update_finalizerRemoved; [exact U | reflexivity | exact Ho].
      * intros Hf. eapply storage_Delete_gone; eassumption.
Qed.

Lemma handleDeletion_cleans_up_before_releasing_witness :
  reconciler.handleDeletion
    {| storage.configMaps := ∅; storage.registered := true;
       storage.faults := [Some Fixtures.storageUnavailable]; storage.trace := [] |}
    (Fixtures.deleting []) Fixtures.deleted
  = (ctrl.empty,
     Some (fmtErrorfW "failed to delete storage ConfigMap" Fixtures.storageUnavailable),
     {| storage.configMaps := ∅; storage.registered := true;
        storage.faults := []; storage.trace := [storage.CallDelete] |},
     Fixtures.deleting []).
Proof.
  pose proof (handleDeletion_cleans_up_before_releasing
                {| storage.configMaps := ∅; storage.registered := true;
                   storage.faults := [Some Fixtures.storageUnavailable];
                   storage.trace := [] |}
                (Fixtures.deleting []) Fixtures.deleted eq_refl) as H.
  destruct (reconciler.handleDeletion _ _ _) as [[[res err] s1] c1] eqn:E.
  destruct H as (H1 & H2 & _).
  destruct H2 as [H2 H3]; [vm_compute; discriminate|].
  subst res c1. rewrite H2.
  vm_compute in E. inversion E; subst. vm_compute. reflexivity.
Defined.

(** X30. Once a sync is due it stays due: if shouldSync holds at some time it
    holds at every later time, as long as the declaration is the same. For a
    Ready declaration without the trigger annotation under the automatic
    policy that was synced before, it holds exactly when now is strictly
    after lastSyncTime plus the sync interval; at that very instant, for
    which scheduleNextSync asks after a sync, it does not hold yet. *)
Theorem shouldSync_stays_due (ParseDuration : string -> result Duration)
  (now later : Time) (registry : MCPRegistry) :
  (now <= later ->
   reconciler.shouldSync ParseDuration now registry = true ->
   reconciler.shouldSync ParseDuration later registry = true) /\
  (forall policy lastSyncTime,
     Phase (Status registry) = MCPRegistryPhaseReady ->
     reconciler.hasManualSyncTrigger registry = false ->
     SyncPolicy (Spec registry) = Some policy ->
     MCPRegistrySyncPolicy.Type_ policy = reconciler.SyncPolicyAutomatic ->
     LastSyncTime (Status registry) = Some lastSyncTime ->
     reconciler.scheduleNextSync ParseDuration registry
       = ctrl.after (reconciler.getSyncInterval ParseDuration registry) /\
     (reconciler.shouldSync ParseDuration now registry = true <->
      lastSyncTime + reconciler.getSyncInterval ParseDuration registry < now)).
Proof.
  split.
  - intros Hl. unfold reconciler.shouldSync.
    destruct (String.eqb (Phase (Status registry)) MCPRegistryPhasePending
              || String.eqb (Phase (Status registry)) MCPRegistryPhaseFailed);
      [reflexivity|].
    destruct (reconciler.hasManualSyncTrigger registry); [reflexivity|].
    destruct (SyncPolicy (Spec registry)) as [policy|]; [|discriminate].
    destruct (String.eqb (MCPRegistrySyncPolicy.Type_ policy)
                reconciler.SyncPolicyAutomatic); [|discriminate].
    unfold reconciler.shouldAutoSync.
    destruct (LastSyncTime (Status registry)) as [t|]; [|reflexivity].
    cbv zeta. unfold Before, Add. intros H.
    apply Z.ltb_lt in H. apply Z.ltb_lt. lia.
  - intros policy t Hp Ht Hs Ha Hl. split.
    + unfold reconciler.scheduleNextSync. rewrite Hs, Ha. reflexivity.
    + unfold reconciler.shouldSync, reconciler.shouldAutoSync.
      rewrite Hp, Ht, Hs, Ha, Hl. cbn. unfold Before, Add.
      apply Z.ltb_lt.
Qed.

Lemma shouldSync_stays_due_witness :
  reconciler.shouldSync Samples.sampleDuration (50 + 30 * Minute) Samples.automatic
    = false /\
  reconciler.shouldSync Samples.sampleDuration (51 + 30 * Minute) Samples.automatic
    = true.
Proof.
  assert (H : forall now,
            reconciler.shouldSync Samples.sampleDuration now Samples.automatic = true
            <-> 50 + 30 * Minute < now).
  { intros now.
    apply (proj2 (shouldSync_stays_due Samples.sampleDuration now now
                    Samples.automatic)
             {| MCPRegistrySyncPolicy.Type_ := "automatic";
                MCPRegistrySyncPolicy.Interval := "30m" |} 50).
    - reflexivity.
    - vm_compute. reflexivity.
    - reflexivity.
    - reflexivity.
    - reflexivity. }
  split.
  - destruct (reconciler.shouldSync Samples.sampleDuration (50 + 30 * Minute)
                Samples.automatic) eqn:E; [|reflexivity].
    apply H in E. lia.
  - apply H. lia.
Defined.
